(** * XAE: loss arithmetic and training-loop bookkeeping of [XAE/model.py]

    A shallow embedding of the parts of [XAE/model.py] that the repository
    implements itself: the kernel statistics (MMD, HSIC), the KL penalty,
    the constructors' configuration fallbacks and the train loops'
    optimizer alternation, best-model bookkeeping and checkpointing.

    Conventions.
    - Tensor entries and Python floats are idealised as real numbers [R];
      a 2-D tensor is the list of its rows, a batch [x] of [n] samples
      with [d] features being [n] rows of length [d].
    - Python [int]s that are dimensions or counts are [nat]; epoch
      numbers are [Z] and [range] is [seqZ].
    - A Python [dict] with string keys is a [gmap string _].
    - Code of the autodiff framework (networks, losses, optimizers,
      autograd) and of modules that are imported by [model.py]
      ([_base_model], [util], [scipy.special.gamma]) enters as Section
      variables. *)

From stdpp Require Import gmap strings list.
From Stdlib Require Import Ascii Reals Lra Lia.

#[local] Open Scope R_scope.

(** ** Tensor operations used by the losses *)

Module Tensor.

(** [t.sum()] of a 1-D tensor. *)
Definition vsum (v : list R) : R := foldr Rplus 0 v.

(** [t.sum()] of a 2-D tensor. *)
Definition msum (M : list (list R)) : R := vsum (map vsum M).

(** Number of entries of a 2-D tensor. *)
Definition numel (M : list (list R)) : nat := length (concat M).

(** [t.mean()] of a 1-D and of a 2-D tensor. *)
Definition vmean (v : list R) : R := vsum v / INR (length v).
Definition mmean (M : list (list R)) : R := msum M / INR (numel M).

(** [t.mean(dim=1)]: the vector of row means. *)
Definition mean_dim1 (M : list (list R)) : list R := map vmean M.

(** [t.diag()] of a 2-D tensor: the entries [M[i][i]], as many as the
    smaller of the two dimensions. *)
Fixpoint diag_from (i : nat) (M : list (list R)) : list R :=
  match M with
  | [] => []
  | r :: M' =>
      match nth_error r i with
      | Some a => a :: diag_from (S i) M'
      | None => []
      end
  end.
Definition diag (M : list (list R)) : list R := diag_from 0 M.

(** [x.unsqueeze(0) - y.unsqueeze(1)]: shapes [(1,n,d)] and [(m,1,d)]
    broadcast to [(m,n,d)], entry [[j][i]] being the row [x_i - y_j]. *)
Definition broadcast_sub (x y : list (list R)) : list (list (list R)) :=
  map (fun yj => map (fun xi => zip_with Rminus xi yj) x) y.

(** [t.pow(e)] and [t.sum(dim=2)] of a 3-D tensor. *)
Definition pow3 (e : nat) (T : list (list (list R))) : list (list (list R)) :=
  map (map (map (fun v => v ^ e))) T.
Definition sum_dim2 (T : list (list (list R))) : list (list R) :=
  map (map vsum) T.

(** [(x.unsqueeze(0) - y.unsqueeze(1)).pow(2).sum(dim=2)]. *)
Definition dist_table (x y : list (list R)) : list (list R) :=
  sum_dim2 (pow3 2 (broadcast_sub x y)).

(** Entrywise map and entrywise product of 2-D tensors of equal shape. *)
Definition mmap (f : R -> R) (M : list (list R)) : list (list R) :=
  map (map f) M.
Definition mmul (A B : list (list R)) : list (list R) :=
  zip_with (zip_with Rmult) A B.
Definition vmul (a b : list R) : list R := zip_with Rmult a b.

(** [t.transpose(0, 1)] of a 2-D tensor with [c] columns. *)
Definition transpose (c : nat) (M : list (list R)) : list (list R) :=
  map (fun i => map (fun r => nth i r 0) M) (seq 0 c).

(** [t.shape[1]] of a non-empty 2-D tensor. *)
Definition shape1 (M : list (list R)) : nat := length (default [] (head M)).

(** [torch.ones_like(t)] and [torch.zeros_like(t)]. *)
Definition ones_like (M : list (list R)) : list (list R) := mmap (fun _ => 1) M.
Definition zeros_like (M : list (list R)) : list (list R) := mmap (fun _ => 0) M.

(** [q[:, 0:c]] and [q[:, c:]]. *)
Definition cols_to (c : nat) (q : list (list R)) : list (list R) := map (take c) q.
Definition cols_from (c : nat) (q : list (list R)) : list (list R) := map (drop c) q.

(** [t[mask]]: the rows selected by a boolean mask. *)
Definition select (mask : list bool) (q : list (list R)) : list (list R) :=
  map snd (List.filter fst (zip mask q)).

(** A batch of [n] rows with [d] features each. *)
Definition batch (n d : nat) (x : list (list R)) : Prop :=
  length x = n /\ Forall (fun r => length r = d) x.

End Tensor.

Arguments Tensor.vsum : simpl never.
Arguments Tensor.msum : simpl never.

(** ** Python: exceptions, effects, strings, configuration *)

Inductive exn : Type :=
| KeyError (key : string)
| ValueError
| TypeError
| NameError (name : string)
| AttributeError (name : string)
| NotImplementedError
| FileNotFoundError
| StopIteration
| Interrupted.

(** A statement sequence acting on a state [W]: it returns a value or
    raises, and the state it has reached is kept in both cases. *)
Definition prog (W A : Type) : Type := W -> (exn + A) * W.

Definition ret {W A} (a : A) : prog W A := fun w => (inr a, w).
Definition bind {W A B} (c : prog W A) (f : A -> prog W B) : prog W B :=
  fun w =>
    match c w with
    | (inr a, w') => f a w'
    | (inl e, w') => (inl e, w')
    end.
Definition raise {W A} (e : exn) : prog W A := fun w => (inl e, w).
Definition get {W} : prog W W := fun w => (inr w, w).
Definition modify {W} (f : W -> W) : prog W unit := fun w => (inr tt, f w).

Notation "'do' x <- c ; k" := (bind c (fun x => k))
  (at level 10, x name, c at level 100, k at level 200).
Notation "c ;;; k" := (bind c (fun _ => k))
  (at level 100, k at level 200, right associativity).

(** [if b: c]. *)
Definition when {W} (b : bool) (c : prog W unit) : prog W unit :=
  if b then c else ret tt.

(** [for x in l: body x]. *)
Fixpoint for_each {W X} (l : list X) (body : X -> prog W unit) : prog W unit :=
  match l with
  | [] => ret tt
  | x :: l' => body x ;;; for_each l' body
  end.

(** [next(iter(gen))] on a loader [gen]: its first batch, or
    [StopIteration] when it yields none. *)
Definition next_iter {W X} (gen : list X) : prog W X :=
  match gen with
  | [] => raise StopIteration
  | x :: _ => ret x
  end.

(** [try: c  except <handled>: h]. *)
Definition try_except {W A} (c : prog W A) (handled : exn -> bool) (h : prog W A)
  : prog W A :=
  fun w =>
    match c w with
    | (inl e, w') => if handled e then h w' else (inl e, w')
    | r => r
    end.

Definition is_KeyError (e : exn) : bool :=
  match e with KeyError _ => true | _ => false end.

(** [range(a, b)]. *)
Definition py_range (a b : Z) : list Z := seqZ a (b - a).

(** [len(s) > 0] for a string. *)
Definition nonempty (s : string) : bool :=
  match s with EmptyString => false | _ => true end.

(** [s.replace(c, "")] for a one-character [c], and [s.split(c)]. *)
Fixpoint str_remove (c : ascii) (s : string) : string :=
  match s with
  | EmptyString => EmptyString
  | String a s' => if Ascii.eqb a c then str_remove c s' else String a (str_remove c s')
  end.

Fixpoint str_split (c : ascii) (s : string) : list string :=
  match s with
  | EmptyString => [EmptyString]
  | String a s' =>
      if Ascii.eqb a c then EmptyString :: str_split c s'
      else match str_split c s' with
           | [] => [String a EmptyString]
           | w :: ws => String a w :: ws
           end
  end.

(** The parsed configuration: sections of string keys and values.
    [cfg[sec][key]] raises [KeyError] on a missing section or key. *)
Definition getitem {W} (cfg : gmap string (gmap string string)) (sec key : string)
  : prog W string :=
  match cfg !! sec with
  | None => raise (KeyError sec)
  | Some s =>
      match s !! key with
      | None => raise (KeyError key)
      | Some v => ret v
      end
  end.

(** Attribute values of the model objects, and [self.name = v] on the
    attribute dictionary of [self]. *)
Inductive attr : Type :=
| AFloat (r : R)
| AInt (z : Z)
| AIntList (l : list Z)
| AStr (s : string)
| ABool (b : bool)
| AObj (cls : string).

Definition setattr (name : string) (v : attr) : prog (gmap string attr) unit :=
  modify (fun self => <[name := v]> self).

Section Builtins.
(** The builtins [float] and [int] on strings; [None] is [ValueError]. *)
Variable py_float : string -> option R.
Variable py_int : string -> option Z.

Definition float_of {W} (s : string) : prog W R :=
  match py_float s with Some r => ret r | None => raise ValueError end.
Definition int_of {W} (s : string) : prog W Z :=
  match py_int s with Some z => ret z | None => raise ValueError end.

(** [[int(i) for i in l]]. *)
Fixpoint int_list {W} (l : list string) : prog W (list Z) :=
  match l with
  | [] => ret []
  | i :: l' => do z <- int_of i; do zs <- int_list l'; ret (z :: zs)
  end.
End Builtins.

(** ** The train loops: shared state *)

(** The names bound at module level in [model.py]: its imports and its
    classes. *)
Definition module_globals : list string :=
  ["time"; "torch"; "device"; "nn"; "Identity"; "optim"; "SummaryWriter"; "tf"; "tb";
   "inc_avg"; "save_sample_images"; "reparameterize"; "gather_centroid";
   "dataset"; "sampler";
   "XAE_abstract"; "XAE_adv_abstract"; "CXAE_abstract"; "CXAE_adv_abstract";
   "np"; "plt"; "gamma";
   "classifier_abstract"; "WAE_MMD_abstract"; "CWAE_MMD_abstract"; "EWAE_MMD_abstract";
   "WAE_GAN_abstract"; "CWAE_GAN_abstract"; "EWAE_GAN_abstract"; "SSWAE_HSIC_dev";
   "SSWAE_HSIC_dev2"; "SSWAE_HSIC_dev2_2"; "SSWAE_HSIC_dev3"; "VAE_abstract";
   "CVAE_abstract"; "SSWAE_MMD_abstract"; "SSWAE_GAN_abstract"; "SSWAE_MMD_dev";
   "SSWAE_GAN_dev"; "SSWAE_HSIC_abstract"; "SSWAE_adv_abstract"].

(** The state of a running [train]: the local variables that hold
    metric accumulators ([inc_avg] objects of type [A]), by name, and the
    rest of the state, [W]. *)
Record env (A W : Type) : Type := Env { accs : gmap string A; st : W }.
Arguments Env {A W} _ _.
Arguments accs {A W} _.
Arguments st {A W} _.

(** [name = a]. *)
Definition assign {A W} (name : string) (a : A) : prog (env A W) unit :=
  modify (fun e => Env (<[name := a]> (accs e)) (st e)).

(** Reading the accumulator [name]: a local of that name; failing that
    a module-level name (none of which has the attributes of an
    accumulator); failing that [NameError]. *)
Definition load {A W} (name : string) : prog (env A W) A :=
  do e <- get;
  match accs e !! name with
  | Some a => ret a
  | None =>
      if bool_decide (name ∈ module_globals) then raise (AttributeError name)
      else raise (NameError name)
  end.

Definition get_st {A W} : prog (env A W) W := do e <- get; ret (st e).
Definition update_st {A W} (f : W -> W) : prog (env A W) unit :=
  modify (fun e => Env (accs e) (f (st e))).

(** A function starts with no locals; a call inside [train] runs on a
    frame of its own and gives the caller's frame back on return. *)
Definition new_frame {A W} : prog (env A W) unit :=
  modify (fun e => Env ∅ (st e)).
Definition call {A W} (c : prog (env A W) unit) : prog (env A W) unit :=
  do e0 <- get;
  new_frame ;;;
  c ;;;
  modify (fun e => Env (accs e0) (st e)).

(** [util.inc_avg]: an incremental weighted average. *)
Record inc_avg_ops (A : Type) : Type := IncAvg {
  inc_avg_new : A;
  inc_avg_append : A -> R -> nat -> A;
  inc_avg_avg : A -> R
}.
Arguments IncAvg {A} _ _ _.
Arguments inc_avg_new {A} _.
Arguments inc_avg_append {A} _ _ _ _.
Arguments inc_avg_avg {A} _ _.

(** [name.append(v, n)] and [name.avg]. *)
Definition acc_append {A W} (ia : inc_avg_ops A) (name : string) (v : R) (n : nat)
  : prog (env A W) unit :=
  do a <- load name; assign name (inc_avg_append ia a v n).
Definition acc_avg {A W} (ia : inc_avg_ops A) (name : string) : prog (env A W) R :=
  do a <- load name; ret (inc_avg_avg ia a).

(** The attributes of [self] that the train loops read. *)
Record hparams : Type := HParams {
  encoder_pretrain : bool;
  encoder_pretrain_step : Z;
  lr_schedule : string;
  save_state : string;
  num_epoch : Z;
  validate_batch : bool;
  save_best : bool;
  lamb : R;
  lamb_mmd : R;
  lamb_hsic : R;
  y_dim : nat
}.

(** Values stored in a checkpoint dictionary: the epoch number and the
    [state_dict()] of the model, of an optimizer and of a scheduler. *)
Inductive ckpt_value (M O S : Type) : Type :=
| CkInt (z : Z)
| CkModel (m : M)
| CkOptim (o : O)
| CkSched (s : S).
Arguments CkInt {M O S} _.
Arguments CkModel {M O S} _.
Arguments CkOptim {M O S} _.
Arguments CkSched {M O S} _.

(** [checkpoint[key]], read as a value of the expected kind. *)
Definition ckpt_int {M O S W} (c : gmap string (ckpt_value M O S)) (key : string)
  : prog W Z :=
  match c !! key with
  | Some (CkInt z) => ret z
  | Some _ => raise TypeError
  | None => raise (KeyError key)
  end.
Definition ckpt_model {M O S W} (c : gmap string (ckpt_value M O S)) (key : string)
  : prog W M :=
  match c !! key with
  | Some (CkModel m) => ret m
  | Some _ => raise TypeError
  | None => raise (KeyError key)
  end.
Definition ckpt_optim {M O S W} (c : gmap string (ckpt_value M O S)) (key : string)
  : prog W O :=
  match c !! key with
  | Some (CkOptim o) => ret o
  | Some _ => raise TypeError
  | None => raise (KeyError key)
  end.
Definition ckpt_sched {M O S W} (c : gmap string (ckpt_value M O S)) (key : string)
  : prog W S :=
  match c !! key with
  | Some (CkSched s) => ret s
  | Some _ => raise TypeError
  | None => raise (KeyError key)
  end.

(** [self.best_obj[1] > obj]. *)
Definition Rgtb (a b : R) : bool := if Rgt_dec a b then true else false.

(** The state of the single-optimizer loops besides the accumulators:
    attributes of [self], locals of [train], the two files. *)
Record loop_state (M O S : Type) : Type := LoopState {
  params : M;                       (* the parameters, [self.state_dict()] *)
  best_obj : Z * R;                 (* [self.best_obj] *)
  hist : list (list R);             (* [self.hist] *)
  optimizer : O;
  scheduler : S;
  train_main_list : list R;
  train_penalty_list : list R;
  test_main_list : list R;
  test_penalty_list : list R;
  save_path_file : option M;        (* the file at [self.save_path] *)
  save_state_file : option (gmap string (ckpt_value M O S));
                                    (* the file at [self.save_state] *)
  epochs_run : list Z               (* ghost: the epochs whose iteration ran to its end *)
}.
Arguments LoopState {M O S}.
Arguments params {M O S} _.
Arguments best_obj {M O S} _.
Arguments hist {M O S} _.
Arguments optimizer {M O S} _.
Arguments scheduler {M O S} _.
Arguments train_main_list {M O S} _.
Arguments train_penalty_list {M O S} _.
Arguments test_main_list {M O S} _.
Arguments test_penalty_list {M O S} _.
Arguments save_path_file {M O S} _.
Arguments save_state_file {M O S} _.
Arguments epochs_run {M O S} _.

(** What the loops use of the framework and of [_base_model]. *)
Record framework (M O S Batch : Type) : Type := Framework {
  optim_Adam : M -> O;                    (* [optim.Adam(parameters, lr, betas)] *)
  lr_scheduler : O -> S;                  (* [self.lr_scheduler(optimizer)] *)
  scheduler_step : S -> O -> S * O;       (* [scheduler.step()] *)
  optimize : (M -> R) -> M -> O -> M * O; (* [zero_grad()] of the trainable nets,
                                             [obj.backward()], [optimizer.step()] *)
  batch_len : Batch -> nat;               (* [len(data)] *)
  train_generator : Z -> list Batch;      (* the batches drawn in an epoch *)
  test_generator : Z -> list Batch
}.
Arguments Framework {M O S Batch}.
Arguments optim_Adam {M O S Batch} _.
Arguments lr_scheduler {M O S Batch} _.
Arguments scheduler_step {M O S Batch} _.
Arguments optimize {M O S Batch} _.
Arguments batch_len {M O S Batch} _.
Arguments train_generator {M O S Batch} _.
Arguments test_generator {M O S Batch} _.

Section SingleOptimizer.
Context {M O S A : Type}.

(** [self.save(self.save_path)]. *)
Definition save : prog (env A (loop_state M O S)) unit :=
  update_st (fun w =>
    LoopState (params w) (best_obj w) (hist w) (optimizer w) (scheduler w)
      (train_main_list w) (train_penalty_list w) (test_main_list w) (test_penalty_list w)
      (Some (params w)) (save_state_file w) (epochs_run w)).

Definition set_params_optimizer (m : M) (o : O) : prog (env A (loop_state M O S)) unit :=
  update_st (fun w =>
    LoopState m (best_obj w) (hist w) o (scheduler w)
      (train_main_list w) (train_penalty_list w) (test_main_list w) (test_penalty_list w)
      (save_path_file w) (save_state_file w) (epochs_run w)).

Definition set_scheduler_optimizer (s : S) (o : O) : prog (env A (loop_state M O S)) unit :=
  update_st (fun w =>
    LoopState (params w) (best_obj w) (hist w) o s
      (train_main_list w) (train_penalty_list w) (test_main_list w) (test_penalty_list w)
      (save_path_file w) (save_state_file w) (epochs_run w)).

Definition set_best_obj (b : Z * R) : prog (env A (loop_state M O S)) unit :=
  update_st (fun w =>
    LoopState (params w) b (hist w) (optimizer w) (scheduler w)
      (train_main_list w) (train_penalty_list w) (test_main_list w) (test_penalty_list w)
      (save_path_file w) (save_state_file w) (epochs_run w)).

Definition set_hist (h : list (list R)) : prog (env A (loop_state M O S)) unit :=
  update_st (fun w =>
    LoopState (params w) (best_obj w) h (optimizer w) (scheduler w)
      (train_main_list w) (train_penalty_list w) (test_main_list w) (test_penalty_list w)
      (save_path_file w) (save_state_file w) (epochs_run w)).

Definition set_lists (a b c d : list R) : prog (env A (loop_state M O S)) unit :=
  update_st (fun w =>
    LoopState (params w) (best_obj w) (hist w) (optimizer w) (scheduler w)
      a b c d (save_path_file w) (save_state_file w) (epochs_run w)).

(** [torch.save(save_dict, self.save_state)]. *)
Definition torch_save (save_dict : gmap string (ckpt_value M O S))
  : prog (env A (loop_state M O S)) unit :=
  update_st (fun w =>
    LoopState (params w) (best_obj w) (hist w) (optimizer w) (scheduler w)
      (train_main_list w) (train_penalty_list w) (test_main_list w) (test_penalty_list w)
      (save_path_file w) (Some save_dict) (epochs_run w)).

(** [torch.load(self.save_state)]. *)
Definition torch_load : prog (env A (loop_state M O S)) (gmap string (ckpt_value M O S)) :=
  do w <- get_st;
  match save_state_file w with
  | Some checkpoint => ret checkpoint
  | None => raise FileNotFoundError
  end.

(** Ghost: the iteration of [epoch] has run to its end. *)
Definition epoch_done (epoch : Z) : prog (env A (loop_state M O S)) unit :=
  update_st (fun w =>
    LoopState (params w) (best_obj w) (hist w) (optimizer w) (scheduler w)
      (train_main_list w) (train_penalty_list w) (test_main_list w) (test_penalty_list w)
      (save_path_file w) (save_state_file w) (epochs_run w ++ [epoch])).

End SingleOptimizer.

(** The epoch loop of a process that is killed once [k] iterations have
    run to their end ([kill = Some k]), or that is left to run
    ([kill = None]).  What the iteration under way has done to the state
    in memory is lost with the process; each iteration writes the file
    at [self.save_state] with its last statement. *)
Definition epoch_loop {W} (kill : option nat) (epochs : list Z)
    (body : Z -> prog W unit) : prog W unit :=
  match kill with
  | None => for_each epochs body
  | Some k =>
      if (k <? length epochs)%nat
      then for_each (take k epochs) body ;;; raise Interrupted
      else for_each epochs body
  end.

(** The epochs that the loop over [l] runs to their end, and whether
    the process is killed inside the loop. *)
Definition ran (kill : option nat) (l : list Z) : list Z :=
  match kill with Some k => take k l | None => l end.
Definition killed (kill : option nat) (l : list Z) : bool :=
  match kill with Some k => (k <? length l)%nat | None => false end.


(** ** The two-optimizer loop: state *)

(** What a training batch acts on: the parameters of the nets in
    [encoder_trainable] and [decoder_trainable] ([enc_dec]) and of those
    in [discriminator_trainable] ([disc]), taken to be disjoint; for
    each group the gradients accumulated in [.grad] since its last
    [zero_grad()], one entry per [backward()]; the two optimizers; and,
    as ghost state, the numbers of [step()] calls. *)
Record learner (PM PD GM GD O : Type) : Type := Learner {
  enc_dec : PM;
  disc : PD;
  grad_main : list GM;
  grad_disc : list GD;
  optimizer_main : O;
  optimizer_adv : O;
  main_steps : nat;
  adv_steps : nat
}.
Arguments Learner {PM PD GM GD O}.
Arguments enc_dec {PM PD GM GD O} _.
Arguments disc {PM PD GM GD O} _.
Arguments grad_main {PM PD GM GD O} _.
Arguments grad_disc {PM PD GM GD O} _.
Arguments optimizer_main {PM PD GM GD O} _.
Arguments optimizer_adv {PM PD GM GD O} _.
Arguments main_steps {PM PD GM GD O} _.
Arguments adv_steps {PM PD GM GD O} _.

Record adv_state (PM PD GM GD O S : Type) : Type := AdvState {
  learn : learner PM PD GM GD O;
  scheduler_main : S;
  scheduler_adv : S;
  adv_best_obj : Z * R;
  adv_hist : list (list R);
  lists : gmap string (list R);     (* the locals [train_main_list], ... by name *)
  adv_save_path_file : option (PM * PD);
  adv_save_state_file : option (gmap string (ckpt_value (PM * PD) O S));
  adv_epochs_run : list Z
}.
Arguments AdvState {PM PD GM GD O S}.
Arguments learn {PM PD GM GD O S} _.
Arguments scheduler_main {PM PD GM GD O S} _.
Arguments scheduler_adv {PM PD GM GD O S} _.
Arguments adv_best_obj {PM PD GM GD O S} _.
Arguments adv_hist {PM PD GM GD O S} _.
Arguments lists {PM PD GM GD O S} _.
Arguments adv_save_path_file {PM PD GM GD O S} _.
Arguments adv_save_state_file {PM PD GM GD O S} _.
Arguments adv_epochs_run {PM PD GM GD O S} _.

(** A batch of the data loader, with the random draws made for it:
    [self.generate_prior(n)] and, in validation, [self.y_sampler(n, ...)]. *)
Record batch (Img : Type) : Type := Batch {
  data : Img;
  condition : list (list R);
  prior_z : list (list R);
  y_sample : list (list R)
}.
Arguments Batch {Img}.
Arguments data {Img} _.
Arguments condition {Img} _.
Arguments prior_z {Img} _.
Arguments y_sample {Img} _.

(** What the loop uses of the framework and of [_base_model]: the
    optimizers and schedulers; autograd, as the gradient of an objective
    with respect to each parameter group (the flag tells whether the nets
    of [self.pretrain_freeze] have [requires_grad = False]); the networks
    and losses; the data loaders. *)
Record adv_framework (PM PD GM GD O S Img : Type) : Type := AdvFramework {
  Adam_main : PM -> O;
  Adam_adv : PD -> O;
  adv_lr_scheduler : O -> S;
  adv_scheduler_step : S -> O -> S * O;
  adam_main : O -> PM -> list GM -> O * PM;    (* [optimizer_main.step()] *)
  adam_adv : O -> PD -> list GD -> O * PD;     (* [optimizer_adv.step()] *)
  grad_M : bool -> (PM -> PD -> R) -> PM -> PD -> GM;
  grad_D : bool -> (PM -> PD -> R) -> PM -> PD -> GD;
  embed_data : PM -> Img -> list (list R);
  embed_condition : PM -> list (list R) -> list (list R);
  enc : PM -> list (list R) -> list (list R);
  decode : PM -> list (list R) -> Img;
  main_loss : Img -> Img -> R;
  discriminate : PD -> list (list R) -> list (list R);
  disc_loss : list (list R) -> list (list R) -> R;
  gamma : R -> R;
  img_len : Img -> nat;
  pretrain_generator : Z -> list (batch Img);
  adv_train_generator : Z -> list (batch Img);
  adv_test_generator : Z -> list (batch Img)
}.
Arguments AdvFramework {PM PD GM GD O S Img}.
Arguments Adam_main {PM PD GM GD O S Img} _.
Arguments Adam_adv {PM PD GM GD O S Img} _.
Arguments adv_lr_scheduler {PM PD GM GD O S Img} _.
Arguments adv_scheduler_step {PM PD GM GD O S Img} _.
Arguments adam_main {PM PD GM GD O S Img} _.
Arguments adam_adv {PM PD GM GD O S Img} _.
Arguments grad_M {PM PD GM GD O S Img} _.
Arguments grad_D {PM PD GM GD O S Img} _.
Arguments embed_data {PM PD GM GD O S Img} _.
Arguments embed_condition {PM PD GM GD O S Img} _.
Arguments enc {PM PD GM GD O S Img} _.
Arguments decode {PM PD GM GD O S Img} _.
Arguments main_loss {PM PD GM GD O S Img} _.
Arguments discriminate {PM PD GM GD O S Img} _.
Arguments disc_loss {PM PD GM GD O S Img} _.
Arguments gamma {PM PD GM GD O S Img} _.
Arguments img_len {PM PD GM GD O S Img} _.
Arguments pretrain_generator {PM PD GM GD O S Img} _.
Arguments adv_train_generator {PM PD GM GD O S Img} _.
Arguments adv_test_generator {PM PD GM GD O S Img} _.

(** [t.ge(c)] on a number. *)
Definition Rgeb (a b : R) : bool := if Rge_dec a b then true else false.

(** ** Kernel statistics and penalties *)

(** The seven kernel scales of every [k]. *)
Definition scales : list R := [0.1; 0.2; 0.5; 1.0; 2.0; 5.0; 10.0].

Module WAE_MMD_abstract.
Section Self.
Variable z_dim : nat.

Definition k (x y : list (list R)) (diag : bool) : R :=
  fold_left
    (fun stat scale =>
       let C := scale * 2 * INR z_dim * 2 in
       let kernel := Tensor.mmap (fun d => C / (C + d)) (Tensor.dist_table x y) in
       if diag then stat + Tensor.msum kernel
       else stat + (Tensor.msum kernel - Tensor.vsum (Tensor.diag kernel)))
    scales 0.0.

Definition penalty_loss (x y : list (list R)) (n : nat) : R :=
  (k x x false + k y y false) / INR (n * (n - 1)) - 2 * k x y true / INR (n * n).
End Self.
End WAE_MMD_abstract.

Module CWAE_MMD_abstract.
Section Self.
Variable z_dim : nat.

Definition k (x y : list (list R)) (diag : bool) : R :=
  fold_left
    (fun stat scale =>
       let C := scale * 2 * INR z_dim * 2 in
       let kernel := Tensor.mmap (fun d => C / (C + d)) (Tensor.dist_table x y) in
       if diag then stat + Tensor.msum kernel
       else stat + (Tensor.msum kernel - Tensor.vsum (Tensor.diag kernel)))
    scales 0.0.

Definition penalty_loss (x y : list (list R)) (n : nat) : R :=
  (k x x false + k y y false) / INR (n * (n - 1)) - 2 * k x y true / INR (n * n).
End Self.
End CWAE_MMD_abstract.

(** [CWAE_GAN_abstract]: the discriminator network [discriminate] is
    defined in [_base_model], [disc_loss] is the framework's
    [BCEWithLogitsLoss]; both are indexed by the discriminator
    parameters they are evaluated with. *)
Module CWAE_GAN_abstract.
Definition __init__
    (CXAE_adv_abstract_init : gmap string (gmap string string) -> prog (gmap string attr) unit)
    (cfg : gmap string (gmap string string)) : prog (gmap string attr) unit :=
  CXAE_adv_abstract_init cfg ;;;
  setattr "loss" (AObj "MSELoss") ;;;
  setattr "disc_loss" (AObj "BCEWithLogitsLoss").

Section Self.
Variable discriminate : list (list R) -> list (list R).
Variable disc_loss : list (list R) -> list (list R) -> R.

Definition penalty_loss (q : list (list R)) : R :=
  let qz := discriminate q in
  disc_loss qz (Tensor.ones_like qz).

Definition adv_loss (p q : list (list R)) : R :=
  let pz := discriminate p in
  let qz := discriminate q in
  disc_loss pz (Tensor.ones_like pz) + disc_loss qz (Tensor.zeros_like qz).
End Self.
End CWAE_GAN_abstract.

Module SSWAE_HSIC_dev.
Section Self.
Variable y_dim : nat.
Variable discriminate : list (list R) -> list (list R).
Variable disc_loss : list (list R) -> list (list R) -> R.
(** [scipy.special.gamma]. *)
Variable gamma : R -> R.

Definition k (x y : list (list R)) (diag : bool) : R :=
  fold_left
    (fun stat scale =>
       let C := scale * 2 * INR y_dim * 2 in
       let kernel := Tensor.mmap (fun d => C / (C + d)) (Tensor.dist_table x y) in
       if diag then stat + Tensor.msum kernel
       else stat + (Tensor.msum kernel - Tensor.vsum (Tensor.diag kernel)))
    scales 0.0.

Definition bandwidth (d : nat) : R :=
  let gz := 2 * gamma (0.5 * (INR d + 1)) / gamma (0.5 * INR d) in
  1.0 / (2.0 * gz ^ 2).

Definition knl (x y : list (list R)) (gam : R) : list (list R) :=
  let dist_table := Tensor.dist_table x y in
  Tensor.transpose (length x) (Tensor.mmap (fun d => exp (- gam * d)) dist_table).

(** [hsic]: the value of [res] before the clamp, then
    [res.clamp(min=1e-16).sqrt()]. *)
Definition hsic_res (x y : list (list R)) : R :=
  let dx := Tensor.shape1 x in
  let dy := Tensor.shape1 y in
  let xx := knl x x (bandwidth dx) in
  let yy := knl y y (bandwidth dy) in
  let res := Tensor.mmean (Tensor.mmul xx yy) + Tensor.mmean xx * Tensor.mmean yy in
  let res :=
    res - 2 * Tensor.vmean (Tensor.vmul (Tensor.mean_dim1 xx) (Tensor.mean_dim1 yy)) in
  res.

Definition hsic (x y : list (list R)) : R :=
  sqrt (Rmax (hsic_res x y) 1e-16).

Definition penalty_loss (q prior_y : list (list R)) (n : nat) : R * R * R :=
  let x := Tensor.cols_to y_dim q in
  let y := prior_y in
  let mmd :=
    (k x x false + k y y false) / INR (n * (n - 1)) - 2 * k x y true / INR (n * n) in
  let z := Tensor.cols_from y_dim q in
  let qz := discriminate z in
  let gan := disc_loss qz (Tensor.ones_like qz) in
  let hsic := hsic x z in
  (gan, mmd, hsic).

(** [valid_y] is a boolean mask over the rows; [valid_y.any()] and
    [valid_y.sum()]. *)
Definition penalty_loss_mask (q y : list (list R)) (valid_y : list bool) : R * R * R :=
  let x := Tensor.cols_to y_dim q in
  let mmd :=
    if existsb (fun b => b) valid_y then
      let n := length (List.filter (fun b => b) valid_y) in
      (k (Tensor.select valid_y x) (Tensor.select valid_y x) false
       + k (Tensor.select valid_y y) (Tensor.select valid_y y) false) / INR (n * (n - 1))
      - 2 * k (Tensor.select valid_y x) (Tensor.select valid_y y) true / INR (n * n)
    else 0.0 in
  let z := Tensor.cols_from y_dim q in
  let qz := discriminate z in
  let gan := disc_loss qz (Tensor.ones_like qz) in
  let hsic := hsic x z in
  (gan, mmd, hsic).
End Self.

Section Train.
Context {PM PD GM GD O S Img A : Type}.
Variable fw : adv_framework PM PD GM GD O S Img.
Variable ia : inc_avg_ops A.
Variable hp : hparams.

Definition encode (pm : PM) (x : Img) : list (list R) :=
  let xx := embed_data fw pm x in
  zip_with app (embed_condition fw pm xx) (enc fw pm xx).

(** [net.zero_grad()] for the nets of a group, [obj.backward()] and
    the two [step()]s. *)
Definition zero_grad_disc (l : learner PM PD GM GD O) : learner PM PD GM GD O :=
  Learner (enc_dec l) (disc l) (grad_main l) [] (optimizer_main l) (optimizer_adv l)
          (main_steps l) (adv_steps l).
Definition zero_grad_main (l : learner PM PD GM GD O) : learner PM PD GM GD O :=
  Learner (enc_dec l) (disc l) [] (grad_disc l) (optimizer_main l) (optimizer_adv l)
          (main_steps l) (adv_steps l).
Definition backward (frozen : bool) (obj : PM -> PD -> R) (l : learner PM PD GM GD O)
  : learner PM PD GM GD O :=
  Learner (enc_dec l) (disc l)
          (grad_main l ++ [grad_M fw frozen obj (enc_dec l) (disc l)])
          (grad_disc l ++ [grad_D fw frozen obj (enc_dec l) (disc l)])
          (optimizer_main l) (optimizer_adv l) (main_steps l) (adv_steps l).
Definition step_adv (l : learner PM PD GM GD O) : learner PM PD GM GD O :=
  let '(o, pd) := adam_adv fw (optimizer_adv l) (disc l) (grad_disc l) in
  Learner (enc_dec l) pd (grad_main l) (grad_disc l) (optimizer_main l) o
          (main_steps l) (Datatypes.S (adv_steps l)).
Definition step_main (l : learner PM PD GM GD O) : learner PM PD GM GD O :=
  let '(o, pm) := adam_main fw (optimizer_main l) (enc_dec l) (grad_main l) in
  Learner pm (disc l) (grad_main l) (grad_disc l) o (optimizer_adv l)
          (Datatypes.S (main_steps l)) (adv_steps l).

(** [obj_adv] and [obj] of a training batch, as functions of the
    parameters. *)
Definition obj_adv (b : batch Img) (pm : PM) (pd : PD) : R :=
  let x := data b in
  let fake_latent := Tensor.cols_from (y_dim hp) (encode pm x) in
  let adv :=
    CWAE_GAN_abstract.adv_loss (discriminate fw pd) (disc_loss fw) (prior_z b) fake_latent in
  lamb hp * adv.

Definition valid_y (y : list (list R)) : list bool :=
  map (fun r => Rgeb (Tensor.vsum r) 0.5) y.

(** [mmd.item()] on the [mmd] of [penalty_loss_mask]: a tensor when
    [valid_y.any()], else the Python float [0.0], which has no [item]. *)
Definition mmd_item {W} (valid_y : list bool) (mmd : R) : prog W R :=
  if existsb (fun b => b) valid_y then ret mmd else raise (AttributeError "item").

Definition loss (b : batch Img) (pm : PM) : R :=
  let x := data b in
  let fake_latent := encode pm x in
  let recon := decode fw pm fake_latent in
  main_loss fw x recon.

Definition penalties (b : batch Img) (pm : PM) (pd : PD) : R * R * R :=
  let y := condition b in
  penalty_loss_mask (y_dim hp) (discriminate fw pd) (disc_loss fw) (gamma fw)
                    (encode pm (data b)) y (valid_y y).

Definition obj (b : batch Img) (pm : PM) (pd : PD) : R :=
  let loss := loss b pm in
  if Rgtb (lamb hp) 0 then
    let '(gan, mmd, hsic) := penalties b pm pd in
    loss + lamb hp * gan + lamb_mmd hp * mmd + lamb_hsic hp * hsic
  else loss.

(** The [if self.lamb > 0:] block that opens a training batch, and
    the rest of the batch up to [optimizer_main.step()]. *)
Definition adv_update (frozen : bool) (b : batch Img) (l : learner PM PD GM GD O)
  : learner PM PD GM GD O :=
  if Rgtb (lamb hp) 0 then
    let l := zero_grad_disc l in
    let l := backward frozen (obj_adv b) l in
    step_adv l
  else l.

Definition main_update (frozen : bool) (b : batch Img) (l : learner PM PD GM GD O)
  : learner PM PD GM GD O :=
  let l := zero_grad_main l in
  let l := backward frozen (obj b) l in
  step_main l.

Definition batch_update (frozen : bool) (b : batch Img) (l : learner PM PD GM GD O)
  : learner PM PD GM GD O :=
  main_update frozen b (adv_update frozen b l).

Definition set_learn (l : learner PM PD GM GD O)
  : prog (env A (adv_state PM PD GM GD O S)) unit :=
  update_st (fun w =>
    AdvState l (scheduler_main w) (scheduler_adv w) (adv_best_obj w) (adv_hist w)
      (lists w) (adv_save_path_file w) (adv_save_state_file w) (adv_epochs_run w)).
Definition set_schedulers (sm sa : S)
  : prog (env A (adv_state PM PD GM GD O S)) unit :=
  update_st (fun w =>
    AdvState (learn w) sm sa (adv_best_obj w) (adv_hist w)
      (lists w) (adv_save_path_file w) (adv_save_state_file w) (adv_epochs_run w)).
Definition set_adv_best_obj (b : Z * R)
  : prog (env A (adv_state PM PD GM GD O S)) unit :=
  update_st (fun w =>
    AdvState (learn w) (scheduler_main w) (scheduler_adv w) b (adv_hist w)
      (lists w) (adv_save_path_file w) (adv_save_state_file w) (adv_epochs_run w)).
Definition set_adv_hist (h : list (list R))
  : prog (env A (adv_state PM PD GM GD O S)) unit :=
  update_st (fun w =>
    AdvState (learn w) (scheduler_main w) (scheduler_adv w) (adv_best_obj w) h
      (lists w) (adv_save_path_file w) (adv_save_state_file w) (adv_epochs_run w)).
Definition set_list (name : string) (v : list R)
  : prog (env A (adv_state PM PD GM GD O S)) unit :=
  update_st (fun w =>
    AdvState (learn w) (scheduler_main w) (scheduler_adv w) (adv_best_obj w) (adv_hist w)
      (<[name := v]> (lists w)) (adv_save_path_file w) (adv_save_state_file w)
      (adv_epochs_run w)).
(** [name.append(v)] on a list. *)
Definition list_append (name : string) (v : R)
  : prog (env A (adv_state PM PD GM GD O S)) unit :=
  do w <- get_st; set_list name (default [] (lists w !! name) ++ [v]).
Definition adv_save : prog (env A (adv_state PM PD GM GD O S)) unit :=
  update_st (fun w =>
    AdvState (learn w) (scheduler_main w) (scheduler_adv w) (adv_best_obj w) (adv_hist w)
      (lists w) (Some (enc_dec (learn w), disc (learn w))) (adv_save_state_file w)
      (adv_epochs_run w)).
Definition adv_torch_save (save_dict : gmap string (ckpt_value (PM * PD) O S))
  : prog (env A (adv_state PM PD GM GD O S)) unit :=
  update_st (fun w =>
    AdvState (learn w) (scheduler_main w) (scheduler_adv w) (adv_best_obj w) (adv_hist w)
      (lists w) (adv_save_path_file w) (Some save_dict) (adv_epochs_run w)).
Definition adv_torch_load
  : prog (env A (adv_state PM PD GM GD O S)) (gmap string (ckpt_value (PM * PD) O S)) :=
  do w <- get_st;
  match adv_save_state_file w with
  | Some checkpoint => ret checkpoint
  | None => raise FileNotFoundError
  end.
Definition adv_epoch_done (epoch : Z)
  : prog (env A (adv_state PM PD GM GD O S)) unit :=
  update_st (fun w =>
    AdvState (learn w) (scheduler_main w) (scheduler_adv w) (adv_best_obj w) (adv_hist w)
      (lists w) (adv_save_path_file w) (adv_save_state_file w)
      (adv_epochs_run w ++ [epoch])).

(** The body of [for i, (data, condition) in enumerate(...)] of
    [pretrain_encoder] and of [train]: the same statements. *)
Definition train_batch (frozen : bool) (b : batch Img)
  : prog (env A (adv_state PM PD GM GD O S)) unit :=
  do w <- get_st;
  let n := img_len fw (data b) in
  (* the values of [loss], [gan], [mmd], [hsic]: those of the forward
     pass, made after the discriminator step *)
  let l := adv_update frozen b (learn w) in
  let loss := loss b (enc_dec l) in
  let '(gan, mmd, hsic) := penalties b (enc_dec l) (disc l) in
  set_learn (batch_update frozen b (learn w)) ;;;
  acc_append ia "train_loss_main" loss n ;;;
  when (Rgtb (lamb hp) 0)
    (acc_append ia "train_loss_penalty" gan n ;;;
     do a <- load "train_loss_penalty2";
     do mmd <- mmd_item (valid_y (condition b)) mmd;
     assign "train_loss_penalty2" (inc_avg_append ia a mmd n) ;;;
     acc_append ia "train_loss_penalty3" hsic n).

Definition pretrain_encoder : prog (env A (adv_state PM PD GM GD O S)) unit :=
  do w <- get_st;
  let l := learn w in
  (* the optimizers of [pretrain_encoder] are its own locals *)
  set_learn (Learner (enc_dec l) (disc l) (grad_main l) (grad_disc l)
                     (Adam_main fw (enc_dec l)) (Adam_adv fw (disc l))
                     (main_steps l) (adv_steps l)) ;;;
  for_each (py_range 0 (encoder_pretrain_step hp)) (fun epoch =>
    assign "train_loss_main" (inc_avg_new ia) ;;;
    assign "train_loss_penalty" (inc_avg_new ia) ;;;
    assign "train_loss_penalty2" (inc_avg_new ia) ;;;
    assign "train_loss_penalty3" (inc_avg_new ia) ;;;
    for_each (pretrain_generator fw epoch) (train_batch true)).

Definition save_dict (epoch : Z) (w : adv_state PM PD GM GD O S)
  : gmap string (ckpt_value (PM * PD) O S) :=
  let save_dict : gmap string (ckpt_value (PM * PD) O S) :=
    {[ "epoch" := CkInt (epoch + 1);
       "model_state_dict" := CkModel (enc_dec (learn w), disc (learn w));
       "optimizer_main_state_dict" := CkOptim (optimizer_main (learn w));
       "optimizer_adv_state_dict" := CkOptim (optimizer_adv (learn w)) ]} in
  if nonempty (lr_schedule hp)
  then <["scheduler_adv" := CkSched (scheduler_adv w)]>
         (<["scheduler_main" := CkSched (scheduler_main w)]> save_dict)
  else save_dict.

Definition train_epoch (epoch : Z) : prog (env A (adv_state PM PD GM GD O S)) unit :=
  (* train_step *)
  assign "train_loss_main" (inc_avg_new ia) ;;;
  assign "train_loss_penalty" (inc_avg_new ia) ;;;
  assign "train_loss_penalty2" (inc_avg_new ia) ;;;
  assign "train_loss_penalty3" (inc_avg_new ia) ;;;
  for_each (adv_train_generator fw epoch) (train_batch false) ;;;
  do a <- acc_avg ia "train_loss_main"; list_append "train_main_list" a ;;;
  do a <- acc_avg ia "train_loss_penalty"; list_append "train_penalty_list" a ;;;
  do a <- acc_avg ia "train_loss_penalty2"; list_append "train_penalty2_list" a ;;;
  do a <- acc_avg ia "train_loss_penalty3"; list_append "train_penalty3_list" a ;;;
  (* validation_step *)
  assign "test_loss_main" (inc_avg_new ia) ;;;
  assign "test_loss_penalty" (inc_avg_new ia) ;;;
  assign "test_loss_penalty2" (inc_avg_new ia) ;;;
  assign "test_loss_penalty3" (inc_avg_new ia) ;;;
  when (validate_batch hp)
    (for_each (adv_test_generator fw epoch) (fun b =>
       do w <- get_st;
       let n := img_len fw (data b) in
       let x := data b in
       let y :=
         if negb (y_dim hp =? Tensor.shape1 (condition b))%nat
         then y_sample b else condition b in
       let fake_latent := encode (enc_dec (learn w)) x in
       let recon := decode fw (enc_dec (learn w)) fake_latent in
       let loss1 := main_loss fw x recon in
       acc_append ia "test_loss_main" loss1 n ;;;
       when (Rgtb (lamb hp) 0)
         (let '(gan, mmd, hsic) :=
            penalty_loss (y_dim hp) (discriminate fw (disc (learn w))) (disc_loss fw)
                         (gamma fw) fake_latent y n in
          acc_append ia "test_loss_penalty" gan n ;;;
          acc_append ia "test_loss_penalty2" mmd n ;;;
          acc_append ia "test_loss_penalty3" hsic n)) ;;;
     do a <- acc_avg ia "test_loss_main"; list_append "test_main_list" a ;;;
     do a <- acc_avg ia "test_loss_penalty"; list_append "test_penalty_list" a ;;;
     do a <- acc_avg ia "test_loss_penalty2"; list_append "test_penalty2_list" a ;;;
     do a <- acc_avg ia "test_loss_penalty3"; list_append "test_penalty3_list" a ;;;
     (* [data, condition = next(iter(self.test_generator))], for the sample
        images *)
     next_iter (adv_test_generator fw epoch) ;;;
     if save_best hp then
       do tm <- acc_avg ia "test_loss_main";
       do tp <- acc_avg ia "test_loss_penalty";
       let obj := tm + lamb hp * tp in
       do w <- get_st;
       when (Rgtb (snd (adv_best_obj w)) obj)
         (set_adv_best_obj (epoch + 1, obj)%Z ;;; adv_save)
     else adv_save) ;;;
  do w <- get_st;
  let l := learn w in
  let '(sm, om) := adv_scheduler_step fw (scheduler_main w) (optimizer_main l) in
  let '(sa, oa) :=
    if Rgtb (lamb hp) 0 then adv_scheduler_step fw (scheduler_adv w) (optimizer_adv l)
    else (scheduler_adv w, optimizer_adv l) in
  set_learn (Learner (enc_dec l) (disc l) (grad_main l) (grad_disc l) om oa
                     (main_steps l) (adv_steps l)) ;;;
  set_schedulers sm sa ;;;
  when (nonempty (save_state hp))
    (do w <- get_st; adv_torch_save (save_dict epoch w)) ;;;
  adv_epoch_done epoch.

Definition train (kill : option nat) (resume : bool)
  : prog (env A (adv_state PM PD GM GD O S)) unit :=
  new_frame ;;;
  set_list "train_main_list" [] ;;; set_list "train_penalty_list" [] ;;;
  set_list "train_penalty2_list" [] ;;; set_list "train_penalty3_list" [] ;;;
  set_list "test_main_list" [] ;;; set_list "test_penalty_list" [] ;;;
  set_list "test_penalty2_list" [] ;;; set_list "test_penalty3_list" [] ;;;
  when (encoder_pretrain hp) (call pretrain_encoder) ;;;
  do w <- get_st;
  let l := learn w in
  let optimizer_main := Adam_main fw (enc_dec l) in
  let optimizer_adv := Adam_adv fw (disc l) in
  let start_epoch := 0%Z in
  let scheduler_main := adv_lr_scheduler fw optimizer_main in
  let scheduler_adv := adv_lr_scheduler fw optimizer_adv in
  set_learn (Learner (enc_dec l) (disc l) (grad_main l) (grad_disc l)
                     optimizer_main optimizer_adv (main_steps l) (adv_steps l)) ;;;
  set_schedulers scheduler_main scheduler_adv ;;;
  do start_epoch <-
    (if resume then
       do checkpoint <- adv_torch_load;
       do start_epoch <- ckpt_int checkpoint "epoch";
       do m <- ckpt_model checkpoint "model_state_dict";
       do om <- ckpt_optim checkpoint "optimizer_main_state_dict";
       do oa <- ckpt_optim checkpoint "optimizer_adv_state_dict";
       set_learn (Learner (fst m) (snd m) (grad_main l) (grad_disc l) om oa
                          (main_steps l) (adv_steps l)) ;;;
       when (nonempty (lr_schedule hp))
         (do sm <- ckpt_sched checkpoint "scheduler_main";
          do sa <- ckpt_sched checkpoint "scheduler_adv";
          set_schedulers sm sa) ;;;
       ret start_epoch
     else ret start_epoch);
  epoch_loop kill (py_range start_epoch (num_epoch hp)) train_epoch ;;;
  when (negb (validate_batch hp)) adv_save ;;;
  do w <- get_st;
  set_adv_hist
    (map (fun name => default [] (lists w !! name))
         ["train_main_list"; "train_penalty_list"; "train_penalty2_list";
          "train_penalty3_list"; "test_main_list"; "test_penalty_list";
          "test_penalty2_list"; "test_penalty3_list"]).
End Train.
End SSWAE_HSIC_dev.

Module SSWAE_HSIC_dev2.
Section Init.
Variable py_float : string -> option R.
Variable py_int : string -> option Z.
(** [CXAE_adv_abstract.__init__] of [_base_model]. *)
Variable CXAE_adv_abstract_init :
  gmap string (gmap string string) -> prog (gmap string attr) unit.

Definition __init__ (cfg : gmap string (gmap string string))
  : prog (gmap string attr) unit :=
  CWAE_GAN_abstract.__init__ CXAE_adv_abstract_init cfg ;;;
  setattr "loss" (AObj "MSELoss") ;;;
  setattr "disc_loss" (AObj "BCEWithLogitsLoss") ;;;
  setattr "f1" (AObj "Identity") ;;;
  do v <- getitem cfg "train_info" "lambda_mmd";
  do f <- float_of py_float v;
  setattr "lamb_mmd" (AFloat f) ;;;
  do v <- getitem cfg "train_info" "lambda_hsic";
  do f <- float_of py_float v;
  setattr "lamb_hsic" (AFloat f) ;;;
  do labeled_class <- getitem cfg "train_info" "labeled_class";
  let labeled_class := str_split "," (str_remove " " labeled_class) in
  do l <- int_list py_int labeled_class;
  setattr "labeled_class" (AIntList l) ;;;
  try_except
    (do test_class <- getitem cfg "train_info" "test_class";
     let test_class := str_split "," (str_remove " " test_class) in
     do l <- int_list py_int test_class;
     setattr "test_class" (AIntList l))
    (fun _ => true)
    (setattr "test_class" (AIntList [])) ;;;
  do v <- getitem cfg "train_info" "portion";
  do f <- float_of py_float v;
  setattr "portion" (AFloat f) ;;;
  do v <- getitem cfg "train_info" "batch_size";
  do z <- int_of py_int v;
  setattr "batch_size" (AInt z).
End Init.

Section Self.
Variable y_dim : nat.
Variable discriminate : list (list R) -> list (list R).
Variable disc_loss : list (list R) -> list (list R) -> R.
Variable gamma : R -> R.

Definition k (x y : list (list R)) (diag : bool) : R :=
  fold_left
    (fun stat scale =>
       let C := scale * 2 * INR y_dim * 2 in
       let kernel := Tensor.mmap (fun d => C / (C + d)) (Tensor.dist_table x y) in
       if diag then stat + Tensor.msum kernel
       else stat + (Tensor.msum kernel - Tensor.vsum (Tensor.diag kernel)))
    scales 0.0.

Definition bandwidth (d : nat) : R :=
  let gz := 2 * gamma (0.5 * (INR d + 1)) / gamma (0.5 * INR d) in
  1.0 / (2.0 * gz ^ 2).

Definition knl (x y : list (list R)) (gam : R) : list (list R) :=
  let dist_table := Tensor.dist_table x y in
  Tensor.transpose (length x) (Tensor.mmap (fun d => exp (- gam * d)) dist_table).

(** [hsic]: the value of [res] before the clamp, then
    [res.clamp(min=1e-16).sqrt()]. *)
Definition hsic_res (x y : list (list R)) : R :=
  let dx := Tensor.shape1 x in
  let dy := Tensor.shape1 y in
  let xx := knl x x (bandwidth dx) in
  let yy := knl y y (bandwidth dy) in
  let res := Tensor.mmean (Tensor.mmul xx yy) + Tensor.mmean xx * Tensor.mmean yy in
  let res :=
    res - 2 * Tensor.vmean (Tensor.vmul (Tensor.mean_dim1 xx) (Tensor.mean_dim1 yy)) in
  res.

Definition hsic (x y : list (list R)) : R :=
  sqrt (Rmax (hsic_res x y) 1e-16).

Definition penalty_loss (q prior_y : list (list R)) (n : nat) : R * R * R :=
  let x := Tensor.cols_to y_dim q in
  let mmd :=
    (k x x false + k prior_y prior_y false) / INR (n * (n - 1))
    - 2 * k x prior_y true / INR (n * n) in
  let z := Tensor.cols_from y_dim q in
  let qz := discriminate z in
  let gan := disc_loss qz (Tensor.ones_like qz) in
  let hsic := hsic x z in
  (gan, mmd, hsic).
End Self.
End SSWAE_HSIC_dev2.




(** ** [classifier_abstract] *)

Module classifier_abstract.
Section Self.
Context {M O S Batch A : Type}.
Variable py_float : string -> option R.
Variable py_int : string -> option Z.
(** [XAE_abstract.__init__] of [_base_model]. *)
Variable XAE_abstract_init :
  gmap string (gmap string string) -> prog (gmap string attr) unit.

Definition __init__ (cfg : gmap string (gmap string string))
  : prog (gmap string attr) unit :=
  XAE_abstract_init cfg ;;;
  setattr "loss" (AObj "CrossEntropyLoss") ;;;
  do labeled_class <- getitem cfg "train_info" "labeled_class";
  let labeled_class := str_split "," (str_remove " " labeled_class) in
  do l <- int_list py_int labeled_class;
  setattr "labeled_class" (AIntList l) ;;;
  try_except
    (do v <- getitem cfg "train_info" "portion";
     do f <- float_of py_float v;
     setattr "portion" (AFloat f))
    is_KeyError
    (setattr "portion" (AFloat 1.0)).

Variable fw : framework M O S Batch.
Variable ia : inc_avg_ops A.
Variable hp : hparams.
(** [self.main_loss(self.decode(self.encode(x)), y)] on a batch, as a
    function of the parameters. *)
Variable forward_loss : M -> Batch -> R.

(** The dictionary written to [self.save_state] at the end of an
    iteration. *)
Definition save_dict (epoch : Z) (w : loop_state M O S)
  : gmap string (ckpt_value M O S) :=
  let save_dict : gmap string (ckpt_value M O S) :=
    {[ "epoch" := CkInt (epoch + 1);
       "model_state_dict" := CkModel (params w);
       "optimizer_state_dict" := CkOptim (optimizer w) ]} in
  if nonempty (lr_schedule hp)
  then <["scheduler" := CkSched (scheduler w)]> save_dict
  else save_dict.

(** One iteration of [for epoch in range(start_epoch, self.num_epoch)]. *)
Definition train_epoch (epoch : Z) : prog (env A (loop_state M O S)) unit :=
  (* train_step *)
  assign "train_loss_main" (inc_avg_new ia) ;;;
  for_each (train_generator fw epoch) (fun b =>
    do w <- get_st;
    let n := batch_len fw b in
    let loss := forward_loss (params w) b in
    let obj := fun m => forward_loss m b in
    let '(m', o') := optimize fw obj (params w) (optimizer w) in
    set_params_optimizer m' o' ;;;
    acc_append ia "train_loss_main" loss n) ;;;
  do a <- acc_avg ia "train_loss_main";
  do w <- get_st;
  set_lists (train_main_list w ++ [a]) (train_penalty_list w)
            (test_main_list w) (test_penalty_list w) ;;;
  (* validation_step *)
  assign "test_loss_main" (inc_avg_new ia) ;;;
  when (validate_batch hp)
    (for_each (test_generator fw epoch) (fun b =>
       do w <- get_st;
       let n := batch_len fw b in
       acc_append ia "test_loss_main" (forward_loss (params w) b) n) ;;;
     do a <- acc_avg ia "test_loss_main";
     do w <- get_st;
     set_lists (train_main_list w) (train_penalty_list w)
               (test_main_list w ++ [a]) (test_penalty_list w) ;;;
     if save_best hp then
       do tm <- acc_avg ia "test_loss_main";
       do tp <- acc_avg ia "test_loss_penalty";
       let obj := tm + lamb hp * tp in
       do w <- get_st;
       when (Rgtb (snd (best_obj w)) obj)
         (set_best_obj (epoch + 1, obj)%Z ;;; save)
     else save) ;;;
  do w <- get_st;
  let '(s', o') := scheduler_step fw (scheduler w) (optimizer w) in
  set_scheduler_optimizer s' o' ;;;
  when (nonempty (save_state hp))
    (do w <- get_st; torch_save (save_dict epoch w)) ;;;
  epoch_done epoch.

(** [train(resume)], in a process that is killed after [kill]
    iterations. *)
Definition train (kill : option nat) (resume : bool)
  : prog (env A (loop_state M O S)) unit :=
  new_frame ;;;
  set_lists [] [] [] [] ;;;
  do w <- get_st;
  let optimizer := optim_Adam fw (params w) in
  let start_epoch := 0%Z in
  let scheduler := lr_scheduler fw optimizer in
  set_scheduler_optimizer scheduler optimizer ;;;
  do start_epoch <-
    (if resume then
       do checkpoint <- torch_load;
       do start_epoch <- ckpt_int checkpoint "epoch";
       do m <- ckpt_model checkpoint "model_state_dict";
       do o <- ckpt_optim checkpoint "optimizer_state_dict";
       set_params_optimizer m o ;;;
       when (nonempty (lr_schedule hp))
         (do s <- ckpt_sched checkpoint "scheduler";
          set_scheduler_optimizer s o) ;;;
       ret start_epoch
     else ret start_epoch);
  epoch_loop kill (py_range start_epoch (num_epoch hp)) train_epoch ;;;
  when (negb (validate_batch hp)) save ;;;
  do w <- get_st;
  set_hist [train_main_list w; test_main_list w].
End Self.
End classifier_abstract.

(** ** [VAE_abstract] *)

(** [1 + logvar - mu ** 2 - logvar.exp()], entrywise. *)
Definition kl_rows (mu logvar : list (list R)) : list (list R) :=
  zip_with (zip_with (fun m l => 1 + l - m ^ 2 - exp l)) mu logvar.

Module VAE_abstract.
Definition penalty_loss (mu logvar : list (list R)) : R :=
  Tensor.vmean (map (fun s => -0.5 * s) (map Tensor.vsum (kl_rows mu logvar))).

Definition pretrain_encoder {W} : prog W unit := raise NotImplementedError.

Section Self.
Context {M O S Batch A : Type}.
Variable fw : framework M O S Batch.
Variable ia : inc_avg_ops A.
Variable hp : hparams.
(** On a batch, as functions of the parameters:
    [self.main_loss((recon + 1.0) * 0.5, (x + 1.0) * 0.5) / n] with
    [recon = self.dec(reparameterize(mu, logvar))], and
    [self.mu_and_logvar(x)]. *)
Variable recon_loss : M -> Batch -> R.
Variable mu_and_logvar : M -> Batch -> list (list R) * list (list R).

Definition penalty (m : M) (b : Batch) : R :=
  let '(mu, logvar) := mu_and_logvar m b in penalty_loss mu logvar.

Definition save_dict (epoch : Z) (w : loop_state M O S)
  : gmap string (ckpt_value M O S) :=
  let save_dict : gmap string (ckpt_value M O S) :=
    {[ "epoch" := CkInt (epoch + 1);
       "model_state_dict" := CkModel (params w);
       "optimizer_state_dict" := CkOptim (optimizer w) ]} in
  if nonempty (lr_schedule hp)
  then <["scheduler" := CkSched (scheduler w)]> save_dict
  else save_dict.

Definition train_epoch (epoch : Z) : prog (env A (loop_state M O S)) unit :=
  (* train_step *)
  assign "train_loss_main" (inc_avg_new ia) ;;;
  assign "train_loss_penalty" (inc_avg_new ia) ;;;
  for_each (train_generator fw epoch) (fun b =>
    do w <- get_st;
    let n := batch_len fw b in
    let loss := recon_loss (params w) b in
    let obj := fun m =>
      if Rgtb (lamb hp) 0 then recon_loss m b + lamb hp * penalty m b
      else recon_loss m b in
    let '(m', o') := optimize fw obj (params w) (optimizer w) in
    set_params_optimizer m' o' ;;;
    acc_append ia "train_loss_main" loss n ;;;
    when (Rgtb (lamb hp) 0)
      (acc_append ia "train_loss_penalty" (penalty (params w) b) n)) ;;;
  do a <- acc_avg ia "train_loss_main";
  do p <- acc_avg ia "train_loss_penalty";
  do w <- get_st;
  set_lists (train_main_list w ++ [a]) (train_penalty_list w ++ [p])
            (test_main_list w) (test_penalty_list w) ;;;
  (* validation_step *)
  assign "test_loss_main" (inc_avg_new ia) ;;;
  assign "test_loss_penalty" (inc_avg_new ia) ;;;
  when (validate_batch hp)
    (for_each (test_generator fw epoch) (fun b =>
       do w <- get_st;
       let n := batch_len fw b in
       acc_append ia "test_loss_main" (recon_loss (params w) b) n ;;;
       when (Rgtb (lamb hp) 0)
         (acc_append ia "test_loss_penalty" (penalty (params w) b) n)) ;;;
     do a <- acc_avg ia "test_loss_main";
     do p <- acc_avg ia "test_loss_penalty";
     do w <- get_st;
     set_lists (train_main_list w) (train_penalty_list w)
               (test_main_list w ++ [a]) (test_penalty_list w ++ [p]) ;;;
     (* [data = next(iter(self.test_generator))], for the sample images *)
     next_iter (test_generator fw epoch) ;;;
     if save_best hp then
       do tm <- acc_avg ia "test_loss_main";
       do tp <- acc_avg ia "test_loss_penalty";
       let obj := tm + lamb hp * tp in
       do w <- get_st;
       when (Rgtb (snd (best_obj w)) obj)
         (set_best_obj (epoch + 1, obj)%Z ;;; save)
     else save) ;;;
  do w <- get_st;
  let '(s', o') := scheduler_step fw (scheduler w) (optimizer w) in
  set_scheduler_optimizer s' o' ;;;
  when (nonempty (save_state hp))
    (do w <- get_st; torch_save (save_dict epoch w)) ;;;
  epoch_done epoch.

Definition train (kill : option nat) (resume : bool)
  : prog (env A (loop_state M O S)) unit :=
  new_frame ;;;
  set_lists [] [] [] [] ;;;
  when (encoder_pretrain hp) (call pretrain_encoder) ;;;
  do w <- get_st;
  let optimizer := optim_Adam fw (params w) in
  let start_epoch := 0%Z in
  let scheduler := lr_scheduler fw optimizer in
  set_scheduler_optimizer scheduler optimizer ;;;
  do start_epoch <-
    (if resume then
       do checkpoint <- torch_load;
       do start_epoch <- ckpt_int checkpoint "epoch";
       do m <- ckpt_model checkpoint "model_state_dict";
       do o <- ckpt_optim checkpoint "optimizer_state_dict";
       set_params_optimizer m o ;;;
       when (nonempty (lr_schedule hp))
         (do s <- ckpt_sched checkpoint "scheduler";
          set_scheduler_optimizer s o) ;;;
       ret start_epoch
     else ret start_epoch);
  epoch_loop kill (py_range start_epoch (num_epoch hp)) train_epoch ;;;
  when (negb (validate_batch hp)) save ;;;
  do w <- get_st;
  set_hist [train_main_list w; train_penalty_list w;
            test_main_list w; test_penalty_list w].
End Self.
End VAE_abstract.

(** ** [CVAE_abstract] *)

Module CVAE_abstract.
Definition penalty_loss (mu logvar : list (list R)) : R :=
  Tensor.vmean (map (fun s => -0.5 * s) (map Tensor.vsum (kl_rows mu logvar))).
End CVAE_abstract.

(** ** The MMD penalty as the specification words it

    [k(a, b, diag)] is the sum over the seven scales of the entrywise
    inverse-multiquadratic kernel [C / (C + ||a_i - b_j||^2)] with
    [C = scale * 2 * z_dim * 2], over all pairs [(i, j)] when [diag] is
    set and over the pairs with [i <> j] otherwise. *)
Module MMD_spec.
Definition sq_norm_diff (a b : list R) : R :=
  Tensor.vsum (zip_with (fun u v => (u - v) ^ 2) a b).

Definition imq (C : R) (a b : list R) : R := C / (C + sq_norm_diff a b).

Definition k (z_dim : nat) (a b : list (list R)) (diag : bool) : R :=
  Tensor.vsum
    (map (fun scale =>
            let C := scale * 2 * INR z_dim * 2 in
            Tensor.vsum
              (map (fun j =>
                      Tensor.vsum
                        (map (fun i =>
                                if diag || negb (i =? j)%nat
                                then imq C (nth i a []) (nth j b [])
                                else 0)
                             (seq 0 (length a))))
                   (seq 0 (length b))))
         scales).

Definition penalty_loss (z_dim : nat) (x y : list (list R)) (n : nat) : R :=
  (k z_dim x x false + k z_dim y y false) / (INR n * (INR n - 1))
  - 2 * k z_dim x y true / (INR n * INR n).
End MMD_spec.

(** ** Auxiliary definitions of the proofs *)

(** Squared Euclidean distance of two rows, as [dist_table] computes it. *)
Definition sqd (a b : list R) : R :=
  Tensor.vsum (map (fun v => v ^ 2) (zip_with Rminus a b)).

(** The contribution of one scale to [k], with the kernel as a table. *)
Definition kterm (C : R) (x y : list (list R)) (diag : bool) : R :=
  let K := map (fun yj => map (fun xi => C / (C + sqd xi yj)) x) y in
  let D := zip_with (fun xi yj => C / (C + sqd xi yj)) x y in
  if diag then Tensor.msum K else Tensor.msum K - Tensor.vsum D.

(** Total correctness: [c] run from [w] returns normally, with a value
    and in a state that satisfy [Q]. *)
Definition wp {W A} (c : prog W A) (Q : A -> W -> Prop) (w : W) : Prop :=
  exists a w', c w = (inr a, w') /\ Q a w'.

(** The outcome of [c] run from [w], whatever it is, satisfies [Q]. *)
Definition wpx {W A} (c : prog W A) (Q : exn + A -> W -> Prop) (w : W) : Prop :=
  Q (c w).1 (c w).2.

(** [I] holds of the state that [c] reaches, however [c] ends. *)
Definition preserves {W A} (I : W -> Prop) (c : prog W A) : Prop :=
  forall w, I w -> I (c w).2.

(** Invariant of the batch loops of the single-optimizer [train]s: the
    accumulators [names] are bound, the record of the epochs run is [L]
    and the file at [save_state] is [F]. *)
Definition keeps {M O S A} (L : list Z) (F : option (gmap string (ckpt_value M O S)))
    (names : list string) (e : env A (loop_state M O S)) : Prop :=
  Forall (fun n => is_Some (accs e !! n)) names
  /\ epochs_run (st e) = L /\ save_state_file (st e) = F.

(** The file at [save_state] once [VAE_abstract.train] has run the
    epochs [l] from a state where the file was [F]. *)
Definition vae_file_after {M O S} (hp : hparams) (l : list Z)
    (F F' : option (gmap string (ckpt_value M O S))) : Prop :=
  if nonempty (save_state hp) then
    match last l with
    | Some e => exists w, F' = Some (VAE_abstract.save_dict hp e w)
    | None => F' = F
    end
  else F' = F.

(** What a run of [VAE_abstract.train] whose loop starts at [start]
    leaves: its outcome, the epochs run, the file at [save_state]. *)
Definition vae_run_post {M O S A} (hp : hparams) (kill : option nat) (start : Z)
    (e : env A (loop_state M O S)) (r : exn + unit) (e' : env A (loop_state M O S)) : Prop :=
  let l := ran kill (py_range start (num_epoch hp)) in
  r = (if killed kill (py_range start (num_epoch hp)) then inl Interrupted else inr tt)
  /\ epochs_run (st e') = epochs_run (st e) ++ l
  /\ vae_file_after hp l (save_state_file (st e)) (save_state_file (st e')).

(** Small instances, on which the theorems with hypotheses are
    exercised. *)
Definition toy_framework : framework unit unit unit unit :=
  Framework (fun _ => tt) (fun _ => tt) (fun s o => (s, o)) (fun _ m o => (m, o))
            (fun _ => 1%nat) (fun _ => [tt]) (fun _ => [tt]).

(** The same with a test loader that yields no batch. *)
Definition toy_framework_no_test : framework unit unit unit unit :=
  Framework (fun _ => tt) (fun _ => tt) (fun s o => (s, o)) (fun _ m o => (m, o))
            (fun _ => 1%nat) (fun _ => [tt]) (fun _ => []).

(** An [inc_avg] as the pair of the weighted sum and the weight. *)
Definition toy_inc_avg : inc_avg_ops (R * R) :=
  IncAvg (0, 0) (fun a v n => (fst a + v * INR n, snd a + INR n))
         (fun a => fst a / snd a).

Definition toy_hparams (lamb : R) : hparams :=
  HParams false 0 "" "state.pt" 3 true true lamb 1 1 1.

Definition toy_recon_loss (m : unit) (b : unit) : R := 1.
Definition toy_mu_and_logvar (m : unit) (b : unit) : list (list R) * list (list R) :=
  ([[0]], [[0]]).

Definition toy_state : env (R * R) (loop_state unit unit unit) :=
  Env ∅ (LoopState tt (0%Z, 1) [] tt tt [] [] [] [] None None []).

Definition toy_train_info : gmap string string :=
  {[ "labeled_class" := "0, 1"; "lambda_mmd" := "1"; "lambda_hsic" := "1";
     "batch_size" := "8" ]}.
Definition toy_cfg : gmap string (gmap string string) :=
  {[ "train_info" := toy_train_info ]}.
Definition toy_cfg2 : gmap string (gmap string string) :=
  {[ "train_info" := <["portion" := "1"]> toy_train_info ]}.
Definition toy_float (s : string) : option R := Some 1.
Definition toy_int (s : string) : option Z := Some 0%Z.
Definition toy_base_init (cfg : gmap string (gmap string string))
  : prog (gmap string attr) unit := ret tt.

(** Invariant of the batch loops of [classifier_abstract.train]:
    [name] is bound, [test_loss_penalty] is not, and since the state [e]
    no epoch has been recorded and no file written. *)
Definition untouched {M O S A} (name : string) (e e1 : env A (loop_state M O S)) : Prop :=
  is_Some (accs e1 !! name)
  /\ accs e1 !! "test_loss_penalty" = None
  /\ epochs_run (st e1) = epochs_run (st e)
  /\ save_state_file (st e1) = save_state_file (st e)
  /\ save_path_file (st e1) = save_path_file (st e).

(** ** The alternation of the two optimizers as the specification words it

    The discriminator objective [lamb * adv_loss(prior_z, z-part of the
    encoding)], the composed main objective
    [loss + lamb * gan + lamb_mmd * mmd + lamb_hsic * hsic] and the
    reconstruction loss alone, as functions of the parameters. *)
Module Alternation_spec.
Section Objectives.
Context {PM PD GM GD O S Img : Type}.
Variable fw : adv_framework PM PD GM GD O S Img.
Variable hp : hparams.
Variable b : batch Img.

Definition obj_adv (pm : PM) (pd : PD) : R :=
  lamb hp
  * CWAE_GAN_abstract.adv_loss (discriminate fw pd) (disc_loss fw) (prior_z b)
      (Tensor.cols_from (y_dim hp) (SSWAE_HSIC_dev.encode fw pm (data b))).


End Objectives.
End Alternation_spec.





(** ** The checkpoint dictionaries as the specification words them *)

Definition single_keys (hp : hparams) : gset string :=
  {[ "epoch"; "model_state_dict"; "optimizer_state_dict" ]}
  ∪ (if nonempty (lr_schedule hp) then {[ "scheduler" ]} else ∅).

Definition adv_keys (hp : hparams) : gset string :=
  {[ "epoch"; "model_state_dict"; "optimizer_main_state_dict"; "optimizer_adv_state_dict" ]}
  ∪ (if nonempty (lr_schedule hp) then {[ "scheduler_main"; "scheduler_adv" ]} else ∅).

(** The file holds what it held ([F0]), or a dictionary with the keys [K]. *)
Definition file_ok {V} (K : gset string) (F0 F : option (gmap string V)) : Prop :=
  F = F0 \/ exists ck, F = Some ck /\ dom ck = K.

(** A small instance of the two-optimizer loop. *)
Definition toy_adv_framework : adv_framework unit unit unit unit unit unit unit :=
  AdvFramework (fun _ => tt) (fun _ => tt) (fun _ => tt) (fun s o => (s, o))
               (fun o pm _ => (o, pm)) (fun o pd _ => (o, pd))
               (fun _ _ _ _ => tt) (fun _ _ _ _ => tt)
               (fun _ _ => [[0; 1]]) (fun _ x => x) (fun _ x => x) (fun _ _ => tt)
               (fun _ _ => 1) (fun _ x => x) (fun _ _ => 1) (fun _ => 1)
               (fun _ => 1%nat)
               (fun _ => []) (fun _ => [Batch tt [[1]] [[0]] [[1]]])
               (fun _ => [Batch tt [[1]] [[0]] [[1]]]).


Definition toy_learner : learner unit unit unit unit unit :=
  Learner tt tt [] [] tt tt 0 0.

Definition toy_adv_state : env (R * R) (adv_state unit unit unit unit unit unit) :=
  Env ∅ (AdvState toy_learner tt tt (0%Z, 1) [] ∅ None None []).

(** ** [XAE/dataset.py]: the MNIST datasets

    The array that [np.loadtxt] reads is a list of rows; column 0 of a
    row holds the digit, an integer in the file ([astype(np.int)] and
    [int] of it are that integer), the other columns the pixels. *)

Module Dataset.

(** [IndexError] of an index out of range and the [ValueError] of a
    [reshape] to a shape of another size. *)
Inductive error : Type := IndexError | ReshapeError.

Record row : Type := Row { col0 : Z; cols : list R }.

Record dataset : Type := Dataset {
  data : list row;
  code : list (list R);
  label : bool;
  output_channels : Z
}.

Definition Rltb (a b : R) : bool := if Rlt_dec a b then true else false.

(** [int(r)] of a float: truncation towards zero.  The float handed to
    it is the result of a float operation: the exact result rounded to a
    double, for which the definitions below take the rounding function
    as their argument [round_double]. *)
Definition int_of_float (r : R) : Z :=
  if Rle_dec 0 r then Int_part r else (- Int_part (- r))%Z.

(** The position a Python index [i] denotes in a sequence of [len]
    elements: negative indices count from the end. *)
Definition py_pos (len : nat) (i : Z) : option nat :=
  if (0 <=? i)%Z then
    if (i <? Z.of_nat len)%Z then Some (Z.to_nat i) else None
  else
    if (- Z.of_nat len <=? i)%Z then Some (Z.to_nat (Z.of_nat len + i)) else None.

Definition py_index {A} (l : list A) (i : Z) : option A :=
  match py_pos (length l) i with
  | Some p => l !! p
  | None => None
  end.

(** The position a slice bound [k] denotes: clipped to the sequence. *)
Definition slice_bound (len : nat) (k : Z) : nat :=
  if (k <? 0)%Z then Z.to_nat (Z.max (Z.of_nat len + k) 0)
  else Z.to_nat (Z.min k (Z.of_nat len)).

(** [np.eye(n)] and [np.zeros((1, n))]. *)
Definition eye (n : nat) : list (list R) :=
  map (fun i => map (fun j => if (i =? j)%nat then 1 else 0) (seq 0 n)) (seq 0 n).
Definition zeros_row (n : nat) : list (list R) := [replicate n 0].

(** [data[k:, 0] = v], and [data[ind, 0] = v] for a list [ind] of
    positions of rows ([rmMNIST] passes positions it has enumerated,
    which are in range). *)
Definition set_col0 (v : Z) (r : row) : row := Row v (cols r).
Definition set_col0_from (k : nat) (v : Z) (data : list row) : list row :=
  take k data ++ map (set_col0 v) (drop k data).
Definition set_col0_at (ind : list nat) (v : Z) (data : list row) : list row :=
  fold_left (fun d j => alter (set_col0 v) j d) ind data.

(** [v.reshape((1, 28, 28))]: one channel of 28 rows of 28 entries. *)
Definition reshape_1_28_28 (v : list R) : error + list (list (list R)) :=
  if (length v =? 784)%nat then
    inr [map (fun i => take 28 (drop (i * 28) v)) (seq 0 28)]
  else inl ReshapeError.

(** [t.repeat((c, 1, 1))]. *)
Definition repeat_channels (c : Z) (t : list (list (list R))) : list (list (list R)) :=
  concat (replicate (Z.to_nat c) t).

Module MNIST.

(** [file] is the array read from [mnist_train.csv] or [mnist_test.csv].
    [np.shape(self.data)[0]*portion] is a product of floats: the exact
    product rounded to a double by [round_double]. *)
Definition __init__ (round_double : R -> R) (file : list row) (label : bool)
    (output_channels : Z) (portion : R) : dataset :=
  let data := file in
  let data :=
    if Rltb portion 1.0 then
      let k := int_of_float (round_double (INR (length data) * portion)) in
      set_col0_from (slice_bound (length data) k) 10 data
    else data in
  Dataset data (eye 10 ++ zeros_row 10) label output_channels.

Definition __len__ (self : dataset) : nat := length (data self).

(** [2. * (data[idx, 1:785] / 255) - 1.]. *)
Definition pixels (r : row) : list R :=
  map (fun v => 2 * (v / 255) - 1) (take 784 (cols r)).

(** The image, and the code of the label when [self.label] is set. *)
Definition __getitem__ (self : dataset) (idx : Z)
  : error + (list (list (list R)) * option (list R)) :=
  match py_index (data self) idx with
  | None => inl IndexError
  | Some r =>
      match reshape_1_28_28 (pixels r) with
      | inl e => inl e
      | inr img =>
          let img :=
            if (1 <? output_channels self)%Z
            then repeat_channels (output_channels self) img else img in
          if label self then
            match py_index (code self) (col0 r) with
            | None => inl IndexError
            | Some c => inr (img, Some c)
            end
          else inr (img, None)
      end
  end.

End MNIST.

(** [rmMNIST] inherits [__len__] and [__getitem__] from [MNIST]. *)
Module rmMNIST.

(** [for i in range(len(data)): lab_ind[int(data[i, 0])].append(i)],
    from row [i] on. *)
Fixpoint classify (i : nat) (data : list row) (lab_ind : list (list nat))
  : error + list (list nat) :=
  match data with
  | [] => inr lab_ind
  | r :: data' =>
      match py_pos (length lab_ind) (col0 r) with
      | None => inl IndexError
      | Some c => classify (S i) data' (alter (fun l => l ++ [i]) c lab_ind)
      end
  end.

(** The variables the two selection loops update. *)
Record selection : Type := Selection {
  sel_data : list row;
  all_ind : list nat;
  recode : nat
}.

(** The body of the loop over [aux[0]] ([bump]: [recode += 1]) and of
    the loop over [aux[1]]; [len(lab_ind[i])*self.portion] is the exact
    product rounded to a double by [round_double]. *)
Definition use_digit (round_double : R -> R) (portion : R) (lab_ind : list (list nat))
    (bump : bool) (s : selection) (i : Z) : error + selection :=
  match py_index lab_ind i with
  | None => inl IndexError
  | Some ind =>
      let k := int_of_float (round_double (INR (length ind) * portion)) in
      let using_digit_ind := take (slice_bound (length ind) k) ind in
      inr (Selection (set_col0_at using_digit_ind (Z.of_nat (recode s)) (sel_data s))
                     (all_ind s ++ using_digit_ind)
                     (if bump then S (recode s) else recode s))
  end.

Fixpoint for_digits (body : selection -> Z -> error + selection) (l : list Z)
    (s : selection) : error + selection :=
  match l with
  | [] => inr s
  | i :: l' =>
      match body s i with
      | inl e => inl e
      | inr s' => for_digits body l' s'
      end
  end.

(** [data[all_ind]]. *)
Fixpoint gather (data : list row) (ind : list nat) : error + list row :=
  match ind with
  | [] => inr []
  | j :: ind' =>
      match data !! j, gather data ind' with
      | Some r, inr rs => inr (r :: rs)
      | _, _ => inl IndexError
      end
  end.

Definition __init__ (round_double : R -> R) (file : list row) (label : bool)
    (output_channels : Z) (aux : option (list Z * list Z)) (portion : R)
  : error + dataset :=
  match aux with
  | Some (aux0, aux1) =>
      match classify 0 file (replicate 10 []) with
      | inl e => inl e
      | inr lab_ind =>
          match for_digits (use_digit round_double portion lab_ind true) aux0
                           (Selection file [] 0) with
          | inl e => inl e
          | inr s =>
              match for_digits (use_digit round_double portion lab_ind false) aux1 s with
              | inl e => inl e
              | inr s =>
                  let unknown := match aux1 with [] => 0 | _ => 1 end%nat in
                  match gather (sel_data s) (all_ind s) with
                  | inl e => inl e
                  | inr data =>
                      inr (Dataset data (eye (recode s + unknown)) label output_channels)
                  end
              end
          end
      end
  | None => inr (Dataset file (eye 10) label output_channels)
  end.

End rmMNIST.

End Dataset.

(** [(x + 1.0) * 0.5]: the images as [VAE_abstract.train] hands them to
    the reconstruction loss. *)
Definition to_unit_interval (x : R) : R := (x + 1.0) * 0.5.

(** ** The networks of [model/sswae_dev2.py], [model/exp1/train_cvae.py]
    and [model/exp2/train_cwae_gan.py]: the shapes they map

    A network is the list of its layers; of a tensor only the shape of
    a sample is kept, [(c, h, w)] or [(n)] behind the batch dimension.
    [None] is the [RuntimeError] of a shape that a layer rejects. *)

Module Net.

Inductive shape : Type := Img (c h w : nat) | Vec (n : nat).

(** [padding = p] and [padding = 'same']. *)
Inductive padding : Type := Pad (p : nat) | Same.

Inductive layer : Type :=
| Conv2d (in_channels out_channels kernel_size stride : nat) (pad : padding)
| ConvTranspose2d (in_channels out_channels kernel_size stride pad : nat)
| BatchNorm2d (num_features : nat)
| BatchNorm1d (num_features : nat)
| ReLU
| Tanh
| Flatten
| Unflatten (c h w : nat)
| Linear (in_features out_features : nat).

(** Output size of a convolution along one axis:
    [floor((n + 2 p - k) / s) + 1]; the kernel must fit. *)
Definition conv_out (n k s : nat) (pad : padding) : option nat :=
  match pad with
  | Same => if (s =? 1)%nat then Some n else None
  | Pad p => if (k <=? n + 2 * p)%nat then Some ((n + 2 * p - k) / s + 1)%nat else None
  end.

(** Output size of a transposed convolution along one axis:
    [(n - 1) s - 2 p + k]. *)
Definition conv_transpose_out (n k s p : nat) : option nat :=
  if ((1 <=? n) && (2 * p <? (n - 1) * s + k))%nat
  then Some ((n - 1) * s + k - 2 * p)%nat else None.

Definition forward (l : layer) (x : shape) : option shape :=
  match l, x with
  | Conv2d cin cout k s pad, Img c h w =>
      if (c =? cin)%nat then
        match conv_out h k s pad, conv_out w k s pad with
        | Some h', Some w' => Some (Img cout h' w')
        | _, _ => None
        end
      else None
  | ConvTranspose2d cin cout k s p, Img c h w =>
      if (c =? cin)%nat then
        match conv_transpose_out h k s p, conv_transpose_out w k s p with
        | Some h', Some w' => Some (Img cout h' w')
        | _, _ => None
        end
      else None
  | BatchNorm2d n, Img c h w => if (c =? n)%nat then Some x else None
  | BatchNorm1d n, Vec m => if (m =? n)%nat then Some x else None
  | ReLU, _ => Some x
  | Tanh, _ => Some x
  | Flatten, Img c h w => Some (Vec (c * h * w))
  | Flatten, Vec n => Some x
  | Unflatten c h w, Vec n => if (n =? c * h * w)%nat then Some (Img c h w) else None
  (* [nn.Linear] acts on the last dimension *)
  | Linear i o, Vec n => if (n =? i)%nat then Some (Vec o) else None
  | Linear i o, Img c h w => if (w =? i)%nat then Some (Img c h o) else None
  | _, _ => None
  end.

(** [nn.Sequential] of the layers, applied to [x]. *)
Definition Sequential (layers : list layer) (x : shape) : option shape :=
  fold_left (fun acc l => match acc with Some s => forward l s | None => None end)
            layers (Some x).

(** [torch.cat((a, b), dim=1)]. *)
Definition cat (a b : option shape) : option shape :=
  match a, b with
  | Some (Vec n), Some (Vec m) => Some (Vec (n + m))
  | Some (Img c h w), Some (Img c' h' w') =>
      if ((h =? h') && (w =? w'))%nat then Some (Img (c + c') h w) else None
  | _, _ => None
  end.

(** The shape of an image that a dataset serves. *)
Definition shape_of (t : list (list (list R))) : shape :=
  let plane := default [] (head t) in
  Img (length t) (length plane) (length (default [] (head plane))).

(** [SSWAE_HSIC_MNIST] of [model/sswae_dev2.py], with [encode] of
    [SSWAE_HSIC_dev2]. *)
Module SSWAE_HSIC_MNIST.
Section Self.
Variable y_dim z_dim : nat.
Definition d : nat := 64.

Definition embed_data : list layer :=
  [Conv2d 1 d 4 2 (Pad 1); BatchNorm2d d; ReLU;
   Conv2d d d 4 1 Same; BatchNorm2d d; ReLU;
   Conv2d d (2 * d) 4 2 (Pad 1); BatchNorm2d (2 * d); ReLU;
   Conv2d (2 * d) (2 * d) 4 1 Same; BatchNorm2d (2 * d); ReLU;
   Flatten].

Definition embed_condition : list layer :=
  [Linear (49 * 2 * d) d; BatchNorm1d d; ReLU; Linear d y_dim].

Definition enc : list layer :=
  [Linear (49 * 2 * d) d; BatchNorm1d d; ReLU; Linear d z_dim].

Definition f1 : list layer := [Linear 10 y_dim].

Definition dec : list layer :=
  [Linear (y_dim + z_dim) (49 * 2 * d); Unflatten (2 * d) 7 7;
   ConvTranspose2d (2 * d) d 4 2 1; BatchNorm2d d; ReLU;
   ConvTranspose2d d (d / 2) 4 2 1; BatchNorm2d (d / 2); ReLU;
   Conv2d (d / 2) (d / 4) 4 1 Same; BatchNorm2d (d / 4); ReLU;
   Conv2d (d / 4) 1 4 1 Same; Tanh].

Definition disc : list layer :=
  [Linear z_dim d; ReLU; Linear d d; ReLU; Linear d d; ReLU;
   Linear d d; ReLU; Linear d d; ReLU; Linear d 1].

Definition encode (x : shape) : option shape :=
  match Sequential embed_data x with
  | Some xx => cat (Sequential embed_condition xx) (Sequential enc xx)
  | None => None
  end.
End Self.
End SSWAE_HSIC_MNIST.

(** [CVAE_MNIST] of [model/exp1/train_cvae.py], with [mu_and_logvar]
    and [decode] of [CVAE_abstract], whose [embed_condition] is
    [nn.Identity()]. *)
Module CVAE_MNIST.
Section Self.
Variable y_dim z_dim : nat.
Definition d : nat := 64.

Definition embed_data : list layer :=
  [Conv2d 1 d 4 2 (Pad 1); BatchNorm2d d; ReLU;
   Conv2d d d 4 1 Same; BatchNorm2d d; ReLU;
   Conv2d d (2 * d) 4 2 (Pad 1); BatchNorm2d (2 * d); ReLU;
   Conv2d (2 * d) (2 * d) 4 1 Same; BatchNorm2d (2 * d); ReLU;
   Flatten].

Definition embed_condition : list layer := [].

Definition enc : list layer :=
  [Linear (49 * 2 * d + y_dim) d; BatchNorm1d d; ReLU].

Definition mu : list layer := [Linear d z_dim].
Definition logvar : list layer := [Linear d z_dim].

Definition dec : list layer :=
  [Linear (z_dim + y_dim) (49 * 2 * d); Unflatten (2 * d) 7 7;
   ConvTranspose2d (2 * d) d 4 2 1; BatchNorm2d d; ReLU;
   ConvTranspose2d d (d / 2) 4 2 1; BatchNorm2d (d / 2); ReLU;
   Conv2d (d / 2) (d / 4) 4 1 Same; BatchNorm2d (d / 4); ReLU;
   Conv2d (d / 4) 1 4 1 Same].

Definition mu_and_logvar (x y : shape) : option shape * option shape :=
  match cat (Sequential embed_data x) (Sequential embed_condition y) with
  | Some c =>
      match Sequential enc c with
      | Some xx => (Sequential mu xx, Sequential logvar xx)
      | None => (None, None)
      end
  | None => (None, None)
  end.

Definition decode (x y : shape) : option shape :=
  match cat (Some x) (Some y) with
  | Some c =>
      match Sequential dec c with
      | Some r => forward Tanh r
      | None => None
      end
  | None => None
  end.
End Self.
End CVAE_MNIST.

(** [CWAE_GAN_MNIST] of [model/exp2/train_cwae_gan.py]. *)
Module CWAE_GAN_MNIST.
Section Self.
Variable y_dim z_dim : nat.
Definition d : nat := 32.

Definition embed_data : list layer :=
  [Conv2d 1 d 4 2 (Pad 1); BatchNorm2d d; ReLU;
   Conv2d d (2 * d) 4 2 (Pad 1); BatchNorm2d (2 * d); ReLU;
   Conv2d (2 * d) (4 * d) 4 2 (Pad 1); BatchNorm2d (4 * d); ReLU;
   Conv2d (4 * d) (8 * d) 4 2 (Pad 1); BatchNorm2d (8 * d); ReLU;
   Flatten].

Definition enc : list layer :=
  [Linear (8 * d + y_dim) d; BatchNorm1d d; ReLU; Linear d z_dim].

Definition dec : list layer :=
  [Linear (z_dim + y_dim) (49 * 8 * d); Unflatten (8 * d) 7 7;
   ConvTranspose2d (8 * d) (4 * d) 4 1 0; BatchNorm2d (4 * d); ReLU;
   ConvTranspose2d (4 * d) (2 * d) 4 1 0; BatchNorm2d (2 * d); ReLU;
   ConvTranspose2d (2 * d) 1 4 2 0; Tanh].

Definition disc : list layer :=
  [Linear (z_dim + y_dim) d; ReLU; Linear d d; ReLU; Linear d d; ReLU;
   Linear d d; ReLU; Linear d d; ReLU; Linear d 1].
End Self.
End CWAE_GAN_MNIST.

End Net.

(** ** [SSWAE_HSIC_dev2_2.__init__] *)

Module SSWAE_HSIC_dev2_2.
Section Init.
Variable py_float : string -> option R.
Variable py_int : string -> option Z.
(** [CXAE_adv_abstract.__init__] of [_base_model]. *)
Variable CXAE_adv_abstract_init :
  gmap string (gmap string string) -> prog (gmap string attr) unit.

Definition __init__ (cfg : gmap string (gmap string string))
  : prog (gmap string attr) unit :=
  SSWAE_HSIC_dev2.__init__ py_float py_int CXAE_adv_abstract_init cfg ;;;
  try_except
    (do unlabeled_class <- getitem cfg "train_info" "unlabeled_class";
     let unlabeled_class := str_split "," (str_remove " " unlabeled_class) in
     do l <- int_list py_int unlabeled_class;
     setattr "unlabeled_class" (AIntList l))
    (fun _ => true)
    (setattr "unlabeled_class" (AIntList [])) ;;;
  setattr "gm" (AObj "Identity") ;;;
  try_except
    (do v <- getitem cfg "train_info" "unk";
     setattr "unk" (ABool (String.eqb (str_remove " " v) "True")))
    (fun _ => true)
    (setattr "unk" (ABool true)).
End Init.
End SSWAE_HSIC_dev2_2.

(** ** Auxiliary definitions of the dataset proofs *)

(** The rows of digit [c] in file order, and those of them that
    [rmMNIST] keeps: the first [int(len * portion)], the product being
    that of floats. *)
Definition rows_of_digit (c : Z) (file : list Dataset.row) : list Dataset.row :=
  filter (fun r => Dataset.col0 r = c) file.

Definition kept (round_double : R -> R) (portion : R) (c : Z) (file : list Dataset.row)
  : list Dataset.row :=
  let rows := rows_of_digit c file in
  take (Dataset.slice_bound (length rows)
          (Dataset.int_of_float (round_double (INR (length rows) * portion)))) rows.

(** The positions, counted from [i], of the rows of digit [c]. *)
Fixpoint positions (c : Z) (i : nat) (data : list Dataset.row) : list nat :=
  match data with
  | [] => []
  | r :: data' =>
      if decide (Dataset.col0 r = c) then i :: positions c (S i) data'
      else positions c (S i) data'
  end.

(** Invariant of the selection loops of [rmMNIST.__init__]: every row
    selected so far carries a label below [b]. *)
Definition labels_below (b : nat) (s : Dataset.rmMNIST.selection) : Prop :=
  forall j r, j ∈ Dataset.rmMNIST.all_ind s -> Dataset.rmMNIST.sel_data s !! j = Some r ->
    (0 <= Dataset.col0 r < Z.of_nat b)%Z.

(** Invariant of the selection loops for distinct digits: the digits
    [P] have been used; the rows of the others are as in the file; the
    rows selected are [out]. *)
Definition selected (file : list Dataset.row) (P : Z -> Prop)
    (s : Dataset.rmMNIST.selection) (out : list Dataset.row) : Prop :=
  (forall j, (forall c, P c -> j ∉ positions c 0 file) ->
             Dataset.rmMNIST.sel_data s !! j = file !! j)
  /\ Dataset.rmMNIST.gather (Dataset.rmMNIST.sel_data s) (Dataset.rmMNIST.all_ind s) = inr out
  /\ (forall j, j ∈ Dataset.rmMNIST.all_ind s -> exists c, P c /\ j ∈ positions c 0 file).

(** Further small instances. *)
Definition toy_file : list Dataset.row :=
  [Dataset.Row 3 [1]; Dataset.Row 5 [2]; Dataset.Row 3 [3]].
Definition toy_image_file : list Dataset.row :=
  [Dataset.Row 3 (replicate 784 0); Dataset.Row 5 (replicate 784 0)].
(** Builtins that reject the string ["x"]. *)
Definition toy_float_strict (s : string) : option R :=
  if String.eqb s "x" then None else Some 1.
Definition toy_int_strict (s : string) : option Z :=
  if String.eqb s "x" then None else Some 0%Z.
Definition toy_hparams_flags (pretrain validate best : bool) (lr_schedule : string)
  : hparams :=
  HParams pretrain 0 lr_schedule "state.pt" 3 validate best 1 1 1 1.
Definition toy_state_with (F : option (gmap string (ckpt_value unit unit unit)))
  : env (R * R) (loop_state unit unit unit) :=
  Env ∅ (LoopState tt (0%Z, 1) [] tt tt [] [] [] [] None F []).

(** * Properties *)

(** ** The embedding on small inputs *)

Example str_split_example :
  str_split "," (str_remove " " "0, 1,2") = ["0"; "1"; "2"]%string.
Proof. reflexivity. Qed.

Example str_split_empty_example : str_split "," "" = [""]%string.
Proof. reflexivity. Qed.

Example py_range_example : py_range 1 4 = [1; 2; 3]%Z.
Proof. reflexivity. Qed.

Example py_range_empty_example : py_range 3 3 = [].
Proof. reflexivity. Qed.

Example diag_example : Tensor.diag [[1; 2; 3]; [4; 5; 6]] = [1; 5].
Proof. reflexivity. Qed.

Example transpose_example :
  Tensor.transpose 3 [[1; 2; 3]; [4; 5; 6]] = [[1; 4]; [2; 5]; [3; 6]].
Proof. reflexivity. Qed.

Example select_example :
  Tensor.select [true; false; true] [[1]; [2]; [3]] = [[1]; [3]].
Proof. reflexivity. Qed.

Example dist_table_example : Tensor.dist_table [[0]; [1]] [[3]] = [[9; 4]].
Proof.
  unfold Tensor.dist_table, Tensor.sum_dim2, Tensor.pow3, Tensor.broadcast_sub.
  cbn [map zip_with]. unfold Tensor.vsum. cbn [foldr].
  repeat f_equal; lra.
Qed.

Example classifier_init_example :
  classifier_abstract.__init__ toy_float toy_int toy_base_init toy_cfg ∅
  = (inr tt, <["portion" := AFloat 1.0]>
               (<["labeled_class" := AIntList [0%Z; 0%Z]]>
                  (<["loss" := AObj "CrossEntropyLoss"]> ∅))).
Proof. reflexivity. Qed.

Example load_unbound_example :
  (load "test_loss_penalty" (Env (∅ : gmap string unit) tt)).1
  = inl (NameError "test_loss_penalty").
Proof. reflexivity. Qed.

(** ** Sums over lists and tables *)

Lemma vsum_nil : Tensor.vsum [] = 0.
Proof. reflexivity. Qed.

Lemma vsum_cons a v : Tensor.vsum (a :: v) = a + Tensor.vsum v.
Proof. reflexivity. Qed.

Ltac vsum_simpl := cbn [map]; rewrite ?vsum_cons, ?vsum_nil.

Lemma vsum_map_plus {A} (f g : A -> R) l :
  Tensor.vsum (map (fun a => f a + g a) l)
  = Tensor.vsum (map f l) + Tensor.vsum (map g l).
Proof. induction l as [|a l IH]; vsum_simpl; [|rewrite IH]; lra. Qed.

Lemma vsum_map_minus {A} (f g : A -> R) l :
  Tensor.vsum (map (fun a => f a - g a) l)
  = Tensor.vsum (map f l) - Tensor.vsum (map g l).
Proof. induction l as [|a l IH]; vsum_simpl; [|rewrite IH]; lra. Qed.

Lemma vsum_map_zero {A} (l : list A) : Tensor.vsum (map (fun _ => 0) l) = 0.
Proof. induction l as [|a l IH]; vsum_simpl; [|rewrite IH]; lra. Qed.

Lemma vsum_map_ext {A} (f g : A -> R) l :
  (forall a, In a l -> f a = g a) ->
  Tensor.vsum (map f l) = Tensor.vsum (map g l).
Proof. intros H. f_equal. apply map_ext_in, H. Qed.

(** A table indexed by the rows of [y] and the columns of [x] has the
    same total as the table indexed the other way round. *)
Lemma msum_table_swap {A B} (g : A -> B -> R) (x : list A) (y : list B) :
  Tensor.msum (map (fun yj => map (fun xi => g xi yj) x) y)
  = Tensor.msum (map (fun xi => map (fun yj => g xi yj) y) x).
Proof.
  unfold Tensor.msum. rewrite !map_map.
  induction y as [|y0 y IH]; vsum_simpl.
  - rewrite vsum_map_zero. reflexivity.
  - rewrite IH, <- vsum_map_plus. apply vsum_map_ext. intros a _.
    vsum_simpl. reflexivity.
Qed.

Lemma fold_left_pointwise {A B} (f g : A -> B -> A) l a :
  (forall a b, f a b = g a b) -> fold_left f l a = fold_left g l a.
Proof.
  intros H. revert a. induction l as [|b l IH]; intros a; cbn [fold_left]; [reflexivity|].
  rewrite H. apply IH.
Qed.

Lemma fold_left_accum {A} (f : A -> R) l s0 :
  fold_left (fun stat a => stat + f a) l s0 = s0 + Tensor.vsum (map f l).
Proof.
  revert s0. induction l as [|a l IH]; intros s0; cbn [fold_left]; vsum_simpl; [lra|].
  rewrite IH. lra.
Qed.

(** ** The distance table and the kernels as tables *)

Lemma sqd_sym a b : sqd a b = sqd b a.
Proof.
  unfold sqd. revert b. induction a as [|u a IH]; intros [|v b]; cbn [zip_with]; try reflexivity.
  vsum_simpl. rewrite IH. lra.
Qed.

Lemma dist_table_table (f : R -> R) x y :
  Tensor.mmap f (Tensor.dist_table x y)
  = map (fun yj => map (fun xi => f (sqd xi yj)) x) y.
Proof.
  unfold Tensor.mmap, Tensor.dist_table, Tensor.sum_dim2, Tensor.pow3, Tensor.broadcast_sub.
  rewrite !map_map. apply map_ext. intros yj.
  rewrite !map_map. reflexivity.
Qed.

Lemma diag_from_table {A B} (g : A -> B -> R) (x : list A) (y : list B) i :
  Tensor.diag_from i (map (fun yj => map (fun xi => g xi yj) x) y)
  = zip_with g (drop i x) y.
Proof.
  revert i. induction y as [|y0 y IH]; intros i; cbn [map Tensor.diag_from].
  - destruct (drop i x); reflexivity.
  - rewrite nth_error_map.
    destruct (nth_error x i) as [xi|] eqn:E; cbn [option_map].
    + rewrite IH. apply nth_error_split in E as (l1 & l2 & -> & <-).
      rewrite drop_app_length.
      replace (S (length l1)) with (length (l1 ++ [xi])) by (rewrite length_app; simpl; lia).
      rewrite (app_assoc l1 [xi] l2 : l1 ++ xi :: l2 = (l1 ++ [xi]) ++ l2) at 1.
      rewrite drop_app_length. reflexivity.
    + apply nth_error_None in E. rewrite drop_ge by exact E. reflexivity.
Qed.

Lemma diag_table {A B} (g : A -> B -> R) (x : list A) (y : list B) :
  Tensor.diag (map (fun yj => map (fun xi => g xi yj) x) y) = zip_with g x y.
Proof. unfold Tensor.diag. rewrite diag_from_table. reflexivity. Qed.

Lemma transpose_table {A B} (g : A -> B -> R) (x : list A) (y : list B) :
  Tensor.transpose (length x) (map (fun yj => map (fun xi => g xi yj) x) y)
  = map (fun xi => map (fun yj => g xi yj) y) x.
Proof.
  unfold Tensor.transpose.
  induction x as [|x0 x IH] using rev_ind; [reflexivity|].
  rewrite length_app, Nat.add_comm. cbn [length Nat.add].
  rewrite seq_S, !map_app. cbn [map Nat.add]. f_equal.
  - rewrite <- IH. apply map_ext_in. intros i Hi. apply in_seq in Hi.
    rewrite !map_map. apply map_ext. intros yj.
    rewrite map_app, app_nth1; [reflexivity|].
    rewrite length_map. lia.
  - f_equal. rewrite map_map. apply map_ext. intros yj.
    rewrite map_app, app_nth2; rewrite length_map; [|lia].
    rewrite Nat.sub_diag. reflexivity.
Qed.

Lemma map_seq_nth {A B} (f : A -> B) (d : A) (l : list A) :
  map f l = map (fun i => f (nth i l d)) (seq 0 (length l)).
Proof.
  induction l as [|a l IH]; [reflexivity|].
  cbn [length seq map nth]. f_equal.
  rewrite <- seq_shift, map_map. exact IH.
Qed.

Lemma vsum_app u v : Tensor.vsum (u ++ v) = Tensor.vsum u + Tensor.vsum v.
Proof. induction u as [|a u IH]; cbn [app]; vsum_simpl; [|rewrite IH]; lra. Qed.

Lemma vsum_seq_except (f : nat -> R) (j n : nat) :
  Tensor.vsum (map (fun i => if negb (i =? j)%nat then f i else 0) (seq 0 n))
  = Tensor.vsum (map f (seq 0 n)) - (if (j <? n)%nat then f j else 0).
Proof.
  induction n as [|n IH]; [cbn; vsum_simpl; lra|].
  rewrite seq_S, !map_app, !vsum_app, IH. cbn [Nat.add]. vsum_simpl.
  destruct (Nat.eqb_spec n j) as [->|Hne]; cbn [negb].
  - rewrite Nat.ltb_irrefl. rewrite (proj2 (Nat.ltb_lt j (S j))) by lia. lra.
  - destruct (Nat.ltb_spec j n), (Nat.ltb_spec j (S n)); try lia; lra.
Qed.

Lemma vsum_zip_with_seq {A B} (g : A -> B -> R) (dx : A) (dy : B) x y :
  Tensor.vsum (zip_with g x y)
  = Tensor.vsum
      (map (fun j => if (j <? length x)%nat then g (nth j x dx) (nth j y dy) else 0)
           (seq 0 (length y))).
Proof.
  revert x. induction y as [|y0 y IH]; intros x.
  - destruct x; reflexivity.
  - destruct x as [|x0 x].
    + cbn [zip_with length]. rewrite vsum_nil.
      rewrite (vsum_map_ext _ (fun _ => 0)); [rewrite vsum_map_zero; reflexivity|].
      intros j _. reflexivity.
    + cbn [zip_with length seq]. vsum_simpl. cbn [nth].
      rewrite (proj2 (Nat.ltb_lt 0 (S (length x)))) by lia.
      rewrite IH, <- seq_shift, map_map. reflexivity.
Qed.

(** ** MMD: the kernel statistic [k] *)

Lemma k_unfold z_dim x y diag :
  WAE_MMD_abstract.k z_dim x y diag
  = Tensor.vsum (map (fun scale => kterm (scale * 2 * INR z_dim * 2) x y diag) scales).
Proof.
  unfold WAE_MMD_abstract.k.
  transitivity (0.0 + Tensor.vsum
    (map (fun scale => kterm (scale * 2 * INR z_dim * 2) x y diag) scales)); [|lra].
  rewrite <- fold_left_accum. apply fold_left_pointwise. intros stat scale.
  unfold kterm. cbv zeta. rewrite dist_table_table, diag_table.
  destruct diag; reflexivity.
Qed.

Lemma kterm_sym C x y diag : kterm C x y diag = kterm C y x diag.
Proof.
  unfold kterm.
  rewrite (msum_table_swap (fun xi yj => C / (C + sqd xi yj)) x y).
  assert (Hm : map (fun xi => map (fun yj => C / (C + sqd xi yj)) y) x
               = map (fun xi => map (fun yj => C / (C + sqd yj xi)) y) x).
  { apply map_ext; intros xi. apply map_ext; intros yj. rewrite sqd_sym. reflexivity. }
  assert (Hd : zip_with (fun xi yj => C / (C + sqd xi yj)) x y
               = zip_with (fun yj xi => C / (C + sqd yj xi)) y x).
  { clear Hm. revert y. induction x as [|x0 x IH]; intros [|y0 y]; cbn [zip_with]; try reflexivity.
    rewrite IH, sqd_sym. reflexivity. }
  rewrite Hm, Hd. reflexivity.
Qed.

Lemma k_sym z_dim x y diag :
  WAE_MMD_abstract.k z_dim x y diag = WAE_MMD_abstract.k z_dim y x diag.
Proof.
  rewrite !k_unfold. apply vsum_map_ext. intros scale _. apply kterm_sym.
Qed.

Lemma sqd_sq_norm_diff a b : sqd a b = MMD_spec.sq_norm_diff a b.
Proof.
  unfold sqd, MMD_spec.sq_norm_diff. revert b.
  induction a as [|u a IH]; intros [|v b]; cbn [zip_with]; try reflexivity.
  vsum_simpl. rewrite IH. reflexivity.
Qed.

Lemma kterm_spec C x y diag :
  kterm C x y diag
  = Tensor.vsum
      (map (fun j =>
              Tensor.vsum
                (map (fun i =>
                        if diag || negb (i =? j)%nat
                        then MMD_spec.imq C (nth i x []) (nth j y [])
                        else 0)
                     (seq 0 (length x))))
           (seq 0 (length y))).
Proof.
  unfold kterm, MMD_spec.imq.
  assert (HK : Tensor.msum (map (fun yj => map (fun xi => C / (C + sqd xi yj)) x) y)
               = Tensor.vsum (map (fun j => Tensor.vsum (map (fun i =>
                   C / (C + MMD_spec.sq_norm_diff (nth i x []) (nth j y [])))
                   (seq 0 (length x)))) (seq 0 (length y)))).
  { unfold Tensor.msum. rewrite map_map, (map_seq_nth _ [] y).
    apply vsum_map_ext. intros j _. rewrite (map_seq_nth _ [] x).
    apply vsum_map_ext. intros i _. rewrite sqd_sq_norm_diff. reflexivity. }
  destruct diag; cbn [orb]; cbv zeta; [exact HK|].
  rewrite HK, (vsum_zip_with_seq _ [] [] x y), <- vsum_map_minus.
  apply vsum_map_ext. intros j _.
  rewrite (vsum_seq_except
             (fun i => C / (C + MMD_spec.sq_norm_diff (nth i x []) (nth j y []))) j (length x)).
  rewrite sqd_sq_norm_diff. reflexivity.
Qed.

Lemma k_spec z_dim x y diag :
  WAE_MMD_abstract.k z_dim x y diag = MMD_spec.k z_dim x y diag.
Proof.
  rewrite k_unfold. unfold MMD_spec.k. apply vsum_map_ext. intros scale _.
  apply kterm_spec.
Qed.

(** C3. For two batches [x] and [y] of [n >= 2] rows,
    [WAE_MMD_abstract.penalty_loss(x, y, n)] is
    [(k(x,x,False) + k(y,y,False)) / (n*(n-1)) - 2*k(x,y,True) / (n*n)]
    with [k] the sum over the seven scales of the inverse-multiquadratic
    kernel, the diagonal excluded when [diag] is [False]. *)
Theorem C3_mmd_penalty_formula (z_dim n d : nat) (x y : list (list R)) :
  (2 <= n)%nat -> Tensor.batch n d x -> Tensor.batch n d y ->
  WAE_MMD_abstract.penalty_loss z_dim x y n = MMD_spec.penalty_loss z_dim x y n.
Proof.
  intros Hn _ _. unfold WAE_MMD_abstract.penalty_loss, MMD_spec.penalty_loss.
  rewrite !k_spec, !mult_INR, minus_INR by lia. reflexivity.
Qed.

Lemma C3_mmd_penalty_formula_witness :
  WAE_MMD_abstract.penalty_loss 1 [[0]; [1]] [[0]; [0]] 2
  = MMD_spec.penalty_loss 1 [[0]; [1]] [[0]; [0]] 2.
Proof.
  apply (C3_mmd_penalty_formula 1 2 1).
  - lia.
  - split; [reflexivity | repeat constructor].
  - split; [reflexivity | repeat constructor].
Defined.

(** ** HSIC: the Gaussian kernel matrix [knl] and the statistic [hsic] *)

Lemma knl_table x y gam :
  SSWAE_HSIC_dev.knl x y gam
  = map (fun xi => map (fun yj => exp (- gam * sqd xi yj)) y) x.
Proof.
  unfold SSWAE_HSIC_dev.knl. cbv zeta.
  rewrite (dist_table_table (fun d => exp (- gam * d))).
  apply (transpose_table (fun xi yj => exp (- gam * sqd xi yj))).
Qed.

Lemma knl_sym x y gam :
  SSWAE_HSIC_dev.knl x y gam = Tensor.transpose (length x) (SSWAE_HSIC_dev.knl y x gam).
Proof.
  rewrite !knl_table.
  rewrite (transpose_table (fun xi yj => exp (- gam * sqd yj xi)) x y).
  apply map_ext; intros xi. apply map_ext; intros yj. rewrite sqd_sym. reflexivity.
Qed.

Lemma mmul_comm A B : Tensor.mmul A B = Tensor.mmul B A.
Proof.
  unfold Tensor.mmul. revert B.
  induction A as [|a A IH]; intros [|b B]; cbn [zip_with]; try reflexivity.
  rewrite IH. f_equal.
  revert b. induction a as [|u a IHa]; intros [|v b]; cbn [zip_with]; try reflexivity.
  rewrite IHa, Rmult_comm. reflexivity.
Qed.

Lemma vmul_comm a b : Tensor.vmul a b = Tensor.vmul b a.
Proof.
  unfold Tensor.vmul. revert b.
  induction a as [|u a IHa]; intros [|v b]; cbn [zip_with]; try reflexivity.
  rewrite IHa, Rmult_comm. reflexivity.
Qed.

Lemma hsic_res_sym gamma x y :
  SSWAE_HSIC_dev.hsic_res gamma x y = SSWAE_HSIC_dev.hsic_res gamma y x.
Proof.
  unfold SSWAE_HSIC_dev.hsic_res. cbv zeta.
  rewrite (mmul_comm (SSWAE_HSIC_dev.knl x x _)), (vmul_comm (Tensor.mean_dim1 (SSWAE_HSIC_dev.knl x x _))).
  lra.
Qed.

(** C8. The kernel statistics are symmetric: [k(x, y, diag) = k(y, x, diag)]
    for batches of equal feature dimension, [knl(x, y, gam)] is the
    transpose of [knl(y, x, gam)], and [hsic(x, y) = hsic(y, x)] for
    non-empty batches of equally many rows. *)
Theorem C8_kernel_symmetry (z_dim : nat) (gamma : R -> R) :
  (forall n m d x y, Tensor.batch n d x -> Tensor.batch m d y ->
     (forall diag, WAE_MMD_abstract.k z_dim x y diag = WAE_MMD_abstract.k z_dim y x diag)
     /\ (forall gam, SSWAE_HSIC_dev.knl x y gam
                     = Tensor.transpose (length x) (SSWAE_HSIC_dev.knl y x gam)))
  /\ (forall n dx dy x y, (0 < n)%nat -> Tensor.batch n dx x -> Tensor.batch n dy y ->
        SSWAE_HSIC_dev.hsic gamma x y = SSWAE_HSIC_dev.hsic gamma y x).
Proof.
  split.
  - intros n m d x y _ _. split; [intros diag; apply k_sym | intros gam; apply knl_sym].
  - intros n dx dy x y _ _ _. unfold SSWAE_HSIC_dev.hsic. rewrite hsic_res_sym. reflexivity.
Qed.

Lemma C8_kernel_symmetry_witness :
  ((forall diag, WAE_MMD_abstract.k 1 [[0]; [1]] [[2]] diag
                 = WAE_MMD_abstract.k 1 [[2]] [[0]; [1]] diag)
   /\ (forall gam, SSWAE_HSIC_dev.knl [[0]; [1]] [[2]] gam
                   = Tensor.transpose 2 (SSWAE_HSIC_dev.knl [[2]] [[0]; [1]] gam)))
  /\ SSWAE_HSIC_dev.hsic (fun _ => 1) [[0]; [1]] [[2; 3]; [4; 5]]
     = SSWAE_HSIC_dev.hsic (fun _ => 1) [[2; 3]; [4; 5]] [[0]; [1]].
Proof.
  split.
  - apply (proj1 (C8_kernel_symmetry 1 (fun _ => 1)) 2%nat 1%nat 1%nat);
      (split; [reflexivity | repeat constructor]).
  - apply (proj2 (C8_kernel_symmetry 1 (fun _ => 1)) 2%nat 1%nat 2%nat);
      [lia | split; [reflexivity | repeat constructor] ..].
Defined.

(** C10. [hsic] clamps the estimate below at [1e-16] before the square
    root: the argument of the square root is at least [1e-16], hence
    not negative, and the value returned is at least [1e-8]. *)
Theorem C10_hsic_clamped (gamma : R -> R) (n dx dy : nat) (x y : list (list R)) :
  (0 < n)%nat -> Tensor.batch n dx x -> Tensor.batch n dy y ->
  SSWAE_HSIC_dev.hsic gamma x y = sqrt (Rmax (SSWAE_HSIC_dev.hsic_res gamma x y) 1e-16)
  /\ SSWAE_HSIC_dev2.hsic gamma x y = sqrt (Rmax (SSWAE_HSIC_dev2.hsic_res gamma x y) 1e-16)
  /\ 0 <= 1e-16 <= Rmax (SSWAE_HSIC_dev.hsic_res gamma x y) 1e-16
  /\ 0 <= 1e-16 <= Rmax (SSWAE_HSIC_dev2.hsic_res gamma x y) 1e-16
  /\ 1e-8 <= SSWAE_HSIC_dev.hsic gamma x y
  /\ 1e-8 <= SSWAE_HSIC_dev2.hsic gamma x y.
Proof.
  intros _ _ _.
  assert (Hs : forall r, 1e-8 <= sqrt (Rmax r 1e-16)).
  { intros r. rewrite <- (sqrt_square 1e-8) by lra.
    apply sqrt_le_1; [lra | |].
    - pose proof (Rmax_r r 1e-16). lra.
    - pose proof (Rmax_r r 1e-16). lra. }
  repeat split; try reflexivity; try lra; try apply Rmax_r; apply Hs.
Qed.

Lemma C10_hsic_clamped_witness :
  1e-8 <= SSWAE_HSIC_dev.hsic (fun _ => 1) [[0]; [1]] [[2; 3]; [4; 5]].
Proof.
  apply (C10_hsic_clamped (fun _ => 1) 2 1 2 [[0]; [1]] [[2; 3]; [4; 5]]);
    [lia | split; [reflexivity | repeat constructor] ..].
Defined.

(** ** Duplicated loss code *)

(** C7. The duplicated loss code agrees: [k] and [penalty_loss] of
    [WAE_MMD_abstract] and [CWAE_MMD_abstract] for the same [z_dim], and
    [penalty_loss] of [SSWAE_HSIC_dev] and [SSWAE_HSIC_dev2] for the same
    [y_dim], discriminator and [disc_loss]. *)
Theorem C7_duplicated_losses_agree :
  (forall z_dim x y diag,
      WAE_MMD_abstract.k z_dim x y diag = CWAE_MMD_abstract.k z_dim x y diag)
  /\ (forall z_dim x y n,
         WAE_MMD_abstract.penalty_loss z_dim x y n
         = CWAE_MMD_abstract.penalty_loss z_dim x y n)
  /\ (forall y_dim discriminate disc_loss gamma q prior_y n,
         SSWAE_HSIC_dev.penalty_loss y_dim discriminate disc_loss gamma q prior_y n
         = SSWAE_HSIC_dev2.penalty_loss y_dim discriminate disc_loss gamma q prior_y n).
Proof.
  split; [|split].
  - intros z_dim x y diag. unfold WAE_MMD_abstract.k, CWAE_MMD_abstract.k. reflexivity.
  - intros z_dim x y n.
    unfold WAE_MMD_abstract.penalty_loss, CWAE_MMD_abstract.penalty_loss. reflexivity.
  - intros y_dim discriminate disc_loss gamma q prior_y n.
    unfold SSWAE_HSIC_dev.penalty_loss, SSWAE_HSIC_dev2.penalty_loss. cbv zeta.
    repeat f_equal.
Qed.

(** ** The KL penalty *)

Lemma kl_entry m l :
  1 + l - m ^ 2 - exp l <= 0 /\ (1 + l - m ^ 2 - exp l = 0 <-> m = 0 /\ l = 0).
Proof.
  pose proof (exp_ineq1_le l) as Hl. pose proof (pow2_ge_0 m) as Hm.
  split; [lra|]. split.
  - intros H. assert (Hm0 : m ^ 2 = 0) by lra. assert (Hl0 : exp l = 1 + l) by lra.
    split.
    + destruct (Req_dec m 0) as [E|E]; [exact E|].
      exfalso. apply (pow_nonzero m 2) in E. contradiction.
    + destruct (Req_dec l 0) as [E|E]; [exact E|].
      pose proof (exp_ineq1 l E). lra.
  - intros [-> ->]. rewrite exp_0. lra.
Qed.

Lemma kl_row (a b : list R) :
  length a = length b ->
  Tensor.vsum (zip_with (fun m l => 1 + l - m ^ 2 - exp l) a b) <= 0
  /\ (Tensor.vsum (zip_with (fun m l => 1 + l - m ^ 2 - exp l) a b) = 0
      <-> Forall (fun v => v = 0) a /\ Forall (fun v => v = 0) b).
Proof.
  revert b. induction a as [|m a IH]; intros [|l b] Hlen; try discriminate Hlen.
  - cbn [zip_with]. rewrite vsum_nil. split; [lra|]. split; auto.
  - cbn [zip_with]. vsum_simpl.
    destruct (IH b) as [Hle Hiff]; [simpl in Hlen; lia|].
    destruct (kl_entry m l) as [He Heq].
    split; [lra|]. split.
    + intros H.
      assert (H1 : 1 + l - m ^ 2 - exp l = 0) by lra.
      assert (H2 : Tensor.vsum (zip_with (fun m l => 1 + l - m ^ 2 - exp l) a b) = 0) by lra.
      apply Heq in H1 as [-> ->]. apply Hiff in H2 as [Ha Hb].
      split; constructor; auto.
    + intros [Ha Hb]. inversion Ha; subst. inversion Hb; subst.
      rewrite (proj2 Hiff) by auto. rewrite exp_0. lra.
Qed.

Lemma kl_batch (d : nat) (mu logvar : list (list R)) :
  length mu = length logvar ->
  Forall (fun r => length r = d) mu -> Forall (fun r => length r = d) logvar ->
  0 <= Tensor.vsum (map (fun s => -0.5 * s) (map Tensor.vsum (kl_rows mu logvar)))
  /\ (Tensor.vsum (map (fun s => -0.5 * s) (map Tensor.vsum (kl_rows mu logvar))) = 0
      <-> Forall (Forall (fun v => v = 0)) mu /\ Forall (Forall (fun v => v = 0)) logvar).
Proof.
  unfold kl_rows. revert logvar.
  induction mu as [|a mu IH]; intros [|b logvar] Hlen Hmu Hlv; try discriminate Hlen.
  - cbn [zip_with]. vsum_simpl. split; [lra|]. split; auto.
  - cbn [zip_with]. vsum_simpl.
    inversion Hmu as [|? ? Ha Hmu']; subst. inversion Hlv as [|? ? Hb Hlv']; subst.
    destruct (IH logvar) as [Hle Hiff]; [simpl in Hlen; lia | assumption | assumption |].
    destruct (kl_row a b) as [Hr Hreq]; [congruence|].
    split; [lra|]. split.
    + intros H.
      assert (H1 : Tensor.vsum (zip_with (fun m l => 1 + l - m ^ 2 - exp l) a b) = 0) by lra.
      assert (H2 : Tensor.vsum (map (fun s => -0.5 * s) (map Tensor.vsum
                     (zip_with (zip_with (fun m l => 1 + l - m ^ 2 - exp l)) mu logvar))) = 0)
        by lra.
      apply Hreq in H1 as [Ha0 Hb0]. apply Hiff in H2 as [Hm0 Hl0].
      split; constructor; auto.
    + intros [Hm0 Hl0]. inversion Hm0; subst. inversion Hl0; subst.
      rewrite (proj2 Hiff) by auto. rewrite (proj2 Hreq) by auto. lra.
Qed.

(** C9. The KL penalty of [VAE_abstract] (and the identical one of
    [CVAE_abstract]) is non-negative, and it is zero exactly when every
    entry of [mu] and every entry of [logvar] is zero. *)
Theorem C9_kl_penalty_nonneg (n d : nat) (mu logvar : list (list R)) :
  (0 < n)%nat -> Tensor.batch n d mu -> Tensor.batch n d logvar ->
  0 <= VAE_abstract.penalty_loss mu logvar
  /\ (VAE_abstract.penalty_loss mu logvar = 0
      <-> Forall (Forall (fun v => v = 0)) mu /\ Forall (Forall (fun v => v = 0)) logvar)
  /\ CVAE_abstract.penalty_loss mu logvar = VAE_abstract.penalty_loss mu logvar.
Proof.
  intros Hn [Hlm Hmu] [Hll Hlv].
  destruct (kl_batch d mu logvar) as [Hle Hiff]; [congruence | assumption | assumption |].
  unfold CVAE_abstract.penalty_loss, VAE_abstract.penalty_loss, Tensor.vmean.
  rewrite !length_map. unfold kl_rows at 2 4. rewrite length_zip_with.
  rewrite Hlm, Hll, Nat.min_id.
  assert (Hpos : 0 < INR n) by (apply lt_0_INR; exact Hn).
  split; [|split; [|reflexivity]].
  - apply Rmult_le_pos; [exact Hle|]. apply Rlt_le, Rinv_0_lt_compat, Hpos.
  - rewrite <- Hiff. split.
    + intros H. apply Rmult_integral in H as [H|H]; [exact H|].
      exfalso. apply (Rinv_neq_0_compat (INR n)); [lra | exact H].
    + intros ->. unfold Rdiv. apply Rmult_0_l.
Qed.

Lemma C9_kl_penalty_nonneg_witness :
  0 <= VAE_abstract.penalty_loss [[0; 1]] [[0; 0]].
Proof.
  apply (C9_kl_penalty_nonneg 1 2 [[0; 1]] [[0; 0]]);
    [lia | split; [reflexivity | repeat constructor] ..].
Defined.

(** ** Reasoning about statement sequences *)

Lemma bind_inr {W A B} (c : prog W A) (f : A -> prog W B) w a w' :
  c w = (inr a, w') -> bind c f w = f a w'.
Proof. intros H. unfold bind. rewrite H. reflexivity. Qed.

Lemma bind_inv {W A B} (c : prog W A) (f : A -> prog W B) w b w2 :
  bind c f w = (inr b, w2) ->
  exists a w1, c w = (inr a, w1) /\ f a w1 = (inr b, w2).
Proof.
  unfold bind. destruct (c w) as [[e|a] w1]; intros H; [discriminate|].
  exists a, w1. split; [reflexivity | exact H].
Qed.

Lemma wp_ret {W A} (a : A) (Q : A -> W -> Prop) w : Q a w -> wp (ret a) Q w.
Proof. intros H. exists a, w. split; [reflexivity | exact H]. Qed.

Lemma wp_bind {W A B} (c : prog W A) (f : A -> prog W B) (Q : B -> W -> Prop) w :
  wp c (fun a w' => wp (f a) Q w') w -> wp (bind c f) Q w.
Proof.
  intros (a & w' & Hc & b & w'' & Hf & HQ). exists b, w''. split; [|exact HQ].
  unfold bind. rewrite Hc. exact Hf.
Qed.

Lemma wp_mono {W A} (c : prog W A) (Q Q' : A -> W -> Prop) w :
  wp c Q w -> (forall a w', Q a w' -> Q' a w') -> wp c Q' w.
Proof. intros (a & w' & Hc & HQ) H. exists a, w'. split; [exact Hc | apply H, HQ]. Qed.


Lemma wp_get_st {A W} (Q : W -> env A W -> Prop) e : Q (st e) e -> wp get_st Q e.
Proof. intros H. exists (st e), e. split; [reflexivity | exact H]. Qed.

Lemma wp_update_st {A W} (f : W -> W) (Q : unit -> env A W -> Prop) e :
  Q tt (Env (accs e) (f (st e))) -> wp (update_st f) Q e.
Proof. intros H. eexists tt, _. split; [reflexivity | exact H]. Qed.

Lemma wp_new_frame {A W} (Q : unit -> env A W -> Prop) e :
  Q tt (Env ∅ (st e)) -> wp new_frame Q e.
Proof. intros H. eexists tt, _. split; [reflexivity | exact H]. Qed.

Lemma wp_assign {A W} name (a : A) (Q : unit -> env A W -> Prop) e :
  Q tt (Env (<[name := a]> (accs e)) (st e)) -> wp (assign name a) Q e.
Proof. intros H. eexists tt, _. split; [reflexivity | exact H]. Qed.

Lemma wp_load {A W} name (Q : A -> env A W -> Prop) e :
  is_Some (accs e !! name) -> (forall a, Q a e) -> wp (load name) Q e.
Proof.
  intros [a Ha] H. exists a, e. split; [|apply H].
  unfold load, bind, get. rewrite Ha. reflexivity.
Qed.

Lemma wp_next_iter {W X} (gen : list X) (Q : X -> W -> Prop) w :
  gen <> [] -> (forall x, Q x w) -> wp (next_iter gen) Q w.
Proof.
  intros Hne H. destruct gen as [|x gen]; [congruence|].
  exists x, w. split; [reflexivity | apply H].
Qed.

Lemma wp_for_each {W X} (I : W -> Prop) (l : list X) (body : X -> prog W unit)
    (Q : unit -> W -> Prop) w :
  I w ->
  (forall x w, In x l -> I w -> wp (body x) (fun _ => I) w) ->
  (forall w, I w -> Q tt w) ->
  wp (for_each l body) Q w.
Proof.
  intros HI Hbody HQ. revert w HI.
  induction l as [|x l IH]; intros w HI; cbn [for_each].
  - apply wp_ret, HQ, HI.
  - apply wp_bind. eapply wp_mono; [apply Hbody; [left; reflexivity | exact HI]|].
    intros [] w' HI'. apply IH; [|exact HI'].
    intros y w0 Hy. apply Hbody. right. exact Hy.
Qed.

Lemma wp_wpx {W A} (c : prog W A) (Q : exn + A -> W -> Prop) w :
  wp c (fun a w' => Q (inr a) w') w -> wpx c Q w.
Proof. intros (a & w' & Hc & HQ). unfold wpx. rewrite Hc. exact HQ. Qed.

Lemma wpx_bind {W A B} (c : prog W A) (f : A -> prog W B) (Q : exn + B -> W -> Prop) w :
  wpx c (fun r w' => match r with
                     | inl e => Q (inl e) w'
                     | inr a => wpx (f a) Q w'
                     end) w ->
  wpx (bind c f) Q w.
Proof.
  unfold wpx, bind. destruct (c w) as [[e|a] w']; cbn; intros H; exact H.
Qed.

Lemma wpx_bind_wp {W A B} (c : prog W A) (f : A -> prog W B) (Q : exn + B -> W -> Prop) w :
  wp c (fun a w' => wpx (f a) Q w') w -> wpx (bind c f) Q w.
Proof.
  intros (a & w' & Hc & HQ). unfold wpx, bind in *. rewrite Hc. exact HQ.
Qed.

Lemma wpx_raise {W A} (e : exn) (Q : exn + A -> W -> Prop) w :
  Q (inl e) w -> wpx (raise e : prog W A) Q w.
Proof. intros H. exact H. Qed.

Lemma wpx_mono {W A} (c : prog W A) (Q Q' : exn + A -> W -> Prop) w :
  wpx c Q w -> (forall r w', Q r w' -> Q' r w') -> wpx c Q' w.
Proof. unfold wpx. intros H HQ. apply HQ, H. Qed.

(** A statement that raises ends the sequence it is part of. *)
Lemma wpx_bind_exn {W A B} (c : prog W A) (f : A -> prog W B) (Q : exn + B -> W -> Prop) w :
  wpx c (fun r w' => exists x, r = inl x /\ Q (inl x) w') w -> wpx (bind c f) Q w.
Proof.
  unfold wpx, bind. destruct (c w) as [[x|a] w']; cbn [fst snd];
    intros (x' & Hx & HQ); [injection Hx as <-; exact HQ | discriminate].
Qed.

Lemma for_each_app {W X} (l1 l2 : list X) (body : X -> prog W unit) w :
  for_each (l1 ++ l2) body w = bind (for_each l1 body) (fun _ => for_each l2 body) w.
Proof.
  revert w. induction l1 as [|x l1 IH]; intros w; cbn [app for_each]; [reflexivity|].
  unfold bind at 1 2 3. destruct (body x w) as [[e|[]] w']; [reflexivity|].
  rewrite IH. reflexivity.
Qed.

Lemma wpx_for_each_app {W X} (l1 l2 : list X) (body : X -> prog W unit)
    (Q : exn + unit -> W -> Prop) w :
  wpx (bind (for_each l1 body) (fun _ => for_each l2 body)) Q w ->
  wpx (for_each (l1 ++ l2) body) Q w.
Proof. unfold wpx. rewrite for_each_app. intros H. exact H. Qed.

Lemma is_Some_insert {A} (m : gmap string A) n n' a :
  n = n' \/ is_Some (m !! n') -> is_Some (<[n := a]> m !! n').
Proof.
  intros [->|H]; [rewrite lookup_insert_eq; eauto|].
  rewrite lookup_insert. case_decide; [eauto | exact H].
Qed.

Ltac bound :=
  repeat (apply is_Some_insert; first [left; reflexivity | right]); assumption.

Ltac wp_step :=
  lazymatch goal with
  | |- wp (bind _ _) _ _ => apply wp_bind
  | |- wp (ret _) _ _ => apply wp_ret
  | |- wp get_st _ _ => apply wp_get_st
  | |- wp new_frame _ _ => apply wp_new_frame
  | |- wp (assign _ _) _ _ => apply wp_assign
  | |- wp (update_st _) _ _ => apply wp_update_st
  | |- wp (load _) _ _ => apply wp_load; [cbn [accs st]; bound | intros ?]
  | |- wp (acc_append _ _ _ _) _ _ => unfold acc_append
  | |- wp (acc_avg _ _) _ _ => unfold acc_avg
  | |- wp (set_lists _ _ _ _) _ _ => unfold set_lists
  | |- wp (set_params_optimizer _ _) _ _ => unfold set_params_optimizer
  | |- wp (set_scheduler_optimizer _ _) _ _ => unfold set_scheduler_optimizer
  | |- wp (set_best_obj _) _ _ => unfold set_best_obj
  | |- wp (set_hist _) _ _ => unfold set_hist
  | |- wp save _ _ => unfold save
  | |- wp (torch_save _) _ _ => unfold torch_save
  | |- wp (epoch_done _) _ _ => unfold epoch_done
  end.

Ltac wp_pure := repeat (wp_step; cbv beta); cbn [accs st].

(** The statements of a sequence that return, up to a loop or a
    conditional. *)
Ltac wpx_pure :=
  repeat lazymatch goal with
    | |- wpx (bind (when _ _) _) _ _ => fail
    | |- wpx (bind (for_each _ _) _) _ _ => fail
    | |- wpx (bind (epoch_loop _ _ _) _) _ _ => fail
    | |- wpx (bind (next_iter _) _) _ _ => fail
    | |- wpx (bind (SSWAE_HSIC_dev.mmd_item _ _) _) _ _ => fail
    | |- wpx (bind _ _) _ _ => apply wpx_bind_wp; wp_pure
    end.

Lemma epoch_loop_spec_in {W} (kill : option nat) (l : list Z) (body : Z -> prog W unit)
    (P : list Z -> W -> Prop) (Q : exn + unit -> W -> Prop) w :
  (forall l', (forall x, In x l' -> In x l) ->
              wp (for_each l' body) (fun _ w' => P l' w') w) ->
  (forall w', P (ran kill l) w' ->
     Q (if killed kill l then inl Interrupted else inr tt) w') ->
  wpx (epoch_loop kill l body) Q w.
Proof.
  intros Hl HQ. unfold epoch_loop.
  assert (Htake : forall k x, In x (take k l) -> In x l).
  { intros k x Hx. apply list_elem_of_In in Hx. apply list_elem_of_In.
    apply elem_of_take in Hx as (i & Hi & _). eapply list_elem_of_lookup_2. exact Hi. }
  destruct kill as [k|]; cbn [ran killed] in HQ.
  - destruct (k <? length l)%nat eqn:E.
    + apply wpx_bind_wp. eapply wp_mono; [apply Hl, Htake|].
      intros [] w' HP. apply wpx_raise, HQ, HP.
    + apply wp_wpx. eapply wp_mono; [apply Hl; auto|]. intros [] w' HP. apply HQ.
      apply Nat.ltb_ge in E. rewrite take_ge by exact E. exact HP.
  - apply wp_wpx. eapply wp_mono; [apply Hl; auto|]. intros [] w' HP. apply HQ, HP.
Qed.

Lemma In_py_range (a b x : Z) : In x (py_range a b) -> (a <= x < b)%Z.
Proof.
  intros H. apply list_elem_of_In in H. unfold py_range in H.
  apply elem_of_seqZ in H. lia.
Qed.

Lemma py_range_split (a k b : Z) :
  (a <= k < b)%Z -> py_range a b = py_range a k ++ k :: py_range (k + 1) b.
Proof.
  intros H. unfold py_range.
  replace (b - a)%Z with ((k - a) + (b - k))%Z by lia.
  rewrite seqZ_app by lia. f_equal.
  replace (a + (k - a))%Z with k by lia.
  rewrite seqZ_cons by lia. f_equal. f_equal; lia.
Qed.



(** ** [VAE_abstract.train]: checkpoint and resume *)

Section VAE_train.
Context {M O S Batch A : Type}.
Variable fw : framework M O S Batch.
Variable ia : inc_avg_ops A.
Variable hp : hparams.
Variable recon_loss : M -> Batch -> R.
Variable mu_and_logvar : M -> Batch -> list (list R) * list (list R).

Lemma vae_epoch_ok epoch e :
  (validate_batch hp = true -> test_generator fw epoch <> []) ->
  wp (VAE_abstract.train_epoch fw ia hp recon_loss mu_and_logvar epoch)
     (fun _ e' =>
        epochs_run (st e') = epochs_run (st e) ++ [epoch]
        /\ if nonempty (save_state hp)
           then exists w, save_state_file (st e') = Some (VAE_abstract.save_dict hp epoch w)
           else save_state_file (st e') = save_state_file (st e))
     e.
Proof.
  intros Htest. unfold VAE_abstract.train_epoch.
  wp_pure.
  apply (wp_for_each (keeps (epochs_run (st e)) (save_state_file (st e))
                            ["train_loss_main"; "train_loss_penalty"]%string)).
  { repeat split; cbn [accs st]. repeat constructor; bound. }
  { intros b e1 _ (Hn & HL & HF). apply Forall_cons in Hn as [Hn1 Hn]. apply Forall_cons in Hn as [Hn2 _].
    wp_pure. destruct (optimize fw _ _ _) as [m' o'].
    wp_pure. wp_pure.
    destruct (Rgtb (lamb hp) 0); cbn [when].
    - wp_pure. repeat split; cbn [epochs_run save_state_file]; try assumption.
      repeat constructor; bound.
    - wp_pure. repeat split; cbn [epochs_run save_state_file]; try assumption.
      repeat constructor; bound. }
  intros e1 (Hn & HL & HF). apply Forall_cons in Hn as [Hn1 Hn]. apply Forall_cons in Hn as [Hn2 _].
  wp_pure.
  assert (Hval : forall (Q : unit -> env A (loop_state M O S) -> Prop) e2,
    keeps (epochs_run (st e)) (save_state_file (st e))
          ["test_loss_main"; "test_loss_penalty"]%string e2 ->
    (forall e3, epochs_run (st e3) = epochs_run (st e) ->
                save_state_file (st e3) = save_state_file (st e) -> Q tt e3) ->
    wp (when (validate_batch hp)
      (for_each (test_generator fw epoch) (fun b =>
         do w <- get_st;
         let n := batch_len fw b in
         acc_append ia "test_loss_main" (recon_loss (params w) b) n ;;;
         when (Rgtb (lamb hp) 0)
           (acc_append ia "test_loss_penalty"
              (VAE_abstract.penalty mu_and_logvar (params w) b) n)) ;;;
       do a <- acc_avg ia "test_loss_main";
       do p <- acc_avg ia "test_loss_penalty";
       do w <- get_st;
       set_lists (train_main_list w) (train_penalty_list w)
                 (test_main_list w ++ [a]) (test_penalty_list w ++ [p]) ;;;
       next_iter (test_generator fw epoch) ;;;
       if save_best hp then
         do tm <- acc_avg ia "test_loss_main";
         do tp <- acc_avg ia "test_loss_penalty";
         let obj := tm + lamb hp * tp in
         do w <- get_st;
         when (Rgtb (snd (best_obj w)) obj)
           (set_best_obj (epoch + 1, obj)%Z ;;; save)
       else save)) Q e2).
  { intros Q e2 (Hn & HL2 & HF2) HQ.
    destruct (validate_batch hp); cbn [when]; [|apply wp_ret, HQ; assumption].
    specialize (Htest eq_refl).
    apply wp_bind.
    apply (wp_for_each (keeps (epochs_run (st e)) (save_state_file (st e))
                              ["test_loss_main"; "test_loss_penalty"]%string)).
    { repeat split; assumption. }
    { intros b e3 _ (Hn3 & HL3 & HF3).
      apply Forall_cons in Hn3 as [Hm1 Hn3]. apply Forall_cons in Hn3 as [Hm2 _].
      wp_pure. wp_pure.
      destruct (Rgtb (lamb hp) 0); cbn [when].
      - wp_pure. repeat split; cbn [epochs_run save_state_file]; try assumption.
        repeat constructor; bound.
      - wp_pure. repeat split; cbn [epochs_run save_state_file]; try assumption.
        repeat constructor; bound. }
    intros e3 (Hn3 & HL3 & HF3).
    apply Forall_cons in Hn3 as [Hm1 Hn3]. apply Forall_cons in Hn3 as [Hm2 _].
    wp_pure.
    apply wp_next_iter; [exact Htest | intros _].
    destruct (save_best hp).
    - wp_pure. 
      destruct (Rgtb _ _); cbn [when]; wp_pure; apply HQ; cbn; assumption.
    - wp_pure. apply HQ; cbn; assumption. }
  apply Hval.
  { repeat split; cbn; try assumption. repeat constructor; bound. }
  intros e3 HL3 HF3. wp_pure.
  destruct (scheduler_step fw _ _) as [s' o'].
  wp_pure.
  destruct (nonempty (save_state hp)); cbn [when].
  - wp_pure. cbn. split; [congruence | eauto].
  - wp_pure. cbn. split; congruence.
Qed.

Lemma vae_epochs_ok l e :
  (validate_batch hp = true -> forall x, In x l -> test_generator fw x <> []) ->
  wp (for_each l (VAE_abstract.train_epoch fw ia hp recon_loss mu_and_logvar))
     (fun _ e' =>
        epochs_run (st e') = epochs_run (st e) ++ l
        /\ vae_file_after hp l (save_state_file (st e)) (save_state_file (st e')))
     e.
Proof.
  intros Htest. revert e. induction l as [|x l IH]; intros e; cbn [for_each].
  - apply wp_ret. rewrite app_nil_r. split; [reflexivity|].
    unfold vae_file_after. cbn. destruct (nonempty _); reflexivity.
  - apply wp_bind.
    eapply wp_mono; [apply vae_epoch_ok; intros Hv; apply (Htest Hv); left; reflexivity|].
    intros [] e1 [HL HF].
    eapply wp_mono; [apply IH; intros Hv y Hy; apply (Htest Hv); right; exact Hy|].
    intros [] e2 [HL2 HF2]. split.
    + rewrite HL2, HL, <- app_assoc. reflexivity.
    + unfold vae_file_after in *. destruct (nonempty (save_state hp)); [|congruence].
      destruct l as [|y l]; [cbn in *; destruct HF as [w Hw]; exists w; congruence|].
      rewrite last_cons_cons. destruct (last (y :: l)) eqn:E; [exact HF2|].
      apply last_None in E. discriminate E.
Qed.

Lemma vae_save_dict_epoch epoch (w : loop_state M O S) :
  VAE_abstract.save_dict hp epoch w !! "epoch" = Some (CkInt (epoch + 1)).
Proof. unfold VAE_abstract.save_dict. destruct (nonempty _); reflexivity. Qed.

Lemma vae_save_dict_model epoch (w : loop_state M O S) :
  VAE_abstract.save_dict hp epoch w !! "model_state_dict" = Some (CkModel (params w)).
Proof. unfold VAE_abstract.save_dict. destruct (nonempty _); reflexivity. Qed.

Lemma vae_save_dict_optimizer epoch (w : loop_state M O S) :
  VAE_abstract.save_dict hp epoch w !! "optimizer_state_dict" = Some (CkOptim (optimizer w)).
Proof. unfold VAE_abstract.save_dict. destruct (nonempty _); reflexivity. Qed.

Lemma vae_save_dict_scheduler epoch (w : loop_state M O S) :
  nonempty (lr_schedule hp) = true ->
  VAE_abstract.save_dict hp epoch w !! "scheduler" = Some (CkSched (scheduler w)).
Proof. intros H. unfold VAE_abstract.save_dict. rewrite H. reflexivity. Qed.

Lemma vae_loop_and_rest kill start e0 e :
  (validate_batch hp = true ->
   forall x, In x (py_range start (num_epoch hp)) -> test_generator fw x <> []) ->
  epochs_run (st e) = epochs_run (st e0) ->
  save_state_file (st e) = save_state_file (st e0) ->
  wpx (epoch_loop kill (py_range start (num_epoch hp))
         (VAE_abstract.train_epoch fw ia hp recon_loss mu_and_logvar) ;;;
       when (negb (validate_batch hp)) save ;;;
       do w <- get_st;
       set_hist [train_main_list w; train_penalty_list w;
                 test_main_list w; test_penalty_list w])
      (vae_run_post hp kill start e0) e.
Proof.
  intros Htest HL HF. apply wpx_bind.
  apply (epoch_loop_spec_in kill _ _
           (fun l e' => epochs_run (st e') = epochs_run (st e) ++ l
                        /\ vae_file_after hp l (save_state_file (st e)) (save_state_file (st e')))).
  { intros l' Hsub. apply vae_epochs_ok. intros Hv x Hx. apply (Htest Hv), Hsub, Hx. }
  intros e1 [HL1 HF1]. unfold vae_run_post.
  destruct (killed kill _).
  - rewrite <- HL, <- HF. auto.
  - apply wp_wpx. destruct (negb (validate_batch hp)); cbn [when]; wp_pure; cbn;
      rewrite <- HL, <- HF; auto.
Qed.

Lemma vae_train_fresh kill e :
  encoder_pretrain hp = false ->
  (validate_batch hp = true ->
   forall x, In x (py_range 0 (num_epoch hp)) -> test_generator fw x <> []) ->
  wpx (VAE_abstract.train fw ia hp recon_loss mu_and_logvar kill false) (vae_run_post hp kill 0 e) e.
Proof.
  intros Hpre Htest. unfold VAE_abstract.train. rewrite Hpre. cbn [when].
  apply wpx_bind_wp. wp_pure.
  apply wpx_bind_wp. wp_pure. apply wpx_bind_wp. wp_pure.
  apply wpx_bind_wp. wp_pure. apply wpx_bind_wp. wp_pure.
  apply wpx_bind_wp. wp_pure.
  apply vae_loop_and_rest; [exact Htest | reflexivity | reflexivity].
Qed.

(** An epoch whose validation step finds the test loader empty: the
    loop over it runs no iteration and [next(iter(...))] raises, before
    the model or the checkpoint is written. *)
Lemma vae_epoch_stops epoch e :
  validate_batch hp = true -> test_generator fw epoch = [] ->
  wpx (VAE_abstract.train_epoch fw ia hp recon_loss mu_and_logvar epoch)
      (fun r e' =>
         r = inl StopIteration
         /\ epochs_run (st e') = epochs_run (st e)
         /\ save_state_file (st e') = save_state_file (st e))
      e.
Proof.
  intros Hval Hemp. unfold VAE_abstract.train_epoch.
  wpx_pure. apply wpx_bind_wp.
  apply (wp_for_each (keeps (epochs_run (st e)) (save_state_file (st e))
                            ["train_loss_main"; "train_loss_penalty"]%string)).
  { repeat split; cbn [accs st]. repeat constructor; bound. }
  { intros b e1 _ (Hn & HL & HF).
    apply Forall_cons in Hn as [Hn1 Hn]. apply Forall_cons in Hn as [Hn2 _].
    wp_pure. destruct (optimize fw _ _ _) as [m' o'].
    wp_pure. wp_pure.
    destruct (Rgtb (lamb hp) 0); cbn [when].
    - wp_pure. repeat split; cbn [epochs_run save_state_file]; try assumption.
      repeat constructor; bound.
    - wp_pure. repeat split; cbn [epochs_run save_state_file]; try assumption.
      repeat constructor; bound. }
  intros e1 (Hn & HL & HF).
  apply Forall_cons in Hn as [Hn1 Hn]. apply Forall_cons in Hn as [Hn2 _].
  wpx_pure.
  rewrite Hval, Hemp. cbn [when for_each].
  apply wpx_bind_exn.
  wpx_pure.
  apply wpx_bind_exn. unfold wpx, next_iter, raise. cbn [fst snd st].
  exists StopIteration. split; [reflexivity|].
  exists StopIteration. split; [reflexivity|]. cbn [epochs_run save_state_file]. auto.
Qed.

Lemma vae_loop_stops l1 x l2 e :
  validate_batch hp = true ->
  (forall y, In y l1 -> test_generator fw y <> []) ->
  test_generator fw x = [] ->
  wpx (for_each (l1 ++ x :: l2) (VAE_abstract.train_epoch fw ia hp recon_loss mu_and_logvar))
      (fun r e' =>
         r = inl StopIteration
         /\ epochs_run (st e') = epochs_run (st e) ++ l1
         /\ vae_file_after hp l1 (save_state_file (st e)) (save_state_file (st e')))
      e.
Proof.
  intros Hval Htest Hemp. apply wpx_for_each_app. apply wpx_bind_wp.
  eapply wp_mono; [apply vae_epochs_ok; intros _; exact Htest|].
  intros [] e1 [HL HF]. cbn [for_each]. apply wpx_bind_exn.
  eapply wpx_mono; [apply vae_epoch_stops; assumption|].
  intros r e2 (Hr & HL2 & HF2). exists StopIteration. split; [exact Hr|].
  split; [reflexivity|]. split; [congruence|]. rewrite HF2. exact HF.
Qed.

(** A fresh run on a test loader that yields no batch at epoch [k], the
    first such epoch. *)
Lemma vae_train_stops k e :
  encoder_pretrain hp = false ->
  validate_batch hp = true ->
  (0 <= k < num_epoch hp)%Z ->
  (forall epoch, (0 <= epoch < k)%Z -> test_generator fw epoch <> []) ->
  test_generator fw k = [] ->
  wpx (VAE_abstract.train fw ia hp recon_loss mu_and_logvar None false)
      (fun r e' =>
         r = inl StopIteration
         /\ epochs_run (st e') = epochs_run (st e) ++ py_range 0 k
         /\ vae_file_after hp (py_range 0 k) (save_state_file (st e)) (save_state_file (st e')))
      e.
Proof.
  intros Hpre Hval Hk Htest Hemp. unfold VAE_abstract.train. rewrite Hpre. cbn [when].
  wpx_pure.
  unfold epoch_loop. rewrite (py_range_split 0 k (num_epoch hp)) by exact Hk.
  apply wpx_bind_exn.
  eapply wpx_mono.
  { apply vae_loop_stops; [exact Hval | | exact Hemp].
    intros y Hy. apply Htest. apply In_py_range in Hy. exact Hy. }
  cbn [st epochs_run save_state_file].
  intros r e2 (Hr & HL2 & HF2). exists StopIteration. split; [exact Hr|].
  split; [reflexivity|]. split; [exact HL2 | exact HF2].
Qed.

Lemma vae_train_resume kill e epoch0 w0 :
  encoder_pretrain hp = false ->
  (validate_batch hp = true ->
   forall x, In x (py_range (epoch0 + 1) (num_epoch hp)) -> test_generator fw x <> []) ->
  save_state_file (st e) = Some (VAE_abstract.save_dict hp epoch0 w0) ->
  wpx (VAE_abstract.train fw ia hp recon_loss mu_and_logvar kill true) (vae_run_post hp kill (epoch0 + 1) e) e.
Proof.
  intros Hpre Htest Hfile. unfold VAE_abstract.train. rewrite Hpre. cbn [when].
  apply wpx_bind_wp. wp_pure.
  apply wpx_bind_wp. wp_pure. apply wpx_bind_wp. wp_pure.
  apply wpx_bind_wp. wp_pure. apply wpx_bind_wp. wp_pure.
  apply wpx_bind_wp.
  unfold torch_load. wp_pure. cbn. rewrite Hfile. wp_pure.
  unfold ckpt_int. rewrite vae_save_dict_epoch. wp_pure.
  unfold ckpt_model. rewrite vae_save_dict_model. wp_pure.
  unfold ckpt_optim. rewrite vae_save_dict_optimizer. wp_pure.
  destruct (nonempty (lr_schedule hp)) eqn:Els; cbn [when].
  - unfold ckpt_sched. rewrite vae_save_dict_scheduler by exact Els. wp_pure.
    apply vae_loop_and_rest; [exact Htest | reflexivity | cbn; congruence].
  - wp_pure. apply vae_loop_and_rest; [exact Htest | reflexivity | cbn; congruence].
Qed.

Lemma vae_train_resume_nofile kill e :
  encoder_pretrain hp = false ->
  save_state_file (st e) = None ->
  wpx (VAE_abstract.train fw ia hp recon_loss mu_and_logvar kill true)
      (fun r e' => r = inl FileNotFoundError
                   /\ epochs_run (st e') = epochs_run (st e)
                   /\ save_state_file (st e') = None
                   /\ save_path_file (st e') = save_path_file (st e)) e.
Proof.
  intros Hpre Hfile. unfold VAE_abstract.train. rewrite Hpre. cbn [when].
  apply wpx_bind_wp. wp_pure.
  apply wpx_bind_wp. wp_pure. apply wpx_bind_wp. wp_pure.
  apply wpx_bind_wp. wp_pure. apply wpx_bind_wp. wp_pure.
  unfold wpx, bind, torch_load, get_st, get, ret, raise. cbn. rewrite Hfile. cbn. auto.
Qed.

End VAE_train.

(** ** Constructors: missing configuration keys *)

Lemma getitem_insert_ne {W} cfg sec ti key key' v :
  cfg !! sec = Some ti -> key <> key' ->
  @getitem W (<[sec := <[key := v]> ti]> cfg) sec key' = getitem cfg sec key'.
Proof.
  intros Hs Hne. unfold getitem. rewrite lookup_insert_eq, Hs, lookup_insert_ne by exact Hne.
  reflexivity.
Qed.

Lemma int_list_state {W} py_int (ls : list string) (w : W) :
  (int_list py_int ls w).2 = w.
Proof.
  induction ls as [|i ls IH]; cbn; [reflexivity|].
  unfold bind, int_of. destruct (py_int i); cbn; [|reflexivity].
  destruct (int_list py_int ls w) as [[e|l] w'] eqn:E; cbn in *; exact IH.
Qed.

Section Constructors.
Variable py_float : string -> option R.
Variable py_int : string -> option Z.
Variable base_init : gmap string (gmap string string) -> prog (gmap string attr) unit.

Lemma classifier_init_portion_absent cfg ti v self0 self1' :
  cfg !! "train_info" = Some ti -> ti !! "portion" = None ->
  (forall self, base_init (<["train_info" := <["portion" := v]> ti]> cfg) self
                = base_init cfg self) ->
  classifier_abstract.__init__ py_float py_int base_init
    (<["train_info" := <["portion" := v]> ti]> cfg) self0 = (inr tt, self1') ->
  classifier_abstract.__init__ py_float py_int base_init cfg self0
  = (inr tt, <["portion" := AFloat 1.0]> self1').
Proof.
  intros Hti Hp Hbase H.
  unfold classifier_abstract.__init__ in *.
  apply bind_inv in H as ([] & s1 & H1 & H).
  apply bind_inv in H as ([] & s2 & H2 & H).
  apply bind_inv in H as (lc & s3 & H3 & H).
  apply bind_inv in H as (l & s4 & H4 & H).
  apply bind_inv in H as ([] & s5 & H5 & H).
  rewrite Hbase in H1.
  rewrite (getitem_insert_ne cfg "train_info" ti "portion" "labeled_class" v Hti) in H3 by done.
  rewrite (bind_inr _ _ _ _ _ H1), (bind_inr _ _ _ _ _ H2), (bind_inr _ _ _ _ _ H3).
  rewrite (bind_inr _ _ _ _ _ H4), (bind_inr _ _ _ _ _ H5).
  unfold try_except in *.
  unfold getitem in H at 1. rewrite lookup_insert_eq, lookup_insert_eq in H.
  unfold getitem at 1. rewrite Hti, Hp.
  cbn in H |- *.
  unfold float_of in H. destruct (py_float v) as [f|]; [|discriminate].
  cbn in H. injection H as <-.
  unfold setattr, modify. rewrite insert_insert_eq. reflexivity.
Qed.

Lemma dev2_init_test_class_absent cfg ti v self0 self1' :
  cfg !! "train_info" = Some ti -> ti !! "test_class" = None ->
  (forall self, base_init (<["train_info" := <["test_class" := v]> ti]> cfg) self
                = base_init cfg self) ->
  SSWAE_HSIC_dev2.__init__ py_float py_int base_init
    (<["train_info" := <["test_class" := v]> ti]> cfg) self0 = (inr tt, self1') ->
  exists self1,
    SSWAE_HSIC_dev2.__init__ py_float py_int base_init cfg self0 = (inr tt, self1)
    /\ self1 !! "test_class" = Some (AIntList [])
    /\ forall name, name <> "test_class" -> self1 !! name = self1' !! name.
Proof.
  intros Hti Hp Hbase H.
  unfold SSWAE_HSIC_dev2.__init__, CWAE_GAN_abstract.__init__ in *.
  apply bind_inv in H as ([] & s1 & H1 & H).
  apply bind_inv in H1 as ([] & s0 & H0 & H1).
  rewrite Hbase in H0.
  rewrite (bind_inr _ _ _ _ _ (eq_trans (bind_inr _ _ _ _ _ H0) H1)).
  do 3 (apply bind_inv in H as ([] & ? & ?H & H); rewrite (bind_inr _ _ _ _ _ H2); clear H2).
  do 2 (
    apply bind_inv in H as (? & ? & ?H & H);
    rewrite (getitem_insert_ne cfg "train_info" ti "test_class" _ v Hti) in H2 by done;
    rewrite (bind_inr _ _ _ _ _ H2); clear H2;
    apply bind_inv in H as (? & ? & ?H & H); rewrite (bind_inr _ _ _ _ _ H2); clear H2;
    apply bind_inv in H as ([] & ? & ?H & H); rewrite (bind_inr _ _ _ _ _ H2); clear H2).
  apply bind_inv in H as (? & ? & ?H & H).
  rewrite (getitem_insert_ne cfg "train_info" ti "test_class" _ v Hti) in H2 by done.
  rewrite (bind_inr _ _ _ _ _ H2); clear H2.
  apply bind_inv in H as (? & ? & ?H & H); rewrite (bind_inr _ _ _ _ _ H2); clear H2.
  apply bind_inv in H as ([] & smid & ?H & H); rewrite (bind_inr _ _ _ _ _ H2); clear H2.
  apply bind_inv in H as ([] & s' & Htry & H).
  assert (Hs' : exists l, s' = <["test_class" := AIntList l]> smid).
  { unfold try_except, bind, setattr, modify in Htry.
    unfold getitem in Htry. rewrite lookup_insert_eq, lookup_insert_eq in Htry.
    cbn [ret] in Htry.
    pose proof (int_list_state py_int (str_split "," (str_remove " " v)) smid) as Hst.
    destruct (int_list py_int _ smid) as [[e|l] sb]; cbn in Hst; subst sb;
      injection Htry as <-; eauto. }
  destruct Hs' as [l ->].
  unfold try_except at 1. unfold getitem at 1. rewrite Hti, Hp.
  unfold bind at 2. unfold raise at 1. cbn [setattr modify].
  unfold bind at 1. unfold setattr at 1, modify at 1.
  repeat rewrite (getitem_insert_ne cfg "train_info" ti "test_class" _ v Hti) in H by done.
  unfold getitem in H |- *. rewrite Hti in H |- *.
  unfold bind, float_of, int_of, setattr, modify, ret, raise in H |- *.
  destruct (ti !! "portion") as [vp|]; [|discriminate].
  destruct (py_float vp) as [fp|]; [|discriminate].
  destruct (ti !! "batch_size") as [vb|]; [|discriminate].
  destruct (py_int vb) as [zb|]; [|discriminate].
  injection H as <-.
  eexists. split; [reflexivity|]. split.
  - rewrite !lookup_insert_ne by done. apply lookup_insert_eq.
  - intros name Hne. rewrite !lookup_insert. repeat case_decide; try reflexivity.
    congruence.
Qed.
End Constructors.

(** C5. On a configuration whose [train_info] section has no ['portion'],
    [classifier_abstract.__init__] succeeds whenever it succeeds with the
    key present, sets [portion] to [1.0] and every other attribute as
    with the key; likewise [SSWAE_HSIC_dev2.__init__] without
    ['test_class'] succeeds, sets [test_class] to the empty list and every
    other attribute as with the key.  (The constructors of [_base_model]
    are taken not to read the key.) *)
Theorem C5_missing_key_fallbacks
    (py_float : string -> option R) (py_int : string -> option Z)
    (XAE_abstract_init CXAE_adv_abstract_init :
       gmap string (gmap string string) -> prog (gmap string attr) unit) :
  (forall cfg ti v self0 self1',
      cfg !! "train_info" = Some ti -> ti !! "portion" = None ->
      (forall self, XAE_abstract_init (<["train_info" := <["portion" := v]> ti]> cfg) self
                    = XAE_abstract_init cfg self) ->
      classifier_abstract.__init__ py_float py_int XAE_abstract_init
        (<["train_info" := <["portion" := v]> ti]> cfg) self0 = (inr tt, self1') ->
      exists self1,
        classifier_abstract.__init__ py_float py_int XAE_abstract_init cfg self0
        = (inr tt, self1)
        /\ self1 !! "portion" = Some (AFloat 1.0)
        /\ forall name, name <> "portion" -> self1 !! name = self1' !! name)
  /\ (forall cfg ti v self0 self1',
         cfg !! "train_info" = Some ti -> ti !! "test_class" = None ->
         (forall self,
             CXAE_adv_abstract_init (<["train_info" := <["test_class" := v]> ti]> cfg) self
             = CXAE_adv_abstract_init cfg self) ->
         SSWAE_HSIC_dev2.__init__ py_float py_int CXAE_adv_abstract_init
           (<["train_info" := <["test_class" := v]> ti]> cfg) self0 = (inr tt, self1') ->
         exists self1,
           SSWAE_HSIC_dev2.__init__ py_float py_int CXAE_adv_abstract_init cfg self0
           = (inr tt, self1)
           /\ self1 !! "test_class" = Some (AIntList [])
           /\ forall name, name <> "test_class" -> self1 !! name = self1' !! name).
Proof.
  split.
  - intros cfg ti v self0 self1' Hti Hp Hbase H.
    exists (<["portion" := AFloat 1.0]> self1'). split; [|split].
    + apply (classifier_init_portion_absent _ _ _ cfg ti v); assumption.
    + apply lookup_insert_eq.
    + intros name Hne. apply lookup_insert_ne. congruence.
  - intros cfg ti v self0 self1' Hti Hp Hbase H.
    apply (dev2_init_test_class_absent _ _ _ cfg ti v); assumption.
Qed.

Lemma C5_missing_key_fallbacks_witness :
  (exists self1,
      classifier_abstract.__init__ toy_float toy_int toy_base_init toy_cfg ∅ = (inr tt, self1)
      /\ self1 !! "portion" = Some (AFloat 1.0))
  /\ (exists self1,
         SSWAE_HSIC_dev2.__init__ toy_float toy_int toy_base_init toy_cfg2 ∅ = (inr tt, self1)
         /\ self1 !! "test_class" = Some (AIntList [])).
Proof.
  split.
  - destruct (proj1 (C5_missing_key_fallbacks toy_float toy_int toy_base_init toy_base_init)
                toy_cfg toy_train_info "0.5" ∅
                (<["portion" := AFloat 1]>
                   (<["labeled_class" := AIntList [0%Z; 0%Z]]>
                      (<["loss" := AObj "CrossEntropyLoss"]> ∅))))
      as (self1 & H1 & H2 & _); [reflexivity | reflexivity | reflexivity | reflexivity |].
    exists self1. split; assumption.
  - destruct (proj2 (C5_missing_key_fallbacks toy_float toy_int toy_base_init toy_base_init)
                toy_cfg2 (<["portion" := "1"]> toy_train_info) "2, 3" ∅
                (<["batch_size" := AInt 0]>
                   (<["portion" := AFloat 1]>
                      (<["test_class" := AIntList [0%Z; 0%Z]]>
                         (<["labeled_class" := AIntList [0%Z; 0%Z]]>
                            (<["lamb_hsic" := AFloat 1]>
                               (<["lamb_mmd" := AFloat 1]>
                                  (<["f1" := AObj "Identity"]>
                                     (<["disc_loss" := AObj "BCEWithLogitsLoss"]>
                                        (<["loss" := AObj "MSELoss"]>
                                           (<["disc_loss" := AObj "BCEWithLogitsLoss"]>
                                              (<["loss" := AObj "MSELoss"]> ∅))))))))))))
      as (self1 & H1 & H2 & _); [reflexivity | reflexivity | reflexivity | reflexivity |].
    exists self1. split; assumption.
Defined.


(** ** [classifier_abstract.train]: the best-model bookkeeping *)

Lemma test_loss_penalty_not_global :
  bool_decide ("test_loss_penalty" ∈ module_globals) = false.
Proof. reflexivity. Qed.

Section Classifier_train.
Context {M O S Batch A : Type}.
Variable fw : framework M O S Batch.
Variable ia : inc_avg_ops A.
Variable hp : hparams.
Variable forward_loss : M -> Batch -> R.

Lemma classifier_epoch_raises epoch e :
  validate_batch hp = true -> save_best hp = true ->
  accs e !! "test_loss_penalty" = None ->
  wpx (classifier_abstract.train_epoch fw ia hp forward_loss epoch)
      (fun r e' =>
         r = inl (NameError "test_loss_penalty")
         /\ epochs_run (st e') = epochs_run (st e)
         /\ save_state_file (st e') = save_state_file (st e)
         /\ save_path_file (st e') = save_path_file (st e))
      e.
Proof.
  intros Hval Hbest Hnone. unfold classifier_abstract.train_epoch.
  apply wpx_bind_wp. wp_pure.
  apply wpx_bind_wp.
  apply (wp_for_each (untouched "train_loss_main" e)).
  { unfold untouched. cbn [accs st]. rewrite lookup_insert_eq, lookup_insert_ne by done.
    eauto 6. }
  { intros b e1 _ (Hb & Hn & HL & HF & HP).
    wp_pure. destruct (optimize fw _ _ _) as [m' o']. wp_pure.
    unfold untouched. cbn [accs st epochs_run save_state_file save_path_file].
    rewrite lookup_insert_eq, lookup_insert_ne by done. eauto 6. }
  intros e1 (Hb & Hn & HL & HF & HP).
  apply wpx_bind_wp. wp_pure. apply wpx_bind_wp. wp_pure.
  apply wpx_bind_wp. wp_pure. apply wpx_bind_wp. wp_pure.
  rewrite Hval. cbn [when]. apply wpx_bind.
  apply wpx_bind_wp.
  apply (wp_for_each (untouched "test_loss_main" e)).
  { unfold untouched. cbn [accs st epochs_run save_state_file save_path_file].
    rewrite lookup_insert_eq, lookup_insert_ne by done. eauto 6. }
  { intros b e2 _ (Hb2 & Hn2 & HL2 & HF2 & HP2).
    wp_pure.
    unfold untouched. cbn [accs st epochs_run save_state_file save_path_file].
    rewrite lookup_insert_eq, lookup_insert_ne by done. eauto 6. }
  intros e2 (Hb2 & Hn2 & HL2 & HF2 & HP2).
  apply wpx_bind_wp. wp_pure. apply wpx_bind_wp. wp_pure.
  apply wpx_bind_wp. wp_pure.
  rewrite Hbest.
  apply wpx_bind_wp. wp_pure.
  unfold wpx, acc_avg, load, bind, get. cbn [accs st fst snd].
  rewrite Hn2, test_loss_penalty_not_global. cbn.
  auto.
Qed.

(** C4 (as the code behaves). With [validate_batch] and [save_best]
    set, [classifier_abstract.train] does not get past the validation
    of its first epoch: the selection objective reads
    [test_loss_penalty], a name that [train] never binds, and the run
    ends with [NameError] before any model or checkpoint is saved. *)
Theorem C4_classifier_best_model_raises (e : env A (loop_state M O S)) :
  validate_batch hp = true -> save_best hp = true -> (0 < num_epoch hp)%Z ->
  let run := classifier_abstract.train fw ia hp forward_loss None false e in
  run.1 = inl (NameError "test_loss_penalty")
  /\ epochs_run (st run.2) = epochs_run (st e)
  /\ save_state_file (st run.2) = save_state_file (st e)
  /\ save_path_file (st run.2) = save_path_file (st e).
Proof.
  intros Hval Hbest Hn run.
  change (wpx (classifier_abstract.train fw ia hp forward_loss None false)
              (fun r e' =>
                 r = inl (NameError "test_loss_penalty")
                 /\ epochs_run (st e') = epochs_run (st e)
                 /\ save_state_file (st e') = save_state_file (st e)
                 /\ save_path_file (st e') = save_path_file (st e)) e).
  unfold classifier_abstract.train.
  apply wpx_bind_wp. wp_pure. apply wpx_bind_wp. wp_pure.
  apply wpx_bind_wp. wp_pure. apply wpx_bind_wp. wp_pure.
  apply wpx_bind_wp. wp_pure.
  apply wpx_bind. unfold epoch_loop, py_range.
  rewrite seqZ_cons by lia. cbn [for_each].
  apply wpx_bind.
  pose proof (classifier_epoch_raises 0
    (Env ∅ (LoopState (params (st e)) (best_obj (st e)) (hist (st e))
              (optim_Adam fw (params (st e)))
              (lr_scheduler fw (optim_Adam fw (params (st e))))
              [] [] [] [] (save_path_file (st e)) (save_state_file (st e))
              (epochs_run (st e)))) Hval Hbest (lookup_empty _)) as H.
  unfold wpx in H |- *.
  destruct (classifier_abstract.train_epoch fw ia hp forward_loss 0 _) as [r e'].
  cbn [fst snd] in H |- *. destruct H as (-> & H).
  cbn in H |- *. split; [reflexivity | exact H].
Qed.
End Classifier_train.

(** ** Invariants of the train loops, for every outcome *)

Lemma inv_bind {W A B} (I : W -> Prop) (c : prog W A) (f : A -> prog W B) w :
  wpx c (fun _ => I) w ->
  (forall a w', I w' -> wpx (f a) (fun _ => I) w') ->
  wpx (bind c f) (fun _ => I) w.
Proof.
  unfold wpx, bind. intros Hc Hf. destruct (c w) as [[e|a] w']; cbn in *; [exact Hc|].
  apply Hf, Hc.
Qed.

Lemma inv_bind_get_st {A W B} (I : env A W -> Prop) (f : W -> prog (env A W) B) e :
  wpx (f (st e)) (fun _ => I) e -> wpx (bind get_st f) (fun _ => I) e.
Proof. intros H. exact H. Qed.

Lemma inv_bind_get {W B} (I : W -> Prop) (f : W -> prog W B) w :
  wpx (f w) (fun _ => I) w -> wpx (bind get f) (fun _ => I) w.
Proof. intros H. exact H. Qed.

Lemma inv_bind_ret {W A B} (I : W -> Prop) (a : A) (f : A -> prog W B) w :
  wpx (f a) (fun _ => I) w -> wpx (bind (ret a) f) (fun _ => I) w.
Proof. intros H. exact H. Qed.

Lemma inv_pure {W A} (I : W -> Prop) (c : prog W A) w :
  (c w).2 = w -> I w -> wpx c (fun _ => I) w.
Proof. unfold wpx. intros ->. auto. Qed.

Lemma load_state {A W} name (e : env A W) : (load name e).2 = e.
Proof.
  unfold load, bind, get. cbn. destruct (accs e !! name); [reflexivity|].
  destruct (bool_decide _); reflexivity.
Qed.

Lemma inv_load {A W} (I : env A W -> Prop) name e : I e -> wpx (load name) (fun _ => I) e.
Proof. apply inv_pure, load_state. Qed.

Lemma inv_acc_avg {A W} (I : env A W -> Prop) ia name e :
  I e -> wpx (acc_avg ia name) (fun _ => I) e.
Proof.
  intros H. unfold acc_avg. apply inv_bind; [apply inv_load, H|].
  intros a w' Hw. exact Hw.
Qed.

(** An invariant that reads the state only through [st]. *)
Lemma inv_acc_append {A W} (J : W -> Prop) ia name v n (e : env A W) :
  J (st e) -> wpx (acc_append ia name v n) (fun _ e' => J (st e')) e.
Proof.
  intros H. unfold acc_append, wpx, bind. rewrite (surjective_pairing (load name e)).
  rewrite load_state. destruct (load name e).1; exact H.
Qed.

Lemma inv_assign {A W} (J : W -> Prop) name (a : A) (e : env A W) :
  J (st e) -> wpx (assign name a) (fun _ e' => J (st e')) e.
Proof. intros H. exact H. Qed.

Lemma inv_new_frame {A W} (J : W -> Prop) (e : env A W) :
  J (st e) -> wpx new_frame (fun _ e' => J (st e')) e.
Proof. intros H. exact H. Qed.

Lemma inv_modify_accs {A W} (J : W -> Prop) (m : gmap string A) (e : env A W) :
  J (st e) -> wpx (modify (fun e => Env m (st e))) (fun _ e' => J (st e')) e.
Proof. intros H. exact H. Qed.

Lemma inv_update_st {A W} (J : W -> Prop) (f : W -> W) (e : env A W) :
  J (f (st e)) -> wpx (update_st f) (fun _ e' => J (st e')) e.
Proof. intros H. exact H. Qed.

Lemma inv_ret {W A} (I : W -> Prop) (a : A) w : I w -> wpx (ret a) (fun _ => I) w.
Proof. intros H. exact H. Qed.

Lemma inv_raise {W A} (I : W -> Prop) (x : exn) w :
  I w -> wpx (raise x : prog W A) (fun _ => I) w.
Proof. intros H. exact H. Qed.

Lemma inv_for_each {W X} (I : W -> Prop) (l : list X) (body : X -> prog W unit) w :
  I w ->
  (forall x w, I w -> wpx (body x) (fun _ => I) w) ->
  wpx (for_each l body) (fun _ => I) w.
Proof.
  intros HI Hbody. revert w HI.
  induction l as [|x l IH]; intros w HI; cbn [for_each]; [exact HI|].
  apply inv_bind; [apply Hbody, HI|]. intros [] w' HI'. apply IH, HI'.
Qed.

Lemma inv_epoch_loop {W} (I : W -> Prop) kill (l : list Z) (body : Z -> prog W unit) w :
  I w ->
  (forall x w, I w -> wpx (body x) (fun _ => I) w) ->
  wpx (epoch_loop kill l body) (fun _ => I) w.
Proof.
  intros HI Hbody. unfold epoch_loop. destruct kill as [k|].
  - destruct (k <? length l)%nat.
    + apply inv_bind; [apply inv_for_each; assumption|]. intros [] w' HI'. exact HI'.
    + apply inv_for_each; assumption.
  - apply inv_for_each; assumption.
Qed.

Lemma inv_ckpt_int {M O S W} (I : W -> Prop) (c : gmap string (ckpt_value M O S)) key w :
  I w -> wpx (ckpt_int c key) (fun _ => I) w.
Proof. intros H. unfold wpx, ckpt_int. destruct (c !! key) as [[]|]; exact H. Qed.
Lemma inv_ckpt_model {M O S W} (I : W -> Prop) (c : gmap string (ckpt_value M O S)) key w :
  I w -> wpx (ckpt_model c key) (fun _ => I) w.
Proof. intros H. unfold wpx, ckpt_model. destruct (c !! key) as [[]|]; exact H. Qed.
Lemma inv_ckpt_optim {M O S W} (I : W -> Prop) (c : gmap string (ckpt_value M O S)) key w :
  I w -> wpx (ckpt_optim c key) (fun _ => I) w.
Proof. intros H. unfold wpx, ckpt_optim. destruct (c !! key) as [[]|]; exact H. Qed.
Lemma inv_ckpt_sched {M O S W} (I : W -> Prop) (c : gmap string (ckpt_value M O S)) key w :
  I w -> wpx (ckpt_sched c key) (fun _ => I) w.
Proof. intros H. unfold wpx, ckpt_sched. destruct (c !! key) as [[]|]; exact H. Qed.

Lemma inv_next_iter {W X} (I : W -> Prop) (gen : list X) w :
  I w -> wpx (next_iter gen) (fun _ => I) w.
Proof. intros H. destruct gen; exact H. Qed.

Lemma inv_mmd_item {W} (I : W -> Prop) (valid_y : list bool) (mmd : R) w :
  I w -> wpx (SSWAE_HSIC_dev.mmd_item valid_y mmd) (fun _ => I) w.
Proof. intros H. unfold wpx, SSWAE_HSIC_dev.mmd_item. destruct (existsb _ _); exact H. Qed.

(** One step towards [wpx c (fun _ e' => J (st e')) e]: the statement
    [c] keeps the invariant [J] of the state, however it ends. *)
Ltac inv_step :=
  lazymatch goal with
  | |- wpx (bind get_st _) _ _ => apply inv_bind_get_st; cbv beta
  | |- wpx (bind get _) _ _ => apply inv_bind_get; cbv beta
  | |- wpx (bind (ret _) _) _ _ => apply inv_bind_ret; cbv beta
  | |- wpx (bind _ _) _ _ => apply inv_bind; [ | intros ? ? ? ]
  | |- wpx (ret _) _ _ => apply inv_ret
  | |- wpx (raise _) _ _ => apply inv_raise
  | |- wpx new_frame _ _ => apply inv_new_frame
  | |- wpx (modify _) _ _ => apply inv_modify_accs
  | |- wpx (assign _ _) _ _ => apply inv_assign
  | |- wpx (update_st _) _ _ => apply inv_update_st
  | |- wpx (load _) _ _ => apply inv_load
  | |- wpx (acc_avg _ _) _ _ => apply inv_acc_avg
  | |- wpx (acc_append _ _ _ _) _ _ => apply inv_acc_append
  | |- wpx (ckpt_int _ _) _ _ => apply inv_ckpt_int
  | |- wpx (ckpt_model _ _) _ _ => apply inv_ckpt_model
  | |- wpx (ckpt_optim _ _) _ _ => apply inv_ckpt_optim
  | |- wpx (ckpt_sched _ _) _ _ => apply inv_ckpt_sched
  | |- wpx (next_iter _) _ _ => apply inv_next_iter
  | |- wpx (SSWAE_HSIC_dev.mmd_item _ _) _ _ => apply inv_mmd_item
  | |- wpx (when ?b _) _ _ => destruct b; cbn [when]
  | |- wpx (for_each _ _) _ _ => apply inv_for_each; [ | intros ? ? ? ]
  | |- wpx (epoch_loop _ _ _) _ _ => apply inv_epoch_loop; [ | intros ? ? ? ]
  | |- wpx (call _) _ _ => unfold call
  | |- wpx (if ?b then _ else _) _ _ => destruct b
  | |- wpx (let '(_, _) := ?x in _) _ _ => destruct x
  | |- wpx (match ?x with Some _ => _ | None => _ end) _ _ => destruct x
  end.

Ltac inv_go := repeat inv_step.

(** ** [SSWAE_HSIC_dev.train]: the alternation of the two optimizers *)



Lemma Rgtb_inv a b : Rgtb a b = true -> a > b.
Proof. unfold Rgtb. destruct (Rgt_dec a b); [auto | discriminate]. Qed.






Section Alternation.
Context {PM PD GM GD O S Img A : Type}.
Variable fw : adv_framework PM PD GM GD O S Img.
Variable ia : inc_avg_ops A.
Variable hp : hparams.
























End Alternation.




(** ** The checkpoint dictionaries *)

Lemma classifier_save_dict_dom {M O S} hp epoch (w : loop_state M O S) :
  dom (classifier_abstract.save_dict hp epoch w) = single_keys hp.
Proof.
  unfold classifier_abstract.save_dict, single_keys.
  destruct (nonempty (lr_schedule hp)); rewrite ?dom_insert_L, dom_singleton_L; set_solver.
Qed.

Lemma vae_save_dict_dom {M O S} hp epoch (w : loop_state M O S) :
  dom (VAE_abstract.save_dict hp epoch w) = single_keys hp.
Proof.
  unfold VAE_abstract.save_dict, single_keys.
  destruct (nonempty (lr_schedule hp)); rewrite ?dom_insert_L, dom_singleton_L; set_solver.
Qed.

Lemma adv_save_dict_dom {PM PD GM GD O S} hp epoch (w : adv_state PM PD GM GD O S) :
  dom (SSWAE_HSIC_dev.save_dict hp epoch w) = adv_keys hp.
Proof.
  unfold SSWAE_HSIC_dev.save_dict, adv_keys.
  destruct (nonempty (lr_schedule hp)); rewrite ?dom_insert_L, dom_singleton_L; set_solver.
Qed.

Ltac file_ok_solve lem :=
  cbv beta in *;
  first
    [ assumption
    | cbn [save_state_file adv_save_state_file]; assumption
    | right; eexists; split; [reflexivity | apply lem] ].

Section C6.
Context {M O S Batch A : Type}.
Variable fw : framework M O S Batch.
Variable ia : inc_avg_ops A.
Variable hp : hparams.

Lemma classifier_train_file forward_loss kill resume (e : env A (loop_state M O S)) :
  file_ok (single_keys hp) (save_state_file (st e))
    (save_state_file (st (classifier_abstract.train fw ia hp forward_loss kill resume e).2)).
Proof.
  set (J := fun w : loop_state M O S =>
              file_ok (single_keys hp) (save_state_file (st e)) (save_state_file w)).
  change (wpx (classifier_abstract.train fw ia hp forward_loss kill resume)
              (fun _ e' => J (st e')) e).
  assert (HJ0 : J (st e)) by (left; reflexivity).
  unfold classifier_abstract.train, classifier_abstract.train_epoch,
    set_lists, set_params_optimizer, set_scheduler_optimizer, set_best_obj, set_hist,
    save, torch_save, torch_load, epoch_done.
  inv_go.
  all: unfold J in *; file_ok_solve (@classifier_save_dict_dom M O S).
Qed.

Lemma vae_train_file recon_loss mu_and_logvar kill resume (e : env A (loop_state M O S)) :
  file_ok (single_keys hp) (save_state_file (st e))
    (save_state_file
       (st (VAE_abstract.train fw ia hp recon_loss mu_and_logvar kill resume e).2)).
Proof.
  set (J := fun w : loop_state M O S =>
              file_ok (single_keys hp) (save_state_file (st e)) (save_state_file w)).
  change (wpx (VAE_abstract.train fw ia hp recon_loss mu_and_logvar kill resume)
              (fun _ e' => J (st e')) e).
  assert (HJ0 : J (st e)) by (left; reflexivity).
  unfold VAE_abstract.train, VAE_abstract.train_epoch, VAE_abstract.pretrain_encoder,
    set_lists, set_params_optimizer, set_scheduler_optimizer, set_best_obj, set_hist,
    save, torch_save, torch_load, epoch_done.
  inv_go.
  all: unfold J in *; file_ok_solve (@vae_save_dict_dom M O S).
Qed.
End C6.

Section C6adv.
Context {PM PD GM GD O S Img A : Type}.
Variable fw : adv_framework PM PD GM GD O S Img.
Variable ia : inc_avg_ops A.
Variable hp : hparams.

Lemma adv_train_file kill resume (e : env A (adv_state PM PD GM GD O S)) :
  file_ok (adv_keys hp) (adv_save_state_file (st e))
    (adv_save_state_file (st (SSWAE_HSIC_dev.train fw ia hp kill resume e).2)).
Proof.
  set (J := fun w : adv_state PM PD GM GD O S =>
              file_ok (adv_keys hp) (adv_save_state_file (st e)) (adv_save_state_file w)).
  change (wpx (SSWAE_HSIC_dev.train fw ia hp kill resume) (fun _ e' => J (st e')) e).
  assert (HJ0 : J (st e)) by (left; reflexivity).
  unfold SSWAE_HSIC_dev.train, SSWAE_HSIC_dev.train_epoch, SSWAE_HSIC_dev.pretrain_encoder,
    SSWAE_HSIC_dev.train_batch, SSWAE_HSIC_dev.set_learn, SSWAE_HSIC_dev.set_schedulers,
    SSWAE_HSIC_dev.set_adv_best_obj, SSWAE_HSIC_dev.set_adv_hist,
    SSWAE_HSIC_dev.list_append, SSWAE_HSIC_dev.set_list, SSWAE_HSIC_dev.adv_save,
    SSWAE_HSIC_dev.adv_torch_save, SSWAE_HSIC_dev.adv_torch_load,
    SSWAE_HSIC_dev.adv_epoch_done.
  inv_go.
  all: unfold J in *; file_ok_solve (@adv_save_dict_dom PM PD GM GD O S).
Qed.
End C6adv.

(** C6. A checkpoint written by [classifier_abstract.train] or
    [VAE_abstract.train] has exactly the keys ["epoch"],
    ["model_state_dict"], ["optimizer_state_dict"], and ["scheduler"] if
    and only if [lr_schedule] is not empty; one written by
    [SSWAE_HSIC_dev.train] has ["epoch"], ["model_state_dict"],
    ["optimizer_main_state_dict"], ["optimizer_adv_state_dict"], and
    ["scheduler_main"] and ["scheduler_adv"] if and only if [lr_schedule]
    is not empty.  After a run of [train], however it ends, the file at
    [save_state] is as it was or holds such a dictionary. *)
Theorem C6_checkpoint_format (hp : hparams) :
  (forall M O S epoch (w : loop_state M O S),
      dom (classifier_abstract.save_dict hp epoch w) = single_keys hp
      /\ dom (VAE_abstract.save_dict hp epoch w) = single_keys hp)
  /\ (forall PM PD GM GD O S epoch (w : adv_state PM PD GM GD O S),
         dom (SSWAE_HSIC_dev.save_dict hp epoch w) = adv_keys hp)
  /\ ("scheduler" ∈ single_keys hp <-> lr_schedule hp <> "")
  /\ ("scheduler_main" ∈ adv_keys hp <-> lr_schedule hp <> "")
  /\ ("scheduler_adv" ∈ adv_keys hp <-> lr_schedule hp <> "")
  /\ (forall M O S Batch A (fw : framework M O S Batch) (ia : inc_avg_ops A)
             forward_loss kill resume (e : env A (loop_state M O S)),
         file_ok (single_keys hp) (save_state_file (st e))
           (save_state_file
              (st (classifier_abstract.train fw ia hp forward_loss kill resume e).2)))
  /\ (forall M O S Batch A (fw : framework M O S Batch) (ia : inc_avg_ops A)
             recon_loss mu_and_logvar kill resume (e : env A (loop_state M O S)),
         file_ok (single_keys hp) (save_state_file (st e))
           (save_state_file
              (st (VAE_abstract.train fw ia hp recon_loss mu_and_logvar kill resume e).2)))
  /\ (forall PM PD GM GD O S Img A (fw : adv_framework PM PD GM GD O S Img)
             (ia : inc_avg_ops A) kill resume (e : env A (adv_state PM PD GM GD O S)),
         file_ok (adv_keys hp) (adv_save_state_file (st e))
           (adv_save_state_file (st (SSWAE_HSIC_dev.train fw ia hp kill resume e).2))).
Proof.
  assert (Hne : forall s : string, nonempty s = true <-> s <> EmptyString).
  { intros [|c s']; cbn; split; congruence. }
  repeat split.
  - apply classifier_save_dict_dom.
  - apply vae_save_dict_dom.
  - intros. apply adv_save_dict_dom.
  - unfold single_keys. intros H. apply Hne. destruct (nonempty (lr_schedule hp)); set_solver.
  - unfold single_keys. intros H. apply Hne in H. rewrite H. set_solver.
  - unfold adv_keys. intros H. apply Hne. destruct (nonempty (lr_schedule hp)); set_solver.
  - unfold adv_keys. intros H. apply Hne in H. rewrite H. set_solver.
  - unfold adv_keys. intros H. apply Hne. destruct (nonempty (lr_schedule hp)); set_solver.
  - unfold adv_keys. intros H. apply Hne in H. rewrite H. set_solver.
  - intros. apply classifier_train_file.
  - intros. apply vae_train_file.
  - intros. apply adv_train_file.
Qed.

Lemma C4_classifier_best_model_raises_witness :
  (classifier_abstract.train toy_framework toy_inc_avg (toy_hparams 1) toy_recon_loss
     None false toy_state).1
  = inl (NameError "test_loss_penalty").
Proof.
  apply (C4_classifier_best_model_raises toy_framework toy_inc_avg (toy_hparams 1)
           toy_recon_loss toy_state eq_refl eq_refl).
  reflexivity.
Defined.

(** * Further properties of the code

    Properties of the losses, of the datasets of [XAE/dataset.py], of
    the constructors and of the train loops, beyond those above. *)

(** ** The MMD statistic: bounds, diagonal, symmetry *)

Lemma vsum_map_bounds {A} (f : A -> R) (lo hi : R) (l : list A) :
  (forall a, In a l -> lo <= f a <= hi) ->
  lo * INR (length l) <= Tensor.vsum (map f l) <= hi * INR (length l).
Proof.
  induction l as [|a l IH]; intros H.
  - cbn [map length INR]. rewrite vsum_nil. lra.
  - cbn [map]. rewrite vsum_cons. rewrite length_cons, S_INR.
    destruct (H a (or_introl eq_refl)) as [H1 H2].
    destruct IH as [I1 I2]; [intros b Hb; apply H; right; exact Hb|]. lra.
Qed.

Lemma sq_norm_diff_nonneg a b : 0 <= MMD_spec.sq_norm_diff a b.
Proof.
  unfold MMD_spec.sq_norm_diff. revert b.
  induction a as [|u a IH]; intros [|v b]; cbn [zip_with]; rewrite ?vsum_nil, ?vsum_cons;
    try lra.
  specialize (IH b). pose proof (pow2_ge_0 (u - v)). lra.
Qed.

Lemma sqd_nonneg a b : 0 <= sqd a b.
Proof. rewrite sqd_sq_norm_diff. apply sq_norm_diff_nonneg. Qed.

Lemma sqd_diag a : sqd a a = 0.
Proof.
  unfold sqd. induction a as [|u a IH]; cbn [zip_with map]; rewrite ?vsum_nil, ?vsum_cons;
    [reflexivity|]. rewrite IH. unfold Rminus. rewrite Rplus_opp_r. lra.
Qed.

Lemma imq_bounds C d : 0 < C -> 0 <= d -> 0 < C / (C + d) <= 1.
Proof.
  intros HC Hd. split.
  - apply Rdiv_lt_0_compat; lra.
  - apply (Rmult_le_reg_r (C + d)); [lra|].
    unfold Rdiv. rewrite Rmult_assoc, Rinv_l by lra. lra.
Qed.

Lemma scale_C_pos scale z_dim :
  In scale scales -> (0 < z_dim)%nat -> 0 < scale * 2 * INR z_dim * 2.
Proof.
  intros Hs Hz. apply lt_0_INR in Hz.
  assert (0 < scale).
  { unfold scales in Hs. cbn in Hs.
    repeat (destruct Hs as [<-|Hs]; [lra|]). destruct Hs. }
  apply Rmult_lt_0_compat; [|lra].
  apply Rmult_lt_0_compat; [|exact Hz]. lra.
Qed.

Lemma kterm_bounds C x y diag :
  0 < C ->
  0 <= kterm C x y diag <= INR (length x) * INR (length y).
Proof.
  intros HC. rewrite kterm_spec.
  assert (Hin : forall j,
    0 * INR (length (seq 0 (length x)))
    <= Tensor.vsum (map (fun i => if diag || negb (i =? j)%nat
                                  then MMD_spec.imq C (nth i x []) (nth j y []) else 0)
                        (seq 0 (length x)))
    <= 1 * INR (length (seq 0 (length x)))).
  { intros j. apply vsum_map_bounds. intros i _.
    destruct (diag || negb (i =? j)%nat); [|lra].
    unfold MMD_spec.imq.
    pose proof (imq_bounds C _ HC (sq_norm_diff_nonneg (nth i x []) (nth j y []))). lra. }
  pose proof (vsum_map_bounds
    (fun j => Tensor.vsum (map (fun i => if diag || negb (i =? j)%nat
                                  then MMD_spec.imq C (nth i x []) (nth j y []) else 0)
                        (seq 0 (length x))))
    0 (INR (length x)) (seq 0 (length y))) as H.
  rewrite !length_seq in H.
  destruct H as [H1 H2].
  { intros j _. specialize (Hin j). rewrite length_seq in Hin. lra. }
  lra.
Qed.

Lemma k_bounds z_dim x y diag :
  (0 < z_dim)%nat ->
  0 <= WAE_MMD_abstract.k z_dim x y diag <= 7 * INR (length x) * INR (length y).
Proof.
  intros Hz. rewrite k_unfold.
  pose proof (vsum_map_bounds
    (fun scale => kterm (scale * 2 * INR z_dim * 2) x y diag)
    0 (INR (length x) * INR (length y)) scales) as H.
  destruct H as [H1 H2].
  { intros s Hs. apply kterm_bounds, scale_C_pos; assumption. }
  change (INR (length scales)) with (INR 7) in H1, H2.
  replace (INR 7) with 7 in H1, H2 by (cbn; lra). lra.
Qed.

Lemma vsum_map_one {A} (l : list A) : Tensor.vsum (map (fun _ => 1) l) = INR (length l).
Proof.
  induction l as [|a l IH]; cbn [map]; rewrite ?vsum_nil, ?vsum_cons; [reflexivity|].
  rewrite IH, length_cons, S_INR. lra.
Qed.

Lemma zip_with_diag {A B} (f : A -> A -> B) (l : list A) :
  zip_with f l l = map (fun a => f a a) l.
Proof. induction l as [|a l IH]; cbn [zip_with map]; [reflexivity|]. rewrite IH. reflexivity. Qed.

Lemma kterm_diag C x :
  C <> 0 -> kterm C x x true = kterm C x x false + INR (length x).
Proof.
  intros HC. unfold kterm. cbv zeta.
  rewrite zip_with_diag.
  rewrite (vsum_map_ext _ (fun _ => 1)); [rewrite vsum_map_one; lra|].
  intros a _. rewrite sqd_diag, Rplus_0_r. unfold Rdiv. apply Rinv_r, HC.
Qed.

Lemma k_diag z_dim x :
  (0 < z_dim)%nat ->
  WAE_MMD_abstract.k z_dim x x true
  = WAE_MMD_abstract.k z_dim x x false + 7 * INR (length x).
Proof.
  intros Hz. rewrite !k_unfold.
  rewrite (vsum_map_ext (fun scale => kterm (scale * 2 * INR z_dim * 2) x x true)
             (fun scale => kterm (scale * 2 * INR z_dim * 2) x x false + INR (length x))).
  - rewrite vsum_map_plus.
    rewrite (vsum_map_ext (fun _ : R => INR (length x)) (fun _ => 1 * INR (length x)))
      by (intros; lra).
    assert (Hc : Tensor.vsum (map (fun _ : R => 1 * INR (length x)) scales)
                 = 7 * INR (length x)).
    { unfold scales. cbn [map]. rewrite !vsum_cons, vsum_nil. lra. }
    rewrite Hc. reflexivity.
  - intros s Hs. apply kterm_diag. pose proof (scale_C_pos s z_dim Hs Hz). lra.
Qed.

(** X1. For [z_dim > 0] every entry of each of the seven kernels lies in
    [(0, 1]], so [0 <= k(x, y, diag) <= 7 * len(x) * len(y)]. *)
Theorem X1_mmd_kernel_bounds z_dim x y diag :
  (0 < z_dim)%nat ->
  0 <= WAE_MMD_abstract.k z_dim x y diag <= 7 * INR (length x) * INR (length y).
Proof. apply k_bounds. Qed.

Lemma X1_mmd_kernel_bounds_witness :
  0 <= WAE_MMD_abstract.k 1 [[0]; [1]] [[2]] true
  <= 7 * INR (length [[0]; [1]]) * INR (length [[2]]).
Proof. apply (X1_mmd_kernel_bounds 1 [[0]; [1]] [[2]] true). lia. Defined.

(** X2. For [z_dim > 0] the diagonal of each kernel of a batch with itself
    is all ones: [k(x, x, True) = k(x, x, False) + 7 * len(x)]. *)
Theorem X2_mmd_kernel_diagonal z_dim x :
  (0 < z_dim)%nat ->
  WAE_MMD_abstract.k z_dim x x true
  = WAE_MMD_abstract.k z_dim x x false + 7 * INR (length x).
Proof. apply k_diag. Qed.

Lemma X2_mmd_kernel_diagonal_witness :
  WAE_MMD_abstract.k 1 [[0]; [1]] [[0]; [1]] true
  = WAE_MMD_abstract.k 1 [[0]; [1]] [[0]; [1]] false + 7 * INR (length [[0]; [1]]).
Proof. apply (X2_mmd_kernel_diagonal 1 [[0]; [1]]). lia. Defined.

(** X3. The MMD penalty does not depend on the order of its two samples:
    [penalty_loss(x, y, n) = penalty_loss(y, x, n)]. *)
Theorem X3_mmd_penalty_symmetric z_dim x y n :
  WAE_MMD_abstract.penalty_loss z_dim x y n = WAE_MMD_abstract.penalty_loss z_dim y x n.
Proof.
  unfold WAE_MMD_abstract.penalty_loss. rewrite (k_sym z_dim x y true). lra.
Qed.

(** X4. The MMD penalty of a batch of [n >= 2] rows against itself lies
    between [-14 / n] and [0]: the estimate is not non-negative. *)
Theorem X4_mmd_penalty_self z_dim x n :
  (0 < z_dim)%nat -> (2 <= n)%nat -> length x = n ->
  - 14 / INR n <= WAE_MMD_abstract.penalty_loss z_dim x x n <= 0.
Proof.
  intros Hz Hn Hlen. unfold WAE_MMD_abstract.penalty_loss.
  rewrite k_diag by exact Hz.
  pose proof (k_bounds z_dim x x true Hz) as [_ HT].
  pose proof (k_bounds z_dim x x false Hz) as [HF0 _].
  rewrite k_diag in HT by exact Hz.
  rewrite Hlen in *.
  set (kF := WAE_MMD_abstract.k z_dim x x false) in *.
  rewrite !mult_INR, minus_INR by lia. cbn [INR].
  assert (Hn2 : 2 <= INR n) by (apply (le_INR 2) in Hn; cbn in Hn; lra).
  set (r := INR n) in *.
  assert (Heq : (kF + kF) / (r * (r - 1)) - 2 * (kF + 7 * r) / (r * r)
                = 2 * kF / (r * r * (r - 1)) - 14 / r).
  { field. lra. }
  rewrite Heq.
  assert (Hpos : 0 < r * r * (r - 1)) by (apply Rmult_lt_0_compat; nra).
  assert (HkF : kF <= 7 * r * (r - 1)) by nra.
  split.
  - assert (0 <= 2 * kF / (r * r * (r - 1))).
    { apply Rmult_le_pos; [lra|]. apply Rlt_le, Rinv_0_lt_compat, Hpos. }
    unfold Rdiv in *. lra.
  - assert (2 * kF / (r * r * (r - 1)) <= 14 / r).
    { apply (Rmult_le_reg_r (r * r * (r - 1))); [exact Hpos|].
      unfold Rdiv. rewrite Rmult_assoc, Rinv_l by lra.
      replace (14 * / r * (r * r * (r - 1))) with (14 * (r * (r - 1))) by (field; lra).
      nra. }
    lra.
Qed.

Lemma X4_mmd_penalty_self_witness :
  - 14 / INR 2 <= WAE_MMD_abstract.penalty_loss 1 [[0]; [1]] [[0]; [1]] 2 <= 0.
Proof.
  apply (X4_mmd_penalty_self 1 [[0]; [1]] 2); [lia | lia | reflexivity].
Defined.


(** ** The kernel matrix [knl] and [hsic] on a constant batch *)
Lemma exp_neg_le_1 t : 0 <= t -> 0 < exp (- t) <= 1.
Proof.
  intros Ht. split; [apply exp_pos|].
  pose proof (exp_ineq1_le t) as H1. pose proof (exp_pos (- t)) as H2.
  assert (H3 : exp (- t) * exp t = 1) by (rewrite <- exp_plus, Rplus_opp_l; apply exp_0).
  nra.
Qed.

(** X5. For [gam >= 0], [knl(x, y, gam)] has one row per row of [x], each
    with one entry per row of [y], and every entry lies in [(0, 1]]. *)
Theorem X5_knl_shape_range x y gam :
  0 <= gam ->
  length (SSWAE_HSIC_dev.knl x y gam) = length x
  /\ Forall (fun row => length row = length y /\ Forall (fun v => 0 < v <= 1) row)
       (SSWAE_HSIC_dev.knl x y gam).
Proof.
  intros Hg. rewrite knl_table. split; [apply length_map|].
  apply Forall_map, Forall_forall. intros xi _. split; [apply length_map|].
  apply Forall_map, Forall_forall. intros yj _.
  replace (- gam * sqd xi yj) with (- (gam * sqd xi yj)) by lra.
  apply exp_neg_le_1, Rmult_le_pos; [exact Hg | apply sqd_nonneg].
Qed.

Lemma X5_knl_shape_range_witness :
  length (SSWAE_HSIC_dev.knl [[0]; [1]] [[2]] 1) = length [[0]; [1]]
  /\ Forall (fun row => length row = length [[2]] /\ Forall (fun v => 0 < v <= 1) row)
       (SSWAE_HSIC_dev.knl [[0]; [1]] [[2]] 1).
Proof. apply (X5_knl_shape_range [[0]; [1]] [[2]] 1). lra. Defined.

Lemma vsum_replicate n c : Tensor.vsum (replicate n c) = INR n * c.
Proof.
  induction n as [|n IH]; [cbn [replicate INR]; rewrite vsum_nil; lra|].
  cbn [replicate]. rewrite vsum_cons, IH, S_INR. lra.
Qed.

(** ** [penalty_loss_mask] on batches that are all or not at all labelled *)


Lemma select_none (q : list (list R)) mask :
  Forall (fun b => b = false) mask -> Tensor.select mask q = [].
Proof.
  unfold Tensor.select. revert q.
  induction mask as [|b mask IH]; intros [|r q] HF; cbn in *; try reflexivity.
  inversion HF; subst. cbn. apply IH. assumption.
Qed.



Lemma existsb_none mask :
  Forall (fun b => b = false) mask -> existsb (fun b : bool => b) mask = false.
Proof. induction 1 as [|b mask Hb _ IH]; cbn; [reflexivity|]. subst. exact IH. Qed.



(** X8. When no row of the batch is marked valid, the masked penalty
    returns [mmd = 0.0]; [gan] and [hsic] are those of the unmasked
    penalty, which do not read the labels. *)
Theorem X8_penalty_mask_none_valid y_dim D L gamma q y valid prior_y n :
  Forall (fun b => b = false) valid ->
  SSWAE_HSIC_dev.penalty_loss_mask y_dim D L gamma q y valid
  = let '(gan, _, hsic) := SSWAE_HSIC_dev.penalty_loss y_dim D L gamma q prior_y n in
    (gan, 0.0, hsic).
Proof.
  intros HF.
  unfold SSWAE_HSIC_dev.penalty_loss_mask, SSWAE_HSIC_dev.penalty_loss. cbv zeta.
  rewrite existsb_none by assumption. reflexivity.
Qed.

Lemma X8_penalty_mask_none_valid_witness :
  SSWAE_HSIC_dev.penalty_loss_mask 1 (fun z => z) (fun _ _ => 1) (fun _ => 1)
    [[1; 2]] [[0]] [false]
  = let '(gan, _, hsic) :=
      SSWAE_HSIC_dev.penalty_loss 1 (fun z => z) (fun _ _ => 1) (fun _ => 1)
        [[1; 2]] [[0]] 1 in
    (gan, 0.0, hsic).
Proof.
  apply (X8_penalty_mask_none_valid 1 (fun z => z) (fun _ _ => 1) (fun _ => 1)
           [[1; 2]] [[0]] [false] [[0]] 1).
  repeat constructor.
Defined.


(** ** [dataset.py]: what [MNIST] and [rmMNIST] serve *)

Section Dataset_props.
Import Dataset.


(** X9. Pixels in [[0, 255]] are scaled into [[-1, 1]] by
    [MNIST.__getitem__]; the [(x + 1.0) * 0.5] of [VAE_abstract.train]
    maps them back to [pixel / 255], in [[0, 1]]. *)
Theorem X9_mnist_pixel_range (r : row) :
  Forall (fun v => 0 <= v <= 255) (cols r) ->
  Forall (fun p => -1 <= p <= 1 /\ 0 <= to_unit_interval p <= 1) (MNIST.pixels r)
  /\ map to_unit_interval (MNIST.pixels r) = map (fun v => v / 255) (take 784 (cols r)).
Proof.
  intros H. unfold MNIST.pixels. split.
  - apply Forall_map. apply (Forall_take _ 784%nat) in H.
    eapply Forall_impl; [exact H|]. cbv beta. intros v Hv. unfold to_unit_interval. lra.
  - rewrite map_map. apply map_ext. intros v. unfold to_unit_interval. lra.
Qed.

Lemma X9_mnist_pixel_range_witness :
  Forall (fun p => -1 <= p <= 1 /\ 0 <= to_unit_interval p <= 1)
    (MNIST.pixels (Row 3 [0; 128; 255]))
  /\ map to_unit_interval (MNIST.pixels (Row 3 [0; 128; 255]))
     = map (fun v => v / 255) (take 784 [0; 128; 255]).
Proof.
  apply (X9_mnist_pixel_range (Row 3 [0; 128; 255])).
  cbn [cols]. repeat constructor; lra.
Defined.

Lemma Int_part_nonneg r : 0 <= r -> (0 <= Int_part r)%Z.
Proof.
  intros Hr. destruct (base_Int_part r) as [_ H].
  assert (H1 : (-1 < Int_part r)%Z) by (apply lt_IZR; lra). lia.
Qed.

Lemma int_of_float_nonneg r : 0 <= r -> (0 <= int_of_float r)%Z.
Proof.
  intros Hr. unfold int_of_float. destruct (Rle_dec 0 r); [|contradiction].
  apply Int_part_nonneg, Hr.
Qed.

Lemma Rgeb_true a b : a >= b -> Rgeb a b = true.
Proof. intros H. unfold Rgeb. destruct (Rge_dec a b); [reflexivity|contradiction]. Qed.
Lemma Rgeb_false a b : a < b -> Rgeb a b = false.
Proof. intros H. unfold Rgeb. destruct (Rge_dec a b); [lra|reflexivity]. Qed.

Lemma eye_lookup n d :
  (d < n)%nat -> eye n !! d = Some (map (fun j => if (d =? j)%nat then 1 else 0) (seq 0 n)).
Proof.
  intros H. unfold eye.
  change (map ?f (seq 0 n) !! d) with ((f <$> seq 0 n) !! d).
  rewrite list_lookup_fmap, lookup_seq_lt by exact H. reflexivity.
Qed.

Lemma vsum_one_hot_from d n s :
  Tensor.vsum (map (fun j => if (d =? j)%nat then 1 else 0) (seq s n))
  = if bool_decide (s <= d < s + n)%nat then 1 else 0.
Proof.
  revert s. induction n as [|n IH]; intros s; cbn [seq map].
  - rewrite vsum_nil. rewrite bool_decide_eq_false_2 by lia. reflexivity.
  - rewrite vsum_cons, IH. destruct (Nat.eqb_spec d s) as [->|Hne].
    + rewrite bool_decide_eq_false_2 by lia. rewrite bool_decide_eq_true_2 by lia. lra.
    + destruct (bool_decide (S s <= d < S s + n)%nat) eqn:E.
      * apply bool_decide_eq_true_1 in E. rewrite bool_decide_eq_true_2 by lia. lra.
      * apply bool_decide_eq_false_1 in E. rewrite bool_decide_eq_false_2 by lia. lra.
Qed.

Lemma vsum_one_hot d n :
  (d < n)%nat -> Tensor.vsum (map (fun j => if (d =? j)%nat then 1 else 0) (seq 0 n)) = 1.
Proof. intros H. rewrite vsum_one_hot_from, bool_decide_eq_true_2 by lia. reflexivity. Qed.

Lemma reshape_ok v : length v = 784%nat -> exists img, reshape_1_28_28 v = inr img.
Proof. intros H. unfold reshape_1_28_28. rewrite H. cbn [Nat.eqb]. eexists. reflexivity. Qed.

Lemma py_index_nat {A} (l : list A) (i : nat) : (i < length l)%nat -> py_index l (Z.of_nat i) = l !! i.
Proof.
  intros H. unfold py_index, py_pos.
  destruct (Z.leb_spec 0 (Z.of_nat i)); [|lia].
  destruct (Z.ltb_spec (Z.of_nat i) (Z.of_nat (length l))); [|lia].
  rewrite Nat2Z.id. reflexivity.
Qed.

Lemma py_index_Z {A} (l : list A) (i : Z) :
  (0 <= i < Z.of_nat (length l))%Z -> py_index l i = l !! Z.to_nat i.
Proof.
  intros H. unfold py_index, py_pos.
  destruct (Z.leb_spec 0 i); [|lia].
  destruct (Z.ltb_spec i (Z.of_nat (length l))); [|lia]. reflexivity.
Qed.

Lemma length_eye n : length (eye n) = n.
Proof. unfold eye. rewrite length_map, length_seq. reflexivity. Qed.

(** X10. In an [MNIST] built with labels and [0 <= portion < 1], the
    rows before position [k = int(len * portion)] keep their digit and
    are served with its one-hot code; the rows from [k] on are
    relabelled 10 and served with the all-zero code.  The mask
    [y.sum(dim=1).ge(0.5)] of the SSWAE train loops is true on the former
    and false on the latter.  [len * portion] is the product of floats,
    the exact product rounded to a double; of the rounding only that it
    maps no number from 0 on below 0 is used. *)
Theorem X10_mnist_portion_labels round_double file oc portion idx r :
  (forall x, 0 <= x -> 0 <= round_double x) ->
  0 <= portion < 1 ->
  file !! idx = Some r -> (784 <= length (cols r))%nat -> (0 <= col0 r < 10)%Z ->
  let self := MNIST.__init__ round_double file true oc portion in
  let k := int_of_float (round_double (INR (length file) * portion)) in
  exists img cond,
    MNIST.__getitem__ self (Z.of_nat idx) = inr (img, Some cond)
    /\ cond = (if (Z.of_nat idx <? k)%Z
               then map (fun j => if (Z.to_nat (col0 r) =? j)%nat then 1 else 0) (seq 0 10)
               else replicate 10 0)
    /\ SSWAE_HSIC_dev.valid_y [cond] = [(Z.of_nat idx <? k)%Z].
Proof.
  intros Hround [Hp0 Hp1] Hidx Hcols Hlab self k.
  assert (Hn : (idx < length file)%nat) by (eapply lookup_lt_Some; exact Hidx).
  assert (Hk : (0 <= k)%Z).
  { apply int_of_float_nonneg, Hround, Rmult_le_pos; [apply pos_INR | exact Hp0]. }
  set (b := slice_bound (length file) k).
  assert (Hb : b = Z.to_nat (Z.min k (Z.of_nat (length file)))).
  { unfold b, slice_bound. destruct (Z.ltb_spec k 0); [lia|reflexivity]. }
  assert (Hdata : data self = set_col0_from b 10 file).
  { unfold self, MNIST.__init__. cbv zeta. unfold Rltb.
    destruct (Rlt_dec portion 1.0); [reflexivity | lra]. }
  assert (Hrow : data self !! idx
                 = Some (if (Z.of_nat idx <? k)%Z then r else set_col0 10 r)).
  { rewrite Hdata. unfold set_col0_from.
    destruct (Z.ltb_spec (Z.of_nat idx) k) as [Hlt|Hge].
    - rewrite lookup_app_l by (rewrite length_take; lia).
      rewrite lookup_take_lt by lia. exact Hidx.
    - rewrite lookup_app_r by (rewrite length_take; lia).
      rewrite length_take. change (map ?f ?l) with (f <$> l).
      rewrite list_lookup_fmap, lookup_drop.
      match goal with |- context [file !! ?j] => replace j with idx by lia end.
      rewrite Hidx. reflexivity. }
  assert (Hlen : length (data self) = length file).
  { rewrite Hdata. unfold set_col0_from.
    rewrite length_app, length_map, length_take, length_drop. lia. }
  unfold MNIST.__getitem__.
  rewrite py_index_nat by (rewrite Hlen; exact Hn).
  rewrite Hrow.
  set (r' := if (Z.of_nat idx <? k)%Z then r else set_col0 10 r).
  assert (Hpix : length (MNIST.pixels r') = 784%nat).
  { unfold MNIST.pixels. rewrite length_map, length_take.
    unfold r'. destruct (Z.of_nat idx <? k)%Z; cbn [set_col0 cols]; lia. }
  destruct (reshape_ok _ Hpix) as [img ->].
  change (label self) with true. change (code self) with (eye 10 ++ zeros_row 10).
  change (output_channels self) with oc.
  unfold r'. destruct (Z.of_nat idx <? k)%Z.
  - rewrite py_index_Z by (rewrite length_app, length_eye; cbn; lia).
    rewrite lookup_app_l by (rewrite length_eye; lia).
    rewrite eye_lookup by lia.
    eexists _, _. split; [reflexivity|]. split; [reflexivity|].
    unfold SSWAE_HSIC_dev.valid_y. cbn [map].
    rewrite vsum_one_hot by lia. rewrite Rgeb_true by lra. reflexivity.
  - cbn [set_col0 col0].
    eexists _, _. split; [reflexivity|]. split; [reflexivity|].
    unfold SSWAE_HSIC_dev.valid_y. cbn [map].
    rewrite vsum_replicate. rewrite Rgeb_false by lra. reflexivity.
Qed.

Lemma X10_mnist_portion_labels_witness :
  exists img cond,
    MNIST.__getitem__
      (MNIST.__init__ (fun x => x) toy_image_file true 1 0.5) 1
    = inr (img, Some cond)
    /\ cond = (if (1 <? int_of_float (INR 2 * 0.5))%Z
               then map (fun j => if (Z.to_nat 5 =? j)%nat then 1 else 0) (seq 0 10)
               else replicate 10 0)
    /\ SSWAE_HSIC_dev.valid_y [cond] = [(1 <? int_of_float (INR 2 * 0.5))%Z].
Proof.
  apply (X10_mnist_portion_labels (fun x => x) toy_image_file 1 0.5 1%nat
           (Row 5 (replicate 784 0))).
  - intros x Hx. exact Hx.
  - lra.
  - reflexivity.
  - vm_compute. lia.
  - cbn. lia.
Defined.

(** ** [rmMNIST]: the recoded digits index the code table *)

Lemma set_col0_at_cons j ind v d :
  set_col0_at (j :: ind) v d = set_col0_at ind v (alter (set_col0 v) j d).
Proof. reflexivity. Qed.

Lemma set_col0_at_lookup ind v d j :
  set_col0_at ind v d !! j
  = if decide (j ∈ ind) then set_col0 v <$> d !! j else d !! j.
Proof.
  revert d. induction ind as [|i ind IH]; intros d.
  - cbn. destruct (decide (j ∈ [])) as [H|H]; [inversion H | reflexivity].
  - rewrite set_col0_at_cons, IH, list_lookup_alter.
    destruct (decide (i = j)) as [->|Hne].
    + destruct (decide (j ∈ j :: ind)) as [_|H]; [|exfalso; apply H; left].
      destruct (decide (j ∈ ind)); [|reflexivity].
      destruct (d !! j); reflexivity.
    + destruct (decide (j ∈ ind)) as [H|H];
        destruct (decide (j ∈ i :: ind)) as [H'|H']; try reflexivity.
      * exfalso. apply H'. right. exact H.
      * exfalso. inversion H'; subst; contradiction.
Qed.

Lemma length_set_col0_at ind v d : length (set_col0_at ind v d) = length d.
Proof.
  revert d. induction ind as [|i ind IH]; intros d; [reflexivity|].
  rewrite set_col0_at_cons, IH, length_alter. reflexivity.
Qed.

Lemma use_digit_labels round_double portion lab_ind bump s i s' b b' :
  rmMNIST.use_digit round_double portion lab_ind bump s i = inr s' ->
  labels_below b s -> (b <= b')%nat -> (rmMNIST.recode s < b')%nat ->
  labels_below b' s'
  /\ rmMNIST.recode s' = (if bump then S (rmMNIST.recode s) else rmMNIST.recode s).
Proof.
  unfold rmMNIST.use_digit. destruct (py_index lab_ind i) as [ind|]; [|discriminate].
  cbv zeta. intros [= <-] HI Hb Hr. split; [|reflexivity].
  intros j r. cbn [rmMNIST.all_ind rmMNIST.sel_data].
  rewrite set_col0_at_lookup. intros Hj.
  destruct (decide (j ∈ _)) as [Hin|Hnin].
  - destruct (rmMNIST.sel_data s !! j) as [r0|]; [|discriminate].
    intros [= <-]. cbn [set_col0 col0]. lia.
  - intros Hl. apply elem_of_app in Hj as [Hj|Hj]; [|contradiction].
    specialize (HI j r Hj Hl). lia.
Qed.

Lemma loop_bump_labels round_double portion lab_ind aux0 s s' :
  rmMNIST.for_digits (rmMNIST.use_digit round_double portion lab_ind true) aux0 s = inr s' ->
  labels_below (rmMNIST.recode s) s ->
  labels_below (rmMNIST.recode s') s'
  /\ rmMNIST.recode s' = (rmMNIST.recode s + length aux0)%nat.
Proof.
  revert s. induction aux0 as [|i aux0 IH]; intros s; cbn [rmMNIST.for_digits].
  - intros [= <-] HI. split; [exact HI | cbn; lia].
  - destruct (rmMNIST.use_digit round_double portion lab_ind true s i) as [e|s1] eqn:E; [discriminate|].
    intros Hrest HI.
    destruct (use_digit_labels _ _ _ _ _ _ _ _ (S (rmMNIST.recode s)) E HI) as [HI1 Hr1];
      [lia | lia |].
    rewrite <- Hr1 in HI1.
    destruct (IH s1 Hrest HI1) as [HI' Hr']. split; [exact HI'|].
    rewrite Hr', Hr1. cbn. lia.
Qed.

Lemma loop_fixed_labels round_double portion lab_ind aux1 s s' :
  rmMNIST.for_digits (rmMNIST.use_digit round_double portion lab_ind false) aux1 s = inr s' ->
  labels_below (S (rmMNIST.recode s)) s ->
  labels_below (S (rmMNIST.recode s')) s' /\ rmMNIST.recode s' = rmMNIST.recode s.
Proof.
  revert s. induction aux1 as [|i aux1 IH]; intros s; cbn [rmMNIST.for_digits].
  - intros [= <-] HI. split; [exact HI | reflexivity].
  - destruct (rmMNIST.use_digit round_double portion lab_ind false s i) as [e|s1] eqn:E; [discriminate|].
    intros Hrest HI.
    destruct (use_digit_labels _ _ _ _ _ _ _ _ (S (rmMNIST.recode s)) E HI) as [HI1 Hr1];
      [lia | lia |].
    rewrite <- Hr1 in HI1.
    destruct (IH s1 Hrest HI1) as [HI' Hr']. split; [exact HI'|].
    rewrite Hr', Hr1. reflexivity.
Qed.

Lemma gather_elem d ind rows r :
  rmMNIST.gather d ind = inr rows -> r ∈ rows -> exists j, j ∈ ind /\ d !! j = Some r.
Proof.
  revert rows. induction ind as [|j ind IH]; intros rows; cbn [rmMNIST.gather].
  - intros [= <-] H. inversion H.
  - destruct (d !! j) as [r0|] eqn:E; [|discriminate].
    destruct (rmMNIST.gather d ind) as [e|rs]; [discriminate|].
    intros [= <-] H. inversion H; subst.
    + exists j. split; [left | exact E].
    + destruct (IH rs eq_refl) as (j' & Hj' & Hl); [assumption|].
      exists j'. split; [right; exact Hj' | exact Hl].
Qed.


(** ** [rmMNIST]: which rows are kept, and how they are relabelled *)


Lemma positions_elem c i data j :
  j ∈ positions c i data
  <-> (i <= j)%nat /\ exists r, data !! (j - i)%nat = Some r /\ col0 r = c.
Proof.
  revert i. induction data as [|r data IH]; intros i; cbn [positions].
  - split; [intros H; inversion H | intros (_ & r & H & _); discriminate].
  - assert (Hrest : j ∈ positions c (S i) data
                    <-> (i < j)%nat /\ exists r0, (r :: data) !! (j - i)%nat = Some r0 /\ col0 r0 = c).
    { rewrite IH. split.
      - intros (Hle & r0 & Hl & Hc). split; [lia|]. exists r0. split; [|exact Hc].
        replace (j - i)%nat with (S (j - S i)) by lia. exact Hl.
      - intros (Hlt & r0 & Hl & Hc). split; [lia|]. exists r0. split; [|exact Hc].
        replace (j - i)%nat with (S (j - S i)) in Hl by lia. exact Hl. }
    destruct (decide (col0 r = c)) as [Hc|Hc].
    + rewrite elem_of_cons, Hrest. split.
      * intros [->|(Hlt & H)]; [|split; [lia | exact H]].
        split; [lia|]. exists r. rewrite Nat.sub_diag. split; [reflexivity | exact Hc].
      * intros (Hle & r0 & Hl & Hc0).
        destruct (decide (j = i)) as [->|Hne]; [left; reflexivity|].
        right. split; [lia|]. exists r0. split; assumption.
    + rewrite Hrest. split.
      * intros (Hlt & H). split; [lia | exact H].
      * intros (Hle & r0 & Hl & Hc0).
        destruct (decide (j = i)) as [->|Hne].
        -- rewrite Nat.sub_diag in Hl. cbn in Hl. injection Hl as <-. contradiction.
        -- split; [lia|]. exists r0. split; assumption.
Qed.

Lemma positions_disjoint c c' file j :
  c <> c' -> j ∈ positions c 0 file -> j ∉ positions c' 0 file.
Proof.
  intros Hne H H'. apply positions_elem in H as (_ & r & Hl & Hc).
  apply positions_elem in H' as (_ & r' & Hl' & Hc'). congruence.
Qed.

Lemma gather_positions c pre data :
  rmMNIST.gather (pre ++ data) (positions c (length pre) data) = inr (rows_of_digit c data).
Proof.
  revert pre. induction data as [|r data IH]; intros pre; [reflexivity|].
  cbn [positions]. unfold rows_of_digit. rewrite filter_cons.
  specialize (IH (pre ++ [r])). rewrite <- app_assoc, length_app in IH. cbn in IH.
  replace (length pre + 1)%nat with (S (length pre)) in IH by lia.
  destruct (decide (col0 r = c)) as [Hc|Hc]; [|exact IH].
  cbn [rmMNIST.gather]. rewrite list_lookup_middle by reflexivity.
  rewrite IH. reflexivity.
Qed.

Lemma length_positions c i data : length (positions c i data) = length (rows_of_digit c data).
Proof.
  revert i. induction data as [|r data IH]; intros i; [reflexivity|].
  cbn [positions]. unfold rows_of_digit. rewrite filter_cons.
  destruct (decide (col0 r = c)); cbn [length]; rewrite IH; reflexivity.
Qed.

Lemma gather_take d ind rows k :
  rmMNIST.gather d ind = inr rows -> rmMNIST.gather d (take k ind) = inr (take k rows).
Proof.
  revert rows k. induction ind as [|j ind IH]; intros rows k; cbn [rmMNIST.gather].
  - intros [= <-]. destruct k; reflexivity.
  - destruct (d !! j) as [r|] eqn:E; [|discriminate].
    destruct (rmMNIST.gather d ind) as [e|rs]; [discriminate|].
    intros [= <-]. destruct k as [|k]; [reflexivity|].
    cbn [take rmMNIST.gather]. rewrite E, (IH rs k eq_refl). reflexivity.
Qed.

Lemma gather_map (f : row -> row) d d' ind rows :
  (forall j, j ∈ ind -> d' !! j = f <$> d !! j) ->
  rmMNIST.gather d ind = inr rows -> rmMNIST.gather d' ind = inr (map f rows).
Proof.
  revert rows. induction ind as [|j ind IH]; intros rows H; cbn [rmMNIST.gather].
  - intros [= <-]. reflexivity.
  - rewrite (H j) by left.
    destruct (d !! j) as [r|]; [|discriminate].
    destruct (rmMNIST.gather d ind) as [e|rs]; [discriminate|].
    intros [= <-]. cbn. rewrite (IH rs) by (intros; try apply H; try right; auto).
    reflexivity.
Qed.

Lemma gather_ext d d' ind rows :
  (forall j, j ∈ ind -> d' !! j = d !! j) ->
  rmMNIST.gather d ind = inr rows -> rmMNIST.gather d' ind = inr rows.
Proof.
  intros H G. rewrite <- (map_id rows). apply (gather_map (fun r => r) d); [|exact G].
  intros j Hj. rewrite (H j Hj). destruct (d !! j); reflexivity.
Qed.

Lemma gather_app d a b x y :
  rmMNIST.gather d a = inr x -> rmMNIST.gather d b = inr y ->
  rmMNIST.gather d (a ++ b) = inr (x ++ y).
Proof.
  revert x. induction a as [|j a IH]; intros x; cbn [rmMNIST.gather app].
  - intros [= <-] H. exact H.
  - destruct (d !! j) as [r|]; [|discriminate].
    destruct (rmMNIST.gather d a) as [e|rs]; [discriminate|].
    intros [= <-] H. rewrite (IH rs eq_refl H). reflexivity.
Qed.

Lemma classify_spec i data lab_ind :
  Forall (fun r => (0 <= col0 r < Z.of_nat (length lab_ind))%Z) data ->
  rmMNIST.classify i data lab_ind
  = inr (imap (fun c l => l ++ positions (Z.of_nat c) i data) lab_ind).
Proof.
  revert i lab_ind. induction data as [|r data IH]; intros i lab_ind H.
  - cbn. f_equal. apply list_eq. intros c. rewrite list_lookup_imap.
    destruct (lab_ind !! c); cbn; [rewrite app_nil_r|]; reflexivity.
  - inversion H as [|? ? Hr Hd]; subst. cbn [rmMNIST.classify].
    unfold py_pos. destruct (Z.leb_spec 0 (col0 r)); [|lia].
    destruct (Z.ltb_spec (col0 r) (Z.of_nat (length lab_ind))); [|lia].
    rewrite IH by (rewrite length_alter; exact Hd).
    f_equal. apply list_eq. intros c. rewrite !list_lookup_imap, list_lookup_alter.
    cbn [positions].
    destruct (decide (Z.to_nat (col0 r) = c)) as [<-|Hne].
    + destruct (lab_ind !! Z.to_nat (col0 r)); [|reflexivity]. cbn.
      destruct (decide (col0 r = Z.of_nat (Z.to_nat (col0 r)))) as [_|Hx]; [|lia].
      rewrite <- app_assoc. reflexivity.
    + destruct (lab_ind !! c); [|reflexivity]. cbn.
      destruct (decide (col0 r = Z.of_nat c)) as [Hx|_]; [lia|]. reflexivity.
Qed.

Lemma classify_file file :
  Forall (fun r => (0 <= col0 r < 10)%Z) file ->
  exists lab_ind,
    rmMNIST.classify 0 file (replicate 10 []) = inr lab_ind
    /\ forall c, (0 <= c < 10)%Z -> py_index lab_ind c = Some (positions c 0 file).
Proof.
  intros H. eexists. split; [apply classify_spec; exact H|].
  intros c Hc. rewrite py_index_Z by (rewrite length_imap, length_replicate; lia).
  rewrite list_lookup_imap, lookup_replicate_2 by lia. cbn.
  rewrite Z2Nat.id by lia. reflexivity.
Qed.

Lemma use_digit_selected round_double file portion lab_ind bump P s out c :
  (forall c, (0 <= c < 10)%Z -> py_index lab_ind c = Some (positions c 0 file)) ->
  selected file P s out -> (0 <= c < 10)%Z -> ~ P c ->
  exists s',
    rmMNIST.use_digit round_double portion lab_ind bump s c = inr s'
    /\ selected file (fun x => x = c \/ P x) s'
         (out ++ map (set_col0 (Z.of_nat (rmMNIST.recode s))) (kept round_double portion c file))
    /\ rmMNIST.recode s' = (if bump then S (rmMNIST.recode s) else rmMNIST.recode s).
Proof.
  intros HL (Ha & Hb & Hc) Hrange HnP. unfold rmMNIST.use_digit.
  rewrite (HL c Hrange). cbv zeta.
  set (k := slice_bound _ _). set (uind := take k (positions c 0 file)).
  eexists. split; [reflexivity|]. split; [|reflexivity].
  assert (Huind : forall j, j ∈ uind -> j ∈ positions c 0 file).
  { intros j Hj. unfold uind in Hj. apply elem_of_take in Hj as (i & Hi & _).
    eapply list_elem_of_lookup_2. exact Hi. }
  assert (Hfresh : forall j, j ∈ uind -> forall c', P c' -> j ∉ positions c' 0 file).
  { intros j Hj c' Hc'. apply (positions_disjoint c c'); [congruence | apply Huind, Hj]. }
  split; [|split]; cbn [rmMNIST.sel_data rmMNIST.all_ind].
  - intros j Hj. rewrite set_col0_at_lookup.
    destruct (decide (j ∈ uind)) as [Hin|_].
    + exfalso. apply (Hj c); [left; reflexivity | apply Huind, Hin].
    + apply Ha. intros c' Hc'. apply Hj. right. exact Hc'.
  - apply gather_app.
    + apply (gather_ext (rmMNIST.sel_data s)); [|exact Hb].
      intros j Hj. rewrite set_col0_at_lookup.
      destruct (decide (j ∈ uind)) as [Hin|_]; [|reflexivity].
      exfalso. destruct (Hc j Hj) as (c' & Hc' & Hpos).
      exact (Hfresh j Hin c' Hc' Hpos).
    + apply (gather_map _ (rmMNIST.sel_data s)).
      * intros j Hj. rewrite set_col0_at_lookup.
        destruct (decide (j ∈ uind)); [reflexivity | contradiction].
      * apply (gather_ext file).
        -- intros j Hj. apply Ha. apply Hfresh, Hj.
        -- unfold uind, kept, k. rewrite length_positions. cbv zeta.
           apply gather_take. apply (gather_positions c []).
  - intros j Hj. apply elem_of_app in Hj as [Hj|Hj].
    + destruct (Hc j Hj) as (c' & Hc' & Hpos). exists c'. split; [right; exact Hc' | exact Hpos].
    + exists c. split; [left; reflexivity | apply Huind, Hj].
Qed.

Lemma selected_ext file P Q s out :
  (forall c, P c <-> Q c) -> selected file P s out -> selected file Q s out.
Proof.
  intros H (Ha & Hb & Hc). split; [|split].
  - intros j Hj. apply Ha. intros c Hc'. apply Hj, H, Hc'.
  - exact Hb.
  - intros j Hj. destruct (Hc j Hj) as (c & Hc' & Hpos). exists c. split; [apply H, Hc' | exact Hpos].
Qed.

Lemma for_digits_selected round_double file portion lab_ind bump cs :
  (forall c, (0 <= c < 10)%Z -> py_index lab_ind c = Some (positions c 0 file)) ->
  forall P s out,
  selected file P s out ->
  Forall (fun c => (0 <= c < 10)%Z) cs -> NoDup cs -> (forall c, c ∈ cs -> ~ P c) ->
  exists s',
    rmMNIST.for_digits (rmMNIST.use_digit round_double portion lab_ind bump) cs s = inr s'
    /\ selected file (fun x => x ∈ cs \/ P x) s'
         (out ++ concat (imap (fun p c =>
                           map (set_col0 (Z.of_nat (rmMNIST.recode s + (if bump then p else 0))))
                               (kept round_double portion c file)) cs))
    /\ rmMNIST.recode s' = (rmMNIST.recode s + (if bump then length cs else 0))%nat.
Proof.
  intros HL. induction cs as [|c cs IH]; intros P s out Hsel Hrange Hnd HnP.
  - exists s. split; [reflexivity|]. cbn [imap concat]. rewrite app_nil_r. split.
    + apply (selected_ext file P); [|exact Hsel].
      intros c. split; [intros H; right; exact H | intros [H|H]; [inversion H | exact H]].
    + destruct bump; cbn; lia.
  - inversion Hrange as [|? ? Hc Hcs]; subst. inversion Hnd as [|? ? Hnin Hnd']; subst.
    destruct (use_digit_selected round_double file portion lab_ind bump P s out c HL Hsel Hc)
      as (s1 & E1 & Hsel1 & Hr1); [apply HnP; left|].
    destruct (IH _ s1 _ Hsel1 Hcs Hnd') as (s' & E' & Hsel' & Hr').
    { intros c' Hc' [->|HP]; [contradiction|]. apply (HnP c'); [right; exact Hc' | exact HP]. }
    exists s'. cbn [rmMNIST.for_digits]. rewrite E1. split; [exact E'|]. split.
    + apply (selected_ext file (fun x => x ∈ cs \/ (x = c \/ P x))).
      * intros x. rewrite elem_of_cons. tauto.
      * replace (out ++ concat (imap _ (c :: cs))) with
          ((out ++ map (set_col0 (Z.of_nat (rmMNIST.recode s))) (kept round_double portion c file))
           ++ concat (imap (fun p c0 =>
                 map (set_col0 (Z.of_nat (rmMNIST.recode s1 + (if bump then p else 0))))
                     (kept round_double portion c0 file)) cs)); [exact Hsel'|].
        rewrite imap_cons. cbn [concat]. rewrite <- app_assoc. f_equal. f_equal.
        -- f_equal. f_equal. destruct bump; lia.
        -- f_equal. apply imap_ext. intros p c0 _. cbn. rewrite Hr1.
           f_equal. f_equal. destruct bump; lia.
    + rewrite Hr', Hr1. destruct bump; cbn; lia.
Qed.

Lemma rmnist_init_spec round_double file lbl oc aux0 aux1 portion :
  Forall (fun r => (0 <= col0 r < 10)%Z) file ->
  Forall (fun c => (0 <= c < 10)%Z) (aux0 ++ aux1) -> NoDup (aux0 ++ aux1) ->
  rmMNIST.__init__ round_double file lbl oc (Some (aux0, aux1)) portion
  = inr (Dataset
           (concat (imap (fun p c => map (set_col0 (Z.of_nat p)) (kept round_double portion c file)) aux0)
            ++ concat (map (fun c => map (set_col0 (Z.of_nat (length aux0)))
                                         (kept round_double portion c file)) aux1))
           (eye (length aux0 + match aux1 with [] => 0 | _ => 1 end))
           lbl oc).
Proof.
  intros Hfile Hrange Hnd.
  apply Forall_app in Hrange as [Hr0 Hr1].
  apply NoDup_app in Hnd as (Hnd0 & Hdisj & Hnd1).
  unfold rmMNIST.__init__.
  destruct (classify_file file Hfile) as (lab_ind & -> & HL).
  destruct (for_digits_selected round_double file portion lab_ind true aux0 HL
              (fun _ => False) (rmMNIST.Selection file [] 0) [])
    as (s1 & -> & Hsel1 & Hrec1); try assumption.
  { split; [|split]; cbn; [reflexivity | reflexivity | intros j Hj; inversion Hj]. }
  { intros c _ []. }
  destruct (for_digits_selected round_double file portion lab_ind false aux1 HL _ s1 _ Hsel1)
    as (s2 & -> & Hsel2 & Hrec2); try assumption.
  { intros c Hc [H|[]]. exact (Hdisj c H Hc). }
  cbv zeta. destruct Hsel2 as (_ & -> & _).
  cbn [rmMNIST.recode] in Hrec1. rewrite Hrec2, Hrec1. cbn [app].
  do 2 f_equal; [| f_equal; lia].
  f_equal.
  clear. induction aux1 as [|c aux1 IH] using rev_ind; [reflexivity|].
  rewrite imap_app, map_app, !concat_app, IH. cbn. do 5 f_equal. lia.
Qed.

Lemma py_index_in_range {A} (l : list A) (i : Z) :
  (- Z.of_nat (length l) <= i < Z.of_nat (length l))%Z ->
  exists a, py_index l i = Some a /\ a ∈ l.
Proof.
  intros H. unfold py_index, py_pos.
  destruct (Z.leb_spec 0 i).
  - destruct (Z.ltb_spec i (Z.of_nat (length l))); [|lia].
    destruct (lookup_lt_is_Some_2 l (Z.to_nat i)) as [a Ha]; [lia|].
    exists a. split; [exact Ha | eapply list_elem_of_lookup_2; exact Ha].
  - destruct (Z.leb_spec (- Z.of_nat (length l)) i); [|lia].
    destruct (lookup_lt_is_Some_2 l (Z.to_nat (Z.of_nat (length l) + i))) as [a Ha]; [lia|].
    exists a. split; [exact Ha | eapply list_elem_of_lookup_2; exact Ha].
Qed.

(** X11. When [rmMNIST.__init__] returns with [aux] given, the code table
    is [eye(len(aux[0]) + unknown)] with [unknown = 1] exactly when
    [aux[1]] is not empty, and every row kept carries a label that
    indexes it: [__getitem__] finds the one-hot code of the label and
    raises no [IndexError] on a position in range. *)
Theorem X11_rmnist_labels_index_code round_double file lbl oc aux0 aux1 portion self :
  rmMNIST.__init__ round_double file lbl oc (Some (aux0, aux1)) portion = inr self ->
  code self = eye (length aux0 + (match aux1 with [] => 0 | _ => 1 end))
  /\ (forall r, r ∈ data self ->
        (0 <= col0 r < Z.of_nat (length (code self)))%Z
        /\ py_index (code self) (col0 r)
           = Some (map (fun j => if (Z.to_nat (col0 r) =? j)%nat then 1 else 0)
                     (seq 0 (length (code self)))))
  /\ (forall idx,
        (- Z.of_nat (MNIST.__len__ self) <= idx < Z.of_nat (MNIST.__len__ self))%Z ->
        MNIST.__getitem__ self idx <> inl IndexError).
Proof.
  intros Hinit.
  assert (Hmain :
    code self = eye (length aux0 + (match aux1 with [] => 0 | _ => 1 end))
    /\ forall r, r ∈ data self ->
         (0 <= col0 r < Z.of_nat (length (code self)))%Z
         /\ py_index (code self) (col0 r)
            = Some (map (fun j => if (Z.to_nat (col0 r) =? j)%nat then 1 else 0)
                      (seq 0 (length (code self))))).
  2: { destruct Hmain as [Hcode Hrows]. split; [exact Hcode|]. split; [exact Hrows|].
       intros idx Hidx. unfold MNIST.__getitem__.
       destruct (py_index_in_range (data self) idx Hidx) as (r & -> & Hr).
       destruct (Hrows r Hr) as [_ ->].
       unfold reshape_1_28_28. destruct (length (MNIST.pixels r) =? 784)%nat; [|discriminate].
       destruct (label self); discriminate. }
  revert Hinit.
  unfold rmMNIST.__init__.
  destruct (rmMNIST.classify 0 file (replicate 10 [])) as [e|lab_ind]; [discriminate|].
  destruct (rmMNIST.for_digits _ aux0 _) as [e|s1] eqn:E1; [discriminate|].
  destruct (rmMNIST.for_digits _ aux1 s1) as [e|s2] eqn:E2; [discriminate|].
  cbv zeta.
  destruct (rmMNIST.gather _ _) as [e|rows] eqn:EG; [discriminate|].
  intros [= <-]. cbn [code data].
  destruct (loop_bump_labels _ _ _ _ _ _ E1) as [HI1 Hr1].
  { intros j r Hj. inversion Hj. }
  cbn [rmMNIST.recode] in Hr1.
  assert (HI2 : labels_below (rmMNIST.recode s2 + match aux1 with [] => 0 | _ => 1 end) s2
                /\ rmMNIST.recode s2 = length aux0).
  { destruct aux1 as [|i aux1].
    - cbn in E2. injection E2 as <-. rewrite Nat.add_0_r. split; [exact HI1 | lia].
    - destruct (loop_fixed_labels _ _ _ _ _ _ E2) as [HI2 Hr2].
      + intros j r Hj Hl. specialize (HI1 j r Hj Hl). lia.
      + replace (rmMNIST.recode s2 + 1)%nat with (S (rmMNIST.recode s2)) by lia.
        split; [exact HI2 | lia]. }
  destruct HI2 as [HI2 Hr2]. rewrite Hr2 in *.
  split; [reflexivity|].
  intros r Hr. rewrite length_eye.
  destruct (gather_elem _ _ _ _ EG Hr) as (j & Hj & Hl).
  specialize (HI2 j r Hj Hl). split; [exact HI2|].
  rewrite py_index_Z by (rewrite length_eye; exact HI2).
  apply eye_lookup. lia.
Qed.

Lemma X11_rmnist_labels_index_code_witness :
  exists self,
    rmMNIST.__init__ (fun x => x) toy_file true 1 (Some ([5; 3]%Z, [])) 1 = inr self
    /\ code self = eye (length [5; 3]%Z + 0)
    /\ (forall r, r ∈ data self ->
          (0 <= col0 r < Z.of_nat (length (code self)))%Z
          /\ py_index (code self) (col0 r)
             = Some (map (fun j => if (Z.to_nat (col0 r) =? j)%nat then 1 else 0)
                       (seq 0 (length (code self)))))
    /\ (forall idx,
          (- Z.of_nat (MNIST.__len__ self) <= idx < Z.of_nat (MNIST.__len__ self))%Z ->
          MNIST.__getitem__ self idx <> inl IndexError).
Proof.
  assert (H : Forall (fun r => (0 <= col0 r < 10)%Z) toy_file
              /\ Forall (fun c => (0 <= c < 10)%Z) ([5; 3]%Z ++ [])
              /\ NoDup ([5; 3]%Z ++ [])).
  { split; [|split].
    - repeat constructor; cbn; lia.
    - repeat constructor; lia.
    - repeat constructor; set_solver. }
  destruct H as (H1 & H2 & H3).
  eexists. split; [apply (rmnist_init_spec (fun x => x) toy_file true 1 [5; 3]%Z [] 1 H1 H2 H3)|].
  apply (X11_rmnist_labels_index_code (fun x => x) toy_file true 1 [5; 3]%Z [] 1).
  apply (rmnist_init_spec (fun x => x) toy_file true 1 [5; 3]%Z [] 1 H1 H2 H3).
Defined.

(** X12. For a file of digits 0..9 and distinct digits in [aux[0]] and
    [aux[1]], [rmMNIST.__init__] keeps, digit by digit in the order of
    [aux[0]] and then of [aux[1]], the first [int(len * portion)] rows
    of the digit in file order, [len * portion] being the product of
    floats (the exact product rounded to a double, whatever the
    rounding); a row of the [p]-th digit of [aux[0]] is relabelled [p],
    a row of a digit of [aux[1]] is relabelled [len(aux[0])]. *)
Theorem X12_rmnist_recoding round_double file lbl oc aux0 aux1 portion :
  Forall (fun r => (0 <= col0 r < 10)%Z) file ->
  Forall (fun c => (0 <= c < 10)%Z) (aux0 ++ aux1) -> NoDup (aux0 ++ aux1) ->
  rmMNIST.__init__ round_double file lbl oc (Some (aux0, aux1)) portion
  = inr (Dataset
           (concat (imap (fun p c => map (set_col0 (Z.of_nat p)) (kept round_double portion c file)) aux0)
            ++ concat (map (fun c => map (set_col0 (Z.of_nat (length aux0)))
                                         (kept round_double portion c file)) aux1))
           (eye (length aux0 + match aux1 with [] => 0 | _ => 1 end))
           lbl oc).
Proof. apply rmnist_init_spec. Qed.

Lemma X12_rmnist_recoding_witness :
  rmMNIST.__init__ (fun x => x) toy_file true 1 (Some ([5; 3]%Z, [])) 0.5
  = inr (Dataset
           (concat (imap (fun p c => map (set_col0 (Z.of_nat p)) (kept (fun x => x) 0.5 c toy_file))
                         [5; 3]%Z)
            ++ concat (map (fun c => map (set_col0 (Z.of_nat (length [5; 3]%Z)))
                                         (kept (fun x => x) 0.5 c toy_file)) []))
           (eye (length [5; 3]%Z + 0))
           true 1).
Proof.
  apply (X12_rmnist_recoding (fun x => x) toy_file true 1 [5; 3]%Z [] 0.5).
  - repeat constructor; cbn; lia.
  - repeat constructor; lia.
  - repeat constructor; set_solver.
Defined.
End Dataset_props.


(** ** Constructors: malformed values and keys without a fallback *)
Lemma bind_ext {W A B} (c c' : prog W A) (f f' : A -> prog W B) w :
  c w = c' w -> (forall a w', f a w' = f' a w') -> bind c f w = bind c' f' w.
Proof.
  intros Hc Hf. unfold bind. rewrite Hc. destruct (c' w) as [[e|a] w']; [reflexivity|].
  apply Hf.
Qed.

Lemma int_list_fails {W} py_int (ls : list string) (w : W) :
  Exists (fun i => py_int i = None) ls -> int_list py_int ls w = (inl ValueError, w).
Proof.
  induction ls as [|i ls IH]; intros H; [inversion H|].
  cbn [int_list]. unfold bind, int_of.
  destruct (py_int i) as [z|] eqn:E; [|reflexivity].
  cbn [ret]. rewrite IH; [reflexivity|].
  inversion H; subst; [congruence | assumption].
Qed.

Section Constructors2.
Variable py_float : string -> option R.
Variable py_int : string -> option Z.
Variable base_init : gmap string (gmap string string) -> prog (gmap string attr) unit.

(** X13. [classifier_abstract.__init__] catches only [KeyError] around
    ['portion']: on a configuration that constructs without the key, a
    value that [float] rejects makes the constructor raise
    [ValueError], in the state that the fallback would have completed
    with [portion = 1.0]. *)
Theorem X13_classifier_portion_malformed cfg ti v self0 self1 :
  cfg !! "train_info" = Some ti -> ti !! "portion" = None ->
  (forall self, base_init (<["train_info" := <["portion" := v]> ti]> cfg) self
                = base_init cfg self) ->
  py_float v = None ->
  classifier_abstract.__init__ py_float py_int base_init cfg self0 = (inr tt, self1) ->
  exists self',
    classifier_abstract.__init__ py_float py_int base_init
      (<["train_info" := <["portion" := v]> ti]> cfg) self0 = (inl ValueError, self')
    /\ self1 = <["portion" := AFloat 1.0]> self'.
Proof.
  intros Hti Hp Hbase Hv H.
  unfold classifier_abstract.__init__ in *.
  apply bind_inv in H as ([] & s1 & H1 & H).
  apply bind_inv in H as ([] & s2 & H2 & H).
  apply bind_inv in H as (lc & s3 & H3 & H).
  apply bind_inv in H as (l & s4 & H4 & H).
  apply bind_inv in H as ([] & s5 & H5 & H).
  rewrite <- Hbase in H1.
  rewrite <- (getitem_insert_ne cfg "train_info" ti "portion" "labeled_class" v Hti) in H3 by done.
  rewrite (bind_inr _ _ _ _ _ H1), (bind_inr _ _ _ _ _ H2), (bind_inr _ _ _ _ _ H3).
  rewrite (bind_inr _ _ _ _ _ H4), (bind_inr _ _ _ _ _ H5).
  unfold try_except in *.
  unfold getitem in H at 1. rewrite Hti, Hp in H.
  unfold getitem at 1. rewrite lookup_insert_eq, lookup_insert_eq.
  cbn in H |- *. unfold float_of. rewrite Hv. cbn.
  injection H as <-. eexists. split; reflexivity.
Qed.

(** X14. [SSWAE_HSIC_dev2.__init__] catches every exception around
    ['test_class']: with a value one of whose entries [int] rejects,
    the constructor behaves exactly as without the key. *)
Theorem X14_dev2_test_class_malformed cfg ti v self0 :
  cfg !! "train_info" = Some ti -> ti !! "test_class" = None ->
  (forall self, base_init (<["train_info" := <["test_class" := v]> ti]> cfg) self
                = base_init cfg self) ->
  Exists (fun i => py_int i = None) (str_split "," (str_remove " " v)) ->
  SSWAE_HSIC_dev2.__init__ py_float py_int base_init
    (<["train_info" := <["test_class" := v]> ti]> cfg) self0
  = SSWAE_HSIC_dev2.__init__ py_float py_int base_init cfg self0.
Proof.
  intros Hti Hp Hbase Hv.
  unfold SSWAE_HSIC_dev2.__init__, CWAE_GAN_abstract.__init__.
  assert (Hget : forall key w, key <> "test_class" ->
            @getitem (gmap string attr)
              (<["train_info" := <["test_class" := v]> ti]> cfg) "train_info" key w
            = getitem cfg "train_info" key w).
  { intros key w Hne.
    rewrite (getitem_insert_ne cfg "train_info" ti "test_class" key v Hti) by congruence.
    reflexivity. }
  repeat lazymatch goal with
    | |- bind _ _ _ = bind _ _ _ => apply bind_ext; [|intros ? ?]
    | |- base_init _ _ = _ => apply Hbase
    | |- getitem _ _ _ _ = _ => apply Hget; done
    | |- try_except _ _ _ _ = _ => fail
    | |- _ => reflexivity
    end.
  unfold try_except, bind at 1 3. unfold getitem.
  rewrite lookup_insert_eq, lookup_insert_eq, Hti, Hp. cbn [ret raise].
  unfold bind. rewrite (int_list_fails py_int _ _ Hv). reflexivity.
Qed.

(** X15. [SSWAE_HSIC_dev2.__init__] has no fallback for ['portion']:
    a configuration that constructs with the key raises
    [KeyError('portion')] without it. *)
Theorem X15_dev2_portion_required cfg ti v self0 self1' :
  cfg !! "train_info" = Some ti -> ti !! "portion" = None ->
  (forall self, base_init (<["train_info" := <["portion" := v]> ti]> cfg) self
                = base_init cfg self) ->
  SSWAE_HSIC_dev2.__init__ py_float py_int base_init
    (<["train_info" := <["portion" := v]> ti]> cfg) self0 = (inr tt, self1') ->
  (SSWAE_HSIC_dev2.__init__ py_float py_int base_init cfg self0).1 = inl (KeyError "portion").
Proof.
  intros Hti Hp Hbase H.
  unfold SSWAE_HSIC_dev2.__init__, CWAE_GAN_abstract.__init__ in *.
  apply bind_inv in H as ([] & s1 & H1 & H).
  apply bind_inv in H1 as ([] & s0 & H0 & H1).
  rewrite Hbase in H0.
  rewrite (bind_inr _ _ _ _ _ (eq_trans (bind_inr _ _ _ _ _ H0) H1)).
  do 3 (apply bind_inv in H as ([] & ? & ?H & H); rewrite (bind_inr _ _ _ _ _ H2); clear H2).
  do 2 (
    apply bind_inv in H as (? & ? & ?H & H);
    rewrite (getitem_insert_ne cfg "train_info" ti "portion" _ v Hti) in H2 by done;
    rewrite (bind_inr _ _ _ _ _ H2); clear H2;
    apply bind_inv in H as (? & ? & ?H & H); rewrite (bind_inr _ _ _ _ _ H2); clear H2;
    apply bind_inv in H as ([] & ? & ?H & H); rewrite (bind_inr _ _ _ _ _ H2); clear H2).
  apply bind_inv in H as (? & ? & ?H & H).
  rewrite (getitem_insert_ne cfg "train_info" ti "portion" _ v Hti) in H2 by done.
  rewrite (bind_inr _ _ _ _ _ H2); clear H2.
  apply bind_inv in H as (? & ? & ?H & H); rewrite (bind_inr _ _ _ _ _ H2); clear H2.
  apply bind_inv in H as ([] & smid & ?H & H); rewrite (bind_inr _ _ _ _ _ H2); clear H2.
  apply bind_inv in H as ([] & s' & Htry & H).
  assert (Htry0 : exists s0',
    try_except
      (do test_class <- getitem cfg "train_info" "test_class";
       do l <- int_list py_int (str_split "," (str_remove " " test_class));
       setattr "test_class" (AIntList l))
      (fun _ => true) (setattr "test_class" (AIntList [])) smid = (inr tt, s0')).
  { unfold try_except. destruct (bind _ _ smid) as [[e|[]] s0']; eauto. }
  destruct Htry0 as [s0' Htry0].
  cbv zeta. rewrite (bind_inr _ _ _ _ _ Htry0).
  unfold bind at 1. unfold getitem. rewrite Hti, Hp. reflexivity.
Qed.

(** X16. Whenever [SSWAE_HSIC_dev2.__init__] returns, so does
    [SSWAE_HSIC_dev2_2.__init__]: [unk] is [True] when the key is
    missing and otherwise whether the value without spaces is ["True"];
    [unlabeled_class] is [[]] when the key is missing; the attributes
    besides [unk], [gm] and [unlabeled_class] are those of the base
    constructor. *)
Theorem X16_dev2_2_flags cfg ti self0 s :
  cfg !! "train_info" = Some ti ->
  SSWAE_HSIC_dev2.__init__ py_float py_int base_init cfg self0 = (inr tt, s) ->
  exists self1,
    SSWAE_HSIC_dev2_2.__init__ py_float py_int base_init cfg self0 = (inr tt, self1)
    /\ self1 !! "unk"
       = Some (ABool match ti !! "unk" with
                     | Some v => String.eqb (str_remove " " v) "True"
                     | None => true
                     end)
    /\ (ti !! "unlabeled_class" = None ->
        self1 !! "unlabeled_class" = Some (AIntList []))
    /\ forall name, name <> "unk" -> name <> "gm" -> name <> "unlabeled_class" ->
         self1 !! name = s !! name.
Proof.
  intros Hti H. unfold SSWAE_HSIC_dev2_2.__init__.
  rewrite (bind_inr _ _ _ _ _ H).
  assert (Htry : exists l,
    try_except
      (do unlabeled_class <- getitem cfg "train_info" "unlabeled_class";
       let unlabeled_class := str_split "," (str_remove " " unlabeled_class) in
       do l <- int_list py_int unlabeled_class;
       setattr "unlabeled_class" (AIntList l))
      (fun _ => true) (setattr "unlabeled_class" (AIntList [])) s
    = (inr tt, <["unlabeled_class" := AIntList l]> s)
    /\ (ti !! "unlabeled_class" = None -> l = [])).
  { unfold try_except, bind at 1. unfold getitem. rewrite Hti.
    destruct (ti !! "unlabeled_class") as [v|]; cbn [ret raise].
    - cbv zeta. unfold bind.
      pose proof (int_list_state py_int (str_split "," (str_remove " " v)) s) as Hst.
      destruct (int_list py_int _ s) as [[e|l] sb]; cbn in Hst; subst sb.
      + exists []. split; [reflexivity | discriminate].
      + exists l. split; [reflexivity | discriminate].
    - exists []. split; reflexivity. }
  destruct Htry as (l & Htry & Hl).
  rewrite (bind_inr _ _ _ _ _ Htry).
  unfold bind at 1. unfold setattr at 1, modify at 1.
  unfold try_except, bind, getitem. rewrite Hti.
  destruct (ti !! "unk") as [v|]; cbn [ret raise setattr modify].
  - eexists. split; [reflexivity|]. split; [apply lookup_insert_eq|]. split.
    + intros Hu. rewrite (Hl Hu), !lookup_insert_ne by done. apply lookup_insert_eq.
    + intros name H1 H2 H3. rewrite !lookup_insert_ne by congruence. reflexivity.
  - eexists. split; [reflexivity|]. split; [apply lookup_insert_eq|]. split.
    + intros Hu. rewrite (Hl Hu), !lookup_insert_ne by done. apply lookup_insert_eq.
    + intros name H1 H2 H3. rewrite !lookup_insert_ne by congruence. reflexivity.
Qed.
End Constructors2.

Lemma X13_classifier_portion_malformed_witness :
  exists self',
    classifier_abstract.__init__ toy_float_strict toy_int toy_base_init
      (<["train_info" := <["portion" := "x"]> toy_train_info]> toy_cfg) ∅
    = (inl ValueError, self')
    /\ <["portion" := AFloat 1.0]>
         (<["labeled_class" := AIntList [0%Z; 0%Z]]>
            (<["loss" := AObj "CrossEntropyLoss"]> ∅))
       = <["portion" := AFloat 1.0]> self'.
Proof.
  apply (X13_classifier_portion_malformed toy_float_strict toy_int toy_base_init
           toy_cfg toy_train_info "x" ∅);
    [reflexivity | reflexivity | intros; reflexivity | reflexivity | reflexivity].
Defined.

Lemma X14_dev2_test_class_malformed_witness :
  SSWAE_HSIC_dev2.__init__ toy_float toy_int_strict toy_base_init
    (<["train_info" := <["test_class" := "1, x"]> (<["portion" := "1"]> toy_train_info)]>
       toy_cfg2) ∅
  = SSWAE_HSIC_dev2.__init__ toy_float toy_int_strict toy_base_init toy_cfg2 ∅.
Proof.
  apply (X14_dev2_test_class_malformed toy_float toy_int_strict toy_base_init
           toy_cfg2 (<["portion" := "1"]> toy_train_info) "1, x" ∅);
    [reflexivity | reflexivity | intros; reflexivity |].
  right. left. reflexivity.
Defined.

Lemma X15_dev2_portion_required_witness :
  (SSWAE_HSIC_dev2.__init__ toy_float toy_int toy_base_init toy_cfg ∅).1
  = inl (KeyError "portion").
Proof.
  apply (X15_dev2_portion_required toy_float toy_int toy_base_init
           toy_cfg toy_train_info "1" ∅
           (SSWAE_HSIC_dev2.__init__ toy_float toy_int toy_base_init
              (<["train_info" := <["portion" := "1"]> toy_train_info]> toy_cfg) ∅).2);
    [reflexivity | reflexivity | intros; reflexivity | reflexivity].
Defined.

Lemma X16_dev2_2_flags_witness :
  exists self1,
    SSWAE_HSIC_dev2_2.__init__ toy_float toy_int toy_base_init toy_cfg2 ∅ = (inr tt, self1)
    /\ self1 !! "unk" = Some (ABool true).
Proof.
  destruct (X16_dev2_2_flags toy_float toy_int toy_base_init toy_cfg2
              (<["portion" := "1"]> toy_train_info) ∅
              (SSWAE_HSIC_dev2.__init__ toy_float toy_int toy_base_init toy_cfg2 ∅).2)
    as (self1 & H1 & H2 & _); [reflexivity | reflexivity |].
  exists self1. split; [exact H1 | exact H2].
Defined.


(** ** The train loops: what [best_obj] does, runs that complete, resumes that fail *)
(** As [inv_step], keeping the outcome of a comparison. *)
Ltac inv_step_cmp :=
  lazymatch goal with
  | |- wpx (when (Rgtb ?a ?b) _) _ _ =>
      let E := fresh "Ecmp" in destruct (Rgtb a b) eqn:E; cbn [when]
  | |- _ => inv_step
  end.

Section BestObj.
Context {M O S Batch A : Type}.
Variable fw : framework M O S Batch.
Variable ia : inc_avg_ops A.
Variable hp : hparams.

Lemma vae_best_obj_mono recon_loss mu_and_logvar kill resume (e : env A (loop_state M O S)) :
  snd (best_obj (st (VAE_abstract.train fw ia hp recon_loss mu_and_logvar kill resume e).2))
  <= snd (best_obj (st e)).
Proof.
  set (b0 := snd (best_obj (st e))).
  set (J := fun w : loop_state M O S => snd (best_obj w) <= b0).
  change (wpx (VAE_abstract.train fw ia hp recon_loss mu_and_logvar kill resume)
              (fun _ e' => J (st e')) e).
  assert (HJ0 : J (st e)) by (unfold J, b0; lra).
  clearbody b0.
  unfold VAE_abstract.train, VAE_abstract.train_epoch, VAE_abstract.pretrain_encoder,
    set_lists, set_params_optimizer, set_scheduler_optimizer, set_best_obj, set_hist,
    save, torch_save, torch_load, epoch_done.
  repeat inv_step_cmp.
  all: unfold J in *; cbn [best_obj snd st] in *; try assumption.
  all: try (apply Rgtb_inv in Ecmp; cbn [best_obj snd st] in *; lra).
Qed.

Lemma classifier_best_obj_mono forward_loss kill resume (e : env A (loop_state M O S)) :
  snd (best_obj (st (classifier_abstract.train fw ia hp forward_loss kill resume e).2))
  <= snd (best_obj (st e)).
Proof.
  set (b0 := snd (best_obj (st e))).
  set (J := fun w : loop_state M O S => snd (best_obj w) <= b0).
  change (wpx (classifier_abstract.train fw ia hp forward_loss kill resume)
              (fun _ e' => J (st e')) e).
  assert (HJ0 : J (st e)) by (unfold J, b0; lra).
  clearbody b0.
  unfold classifier_abstract.train, classifier_abstract.train_epoch,
    set_lists, set_params_optimizer, set_scheduler_optimizer, set_best_obj, set_hist,
    save, torch_save, torch_load, epoch_done.
  repeat inv_step_cmp.
  all: unfold J in *; cbn [best_obj snd st] in *; try assumption.
  all: try (apply Rgtb_inv in Ecmp; cbn [best_obj snd st] in *; lra).
Qed.
End BestObj.

Section BestObjAdv.
Context {PM PD GM GD O S Img A : Type}.
Variable fw : adv_framework PM PD GM GD O S Img.
Variable ia : inc_avg_ops A.
Variable hp : hparams.

Lemma adv_best_obj_mono kill resume (e : env A (adv_state PM PD GM GD O S)) :
  snd (adv_best_obj (st (SSWAE_HSIC_dev.train fw ia hp kill resume e).2))
  <= snd (adv_best_obj (st e)).
Proof.
  set (b0 := snd (adv_best_obj (st e))).
  set (J := fun w : adv_state PM PD GM GD O S => snd (adv_best_obj w) <= b0).
  change (wpx (SSWAE_HSIC_dev.train fw ia hp kill resume) (fun _ e' => J (st e')) e).
  assert (HJ0 : J (st e)) by (unfold J, b0; lra).
  clearbody b0.
  unfold SSWAE_HSIC_dev.train, SSWAE_HSIC_dev.train_epoch, SSWAE_HSIC_dev.pretrain_encoder,
    SSWAE_HSIC_dev.train_batch, SSWAE_HSIC_dev.set_learn, SSWAE_HSIC_dev.set_schedulers,
    SSWAE_HSIC_dev.set_adv_best_obj, SSWAE_HSIC_dev.set_adv_hist,
    SSWAE_HSIC_dev.list_append, SSWAE_HSIC_dev.set_list, SSWAE_HSIC_dev.adv_save,
    SSWAE_HSIC_dev.adv_torch_save, SSWAE_HSIC_dev.adv_torch_load,
    SSWAE_HSIC_dev.adv_epoch_done.
  repeat inv_step_cmp.
  all: unfold J in *; cbn [adv_best_obj snd st] in *; try assumption.
  all: try (apply Rgtb_inv in Ecmp; cbn [adv_best_obj snd st] in *; lra).
Qed.
End BestObjAdv.

Lemma wpx_bind_any {W A B} (c : prog W A) (f : A -> prog W B) (Q : exn + B -> W -> Prop) w :
  (forall e w', Q (inl e) w') ->
  (forall a w', wpx (f a) Q w') ->
  wpx (bind c f) Q w.
Proof.
  intros He Hf. unfold wpx, bind in *. destruct (c w) as [[e|a] w']; [apply He | apply Hf].
Qed.

Section VAE_more.
Context {M O S Batch A : Type}.
Variable fw : framework M O S Batch.
Variable ia : inc_avg_ops A.
Variable hp : hparams.
Variable recon_loss : M -> Batch -> R.
Variable mu_and_logvar : M -> Batch -> list (list R) * list (list R).

(** X19. [VAE_abstract.pretrain_encoder] is not implemented: with
    [encoder_pretrain] set, [train] raises [NotImplementedError] before
    an optimizer is created, a checkpoint read, an epoch run or a file
    written. *)
Theorem X19_vae_pretrain_not_implemented kill resume (e : env A (loop_state M O S)) :
  encoder_pretrain hp = true ->
  let run := VAE_abstract.train fw ia hp recon_loss mu_and_logvar kill resume e in
  run.1 = inl NotImplementedError
  /\ params (st run.2) = params (st e)
  /\ optimizer (st run.2) = optimizer (st e)
  /\ epochs_run (st run.2) = epochs_run (st e)
  /\ save_state_file (st run.2) = save_state_file (st e)
  /\ save_path_file (st run.2) = save_path_file (st e).
Proof.
  intros Hpre. unfold VAE_abstract.train. rewrite Hpre. cbn [when].
  destruct e as [a w]. cbn. auto 10.
Qed.

(** X21. A checkpoint written with an empty [lr_schedule] has no
    ["scheduler"] entry: resuming from it with a non-empty
    [lr_schedule] raises [KeyError('scheduler')] once the model and the
    optimizer have been loaded; no epoch is run and the file is left as
    it was. *)
Theorem X21_resume_scheduler_key_missing kill (e : env A (loop_state M O S)) hp0 epoch0 w0 :
  encoder_pretrain hp = false ->
  nonempty (lr_schedule hp) = true ->
  nonempty (lr_schedule hp0) = false ->
  save_state_file (st e) = Some (VAE_abstract.save_dict hp0 epoch0 w0) ->
  let run := VAE_abstract.train fw ia hp recon_loss mu_and_logvar kill true e in
  run.1 = inl (KeyError "scheduler")
  /\ params (st run.2) = params w0
  /\ optimizer (st run.2) = optimizer w0
  /\ epochs_run (st run.2) = epochs_run (st e)
  /\ save_state_file (st run.2) = save_state_file (st e).
Proof.
  intros Hpre Hls Hls0 Hfile run.
  change (wpx (VAE_abstract.train fw ia hp recon_loss mu_and_logvar kill true)
              (fun r e' => r = inl (KeyError "scheduler")
                           /\ params (st e') = params w0
                           /\ optimizer (st e') = optimizer w0
                           /\ epochs_run (st e') = epochs_run (st e)
                           /\ save_state_file (st e') = save_state_file (st e)) e).
  unfold VAE_abstract.train. rewrite Hpre, Hls. cbn [when].
  apply wpx_bind_wp. wp_pure.
  apply wpx_bind_wp. wp_pure. apply wpx_bind_wp. wp_pure.
  apply wpx_bind_wp. wp_pure. apply wpx_bind_wp. wp_pure.
  unfold wpx, bind, torch_load, get_st, get, ret, raise. cbn. rewrite Hfile. cbn.
  unfold VAE_abstract.save_dict. rewrite Hls0. cbn. auto.
Qed.

(** X22. Resuming from the checkpoint of a run that has reached
    [num_epoch] runs no epoch: [train] returns normally and leaves the
    checkpoint as it was. *)
Theorem X22_resume_finished_run kill (e : env A (loop_state M O S)) epoch0 w0 :
  encoder_pretrain hp = false ->
  save_state_file (st e) = Some (VAE_abstract.save_dict hp epoch0 w0) ->
  (num_epoch hp <= epoch0 + 1)%Z ->
  let run := VAE_abstract.train fw ia hp recon_loss mu_and_logvar kill true e in
  run.1 = inr tt
  /\ epochs_run (st run.2) = epochs_run (st e)
  /\ save_state_file (st run.2) = save_state_file (st e).
Proof.
  intros Hpre Hfile Hn run.
  assert (Htest : validate_batch hp = true ->
            forall x, In x (py_range (epoch0 + 1) (num_epoch hp)) -> test_generator fw x <> []).
  { intros _ x Hx. unfold py_range in Hx. rewrite seqZ_nil in Hx by lia. destruct Hx. }
  pose proof (vae_train_resume fw ia hp recon_loss mu_and_logvar kill e epoch0 w0
                Hpre Htest Hfile) as H.
  unfold wpx, vae_run_post in H. fold run in H. clearbody run.
  unfold py_range in H. rewrite seqZ_nil in H by lia.
  destruct kill as [k|]; cbn [ran killed take length] in H.
  - rewrite take_nil in H. cbn in H. rewrite app_nil_r in H.
    unfold vae_file_after in H. cbn in H. destruct (nonempty (save_state hp)); tauto.
  - rewrite app_nil_r in H.
    unfold vae_file_after in H. cbn in H. destruct (nonempty (save_state hp)); tauto.
Qed.

Lemma vae_final_model_saved kill resume (e : env A (loop_state M O S)) :
  validate_batch hp = false ->
  let run := VAE_abstract.train fw ia hp recon_loss mu_and_logvar kill resume e in
  run.1 = inr tt -> save_path_file (st run.2) = Some (params (st run.2)).
Proof.
  intros Hval run.
  change (wpx (VAE_abstract.train fw ia hp recon_loss mu_and_logvar kill resume)
              (fun r e' => r = inr tt -> save_path_file (st e') = Some (params (st e'))) e).
  unfold VAE_abstract.train. rewrite Hval. cbn [negb when].
  repeat lazymatch goal with
    | |- wpx (bind save _) _ _ => fail
    | |- wpx (bind _ _) _ _ => apply wpx_bind_any; [discriminate | intros ? ?]
    end.
  intros _. reflexivity.
Qed.
End VAE_more.

Ltac st_simpl :=
  cbn [accs st params best_obj hist optimizer scheduler train_main_list train_penalty_list
       test_main_list test_penalty_list save_path_file save_state_file epochs_run].

Ltac wp_go := repeat (wp_step; cbv beta; st_simpl).

Section Classifier_more.
Context {M O S Batch A : Type}.
Variable fw : framework M O S Batch.
Variable ia : inc_avg_ops A.
Variable hp : hparams.
Variable forward_loss : M -> Batch -> R.

Lemma classifier_epoch_ok epoch (e : env A (loop_state M O S)) :
  validate_batch hp && save_best hp = false ->
  wp (classifier_abstract.train_epoch fw ia hp forward_loss epoch)
     (fun _ e' =>
        epochs_run (st e') = epochs_run (st e) ++ [epoch]
        /\ (validate_batch hp = true -> save_path_file (st e') = Some (params (st e'))))
     e.
Proof.
  intros Hflags. unfold classifier_abstract.train_epoch.
  wp_go.
  apply (wp_for_each (keeps (epochs_run (st e)) (save_state_file (st e))
                            ["train_loss_main"]%string)).
  { repeat split; cbn [accs st]. repeat constructor; bound. }
  { intros b e1 _ (Hn & HL & HF). apply Forall_cons in Hn as [Hn1 _].
    wp_go. destruct (optimize fw _ _ _) as [m' o'].
    wp_go.
    repeat split; try assumption.
    repeat constructor; bound. }
  intros e1 (Hn & HL & HF). apply Forall_cons in Hn as [Hn1 _].
  wp_go.
  destruct (validate_batch hp) eqn:Hval; cbn [when].
  - cbn [andb] in Hflags. rewrite Hflags.
    apply wp_bind.
    apply (wp_for_each (keeps (epochs_run (st e)) (save_state_file (st e))
                              ["test_loss_main"]%string)).
    { repeat split; st_simpl; try assumption.
      repeat constructor; bound. }
    { intros b e3 _ (Hn3 & HL3 & HF3). apply Forall_cons in Hn3 as [Hm1 _].
      wp_go.
      repeat split; try assumption.
      repeat constructor; bound. }
    intros e3 (Hn3 & HL3 & HF3). apply Forall_cons in Hn3 as [Hm1 _].
    wp_go.
    destruct (scheduler_step fw _ _) as [s' o'].
    wp_go.
    destruct (nonempty (save_state hp)); cbn [when]; wp_go;
      (split; [congruence | reflexivity]).
  - wp_go.
    destruct (scheduler_step fw _ _) as [s' o'].
    wp_go.
    destruct (nonempty (save_state hp)); cbn [when]; wp_go;
      (split; [congruence | discriminate]).
Qed.

Lemma classifier_epochs_ok l (e : env A (loop_state M O S)) :
  validate_batch hp && save_best hp = false ->
  wp (for_each l (classifier_abstract.train_epoch fw ia hp forward_loss))
     (fun _ e' =>
        epochs_run (st e') = epochs_run (st e) ++ l
        /\ (validate_batch hp = true -> l <> [] ->
            save_path_file (st e') = Some (params (st e'))))
     e.
Proof.
  intros Hflags. revert e. induction l as [|x l IH]; intros e; cbn [for_each].
  - apply wp_ret. rewrite app_nil_r. split; [reflexivity | congruence].
  - apply wp_bind. eapply wp_mono; [apply classifier_epoch_ok, Hflags|].
    intros [] e1 [HL HP].
    destruct l as [|y l].
    + cbn [for_each]. apply wp_ret. split; [exact HL | intros Hval _; apply HP, Hval].
    + eapply wp_mono; [apply IH|].
      intros [] e2 [HL2 HP2]. split.
      * rewrite HL2, HL, <- app_assoc. reflexivity.
      * intros Hval _. apply HP2; [exact Hval | discriminate].
Qed.

(** X18. Unless both [validate_batch] and [save_best] are set,
    [classifier_abstract.train] left to run returns normally, having
    run each epoch of [range(num_epoch)] once; the file at [save_path]
    then holds the final parameters, provided [validate_batch] is off
    or at least one epoch has run. *)
Theorem X18_classifier_train_completes (e : env A (loop_state M O S)) :
  validate_batch hp && save_best hp = false ->
  let run := classifier_abstract.train fw ia hp forward_loss None false e in
  run.1 = inr tt
  /\ epochs_run (st run.2) = epochs_run (st e) ++ py_range 0 (num_epoch hp)
  /\ (validate_batch hp = false \/ (0 < num_epoch hp)%Z ->
      save_path_file (st run.2) = Some (params (st run.2))).
Proof.
  intros Hflags run.
  change (wpx (classifier_abstract.train fw ia hp forward_loss None false)
              (fun r e' =>
                 r = inr tt
                 /\ epochs_run (st e') = epochs_run (st e) ++ py_range 0 (num_epoch hp)
                 /\ (validate_batch hp = false \/ (0 < num_epoch hp)%Z ->
                     save_path_file (st e') = Some (params (st e')))) e).
  apply wp_wpx. unfold classifier_abstract.train.
  wp_go. unfold epoch_loop.
  eapply wp_mono; [apply classifier_epochs_ok, Hflags|].
  st_simpl. intros [] e1 [HL HP].
  destruct (validate_batch hp) eqn:Hval; cbn [negb when]; wp_go.
  - split; [reflexivity|]. split; [exact HL|].
    intros [H|H]; [discriminate|]. apply HP; [reflexivity|].
    unfold py_range. rewrite seqZ_cons by lia. discriminate.
  - split; [reflexivity|]. split; [exact HL|]. reflexivity.
Qed.
End Classifier_more.

Section Resume_nofile.
Context {M O S Batch A : Type}.
Variable fw : framework M O S Batch.
Variable ia : inc_avg_ops A.
Variable hp : hparams.

Lemma classifier_resume_nofile forward_loss kill (e : env A (loop_state M O S)) :
  save_state_file (st e) = None ->
  let run := classifier_abstract.train fw ia hp forward_loss kill true e in
  run.1 = inl FileNotFoundError
  /\ epochs_run (st run.2) = epochs_run (st e)
  /\ save_state_file (st run.2) = None
  /\ save_path_file (st run.2) = save_path_file (st e).
Proof.
  intros Hfile. unfold classifier_abstract.train.
  destruct e as [a w]. cbn in Hfile |- *. rewrite Hfile. cbn. auto.
Qed.
End Resume_nofile.

Section Resume_nofile_adv.
Context {PM PD GM GD O S Img A : Type}.
Variable fw : adv_framework PM PD GM GD O S Img.
Variable ia : inc_avg_ops A.
Variable hp : hparams.

Lemma adv_resume_nofile kill (e : env A (adv_state PM PD GM GD O S)) :
  encoder_pretrain hp = false ->
  adv_save_state_file (st e) = None ->
  let run := SSWAE_HSIC_dev.train fw ia hp kill true e in
  run.1 = inl FileNotFoundError
  /\ adv_epochs_run (st run.2) = adv_epochs_run (st e)
  /\ adv_save_state_file (st run.2) = None
  /\ adv_save_path_file (st run.2) = adv_save_path_file (st e).
Proof.
  intros Hpre Hfile. unfold SSWAE_HSIC_dev.train. rewrite Hpre. cbn [when].
  destruct e as [a w]. cbn in Hfile |- *. rewrite Hfile. cbn. auto.
Qed.
End Resume_nofile_adv.

Section Adv_total.
Context {PM PD GM GD O S Img A : Type}.
Variable fw : adv_framework PM PD GM GD O S Img.
Variable ia : inc_avg_ops A.
Variable hp : hparams.

End Adv_total.



(** X17. [best_obj[1]] never increases during [train], however the run
    ends: in each of the three loops it is assigned only a value it
    exceeds. *)
Theorem X17_best_obj_never_increases (hp : hparams) :
  (forall M O S Batch A (fw : framework M O S Batch) (ia : inc_avg_ops A)
          forward_loss kill resume (e : env A (loop_state M O S)),
      snd (best_obj (st (classifier_abstract.train fw ia hp forward_loss kill resume e).2))
      <= snd (best_obj (st e)))
  /\ (forall M O S Batch A (fw : framework M O S Batch) (ia : inc_avg_ops A)
             recon_loss mu_and_logvar kill resume (e : env A (loop_state M O S)),
         snd (best_obj
                (st (VAE_abstract.train fw ia hp recon_loss mu_and_logvar kill resume e).2))
         <= snd (best_obj (st e)))
  /\ (forall PM PD GM GD O S Img A (fw : adv_framework PM PD GM GD O S Img)
             (ia : inc_avg_ops A) kill resume (e : env A (adv_state PM PD GM GD O S)),
         snd (adv_best_obj (st (SSWAE_HSIC_dev.train fw ia hp kill resume e).2))
         <= snd (adv_best_obj (st e))).
Proof.
  split; [|split]; intros.
  - apply classifier_best_obj_mono.
  - apply vae_best_obj_mono.
  - apply adv_best_obj_mono.
Qed.

Lemma X18_classifier_train_completes_witness :
  let hp := toy_hparams_flags false true false "" in
  let run :=
    classifier_abstract.train toy_framework toy_inc_avg hp (fun _ _ => 1) None false
      toy_state in
  run.1 = inr tt
  /\ epochs_run (st run.2) = epochs_run (st toy_state) ++ py_range 0 (num_epoch hp)
  /\ (validate_batch hp = false \/ (0 < num_epoch hp)%Z ->
      save_path_file (st run.2) = Some (params (st run.2))).
Proof.
  apply (X18_classifier_train_completes toy_framework toy_inc_avg
           (toy_hparams_flags false true false "") (fun _ _ => 1) toy_state).
  reflexivity.
Defined.

Lemma X19_vae_pretrain_not_implemented_witness :
  let run :=
    VAE_abstract.train toy_framework toy_inc_avg (toy_hparams_flags true true true "")
      toy_recon_loss toy_mu_and_logvar None false toy_state in
  run.1 = inl NotImplementedError
  /\ params (st run.2) = params (st toy_state)
  /\ optimizer (st run.2) = optimizer (st toy_state)
  /\ epochs_run (st run.2) = epochs_run (st toy_state)
  /\ save_state_file (st run.2) = save_state_file (st toy_state)
  /\ save_path_file (st run.2) = save_path_file (st toy_state).
Proof.
  apply (X19_vae_pretrain_not_implemented toy_framework toy_inc_avg
           (toy_hparams_flags true true true "") toy_recon_loss toy_mu_and_logvar
           None false toy_state).
  reflexivity.
Defined.

(** X20. [train(resume=True)] with no file at [save_state] raises
    [FileNotFoundError] in each of the three loops (for [VAE_abstract]
    and [SSWAE_HSIC_dev] with [encoder_pretrain] off): no epoch is run
    and no file is written. *)
Theorem X20_resume_without_checkpoint (hp : hparams) :
  (forall M O S Batch A (fw : framework M O S Batch) (ia : inc_avg_ops A)
          forward_loss kill (e : env A (loop_state M O S)),
      save_state_file (st e) = None ->
      let run := classifier_abstract.train fw ia hp forward_loss kill true e in
      run.1 = inl FileNotFoundError
      /\ epochs_run (st run.2) = epochs_run (st e)
      /\ save_state_file (st run.2) = None
      /\ save_path_file (st run.2) = save_path_file (st e))
  /\ (forall M O S Batch A (fw : framework M O S Batch) (ia : inc_avg_ops A)
             recon_loss mu_and_logvar kill (e : env A (loop_state M O S)),
         encoder_pretrain hp = false ->
         save_state_file (st e) = None ->
         let run := VAE_abstract.train fw ia hp recon_loss mu_and_logvar kill true e in
         run.1 = inl FileNotFoundError
         /\ epochs_run (st run.2) = epochs_run (st e)
         /\ save_state_file (st run.2) = None
         /\ save_path_file (st run.2) = save_path_file (st e))
  /\ (forall PM PD GM GD O S Img A (fw : adv_framework PM PD GM GD O S Img)
             (ia : inc_avg_ops A) kill (e : env A (adv_state PM PD GM GD O S)),
         encoder_pretrain hp = false ->
         adv_save_state_file (st e) = None ->
         let run := SSWAE_HSIC_dev.train fw ia hp kill true e in
         run.1 = inl FileNotFoundError
         /\ adv_epochs_run (st run.2) = adv_epochs_run (st e)
         /\ adv_save_state_file (st run.2) = None
         /\ adv_save_path_file (st run.2) = adv_save_path_file (st e)).
Proof.
  split; [|split].
  - intros. apply classifier_resume_nofile. assumption.
  - intros M O S Batch A fw ia recon_loss mu_and_logvar kill e Hpre Hfile run.
    exact (vae_train_resume_nofile fw ia hp recon_loss mu_and_logvar kill e Hpre Hfile).
  - intros. apply adv_resume_nofile; assumption.
Qed.

Lemma X20_resume_without_checkpoint_witness :
  (let run :=
     classifier_abstract.train toy_framework toy_inc_avg (toy_hparams 1) (fun _ _ => 1)
       None true toy_state in
   run.1 = inl FileNotFoundError
   /\ epochs_run (st run.2) = epochs_run (st toy_state)
   /\ save_state_file (st run.2) = None
   /\ save_path_file (st run.2) = save_path_file (st toy_state))
  /\ (let run :=
        VAE_abstract.train toy_framework toy_inc_avg (toy_hparams 1)
          toy_recon_loss toy_mu_and_logvar None true toy_state in
      run.1 = inl FileNotFoundError
      /\ epochs_run (st run.2) = epochs_run (st toy_state)
      /\ save_state_file (st run.2) = None
      /\ save_path_file (st run.2) = save_path_file (st toy_state))
  /\ (let run :=
        SSWAE_HSIC_dev.train toy_adv_framework toy_inc_avg (toy_hparams 1) None true
          toy_adv_state in
      run.1 = inl FileNotFoundError
      /\ adv_epochs_run (st run.2) = adv_epochs_run (st toy_adv_state)
      /\ adv_save_state_file (st run.2) = None
      /\ adv_save_path_file (st run.2) = adv_save_path_file (st toy_adv_state)).
Proof.
  pose proof (X20_resume_without_checkpoint (toy_hparams 1)) as (H1 & H2 & H3).
  split; [|split].
  - apply (H1 _ _ _ _ _ toy_framework toy_inc_avg (fun _ _ => 1) None toy_state).
    reflexivity.
  - apply (H2 _ _ _ _ _ toy_framework toy_inc_avg toy_recon_loss toy_mu_and_logvar None
              toy_state); reflexivity.
  - apply (H3 _ _ _ _ _ _ _ _ toy_adv_framework toy_inc_avg None toy_adv_state);
      reflexivity.
Defined.

Lemma X21_resume_scheduler_key_missing_witness :
  let e := toy_state_with (Some (VAE_abstract.save_dict (toy_hparams 1) 0 (st toy_state))) in
  let run :=
    VAE_abstract.train toy_framework toy_inc_avg (toy_hparams_flags false true true "step")
      toy_recon_loss toy_mu_and_logvar None true e in
  run.1 = inl (KeyError "scheduler")
  /\ params (st run.2) = params (st toy_state)
  /\ optimizer (st run.2) = optimizer (st toy_state)
  /\ epochs_run (st run.2) = epochs_run (st e)
  /\ save_state_file (st run.2) = save_state_file (st e).
Proof.
  apply (X21_resume_scheduler_key_missing toy_framework toy_inc_avg
           (toy_hparams_flags false true true "step") toy_recon_loss toy_mu_and_logvar
           None
           (toy_state_with (Some (VAE_abstract.save_dict (toy_hparams 1) 0 (st toy_state))))
           (toy_hparams 1) 0 (st toy_state));
    reflexivity.
Defined.

Lemma X22_resume_finished_run_witness :
  let e := toy_state_with (Some (VAE_abstract.save_dict (toy_hparams 1) 2 (st toy_state))) in
  let run :=
    VAE_abstract.train toy_framework toy_inc_avg (toy_hparams 1)
      toy_recon_loss toy_mu_and_logvar None true e in
  run.1 = inr tt
  /\ epochs_run (st run.2) = epochs_run (st e)
  /\ save_state_file (st run.2) = save_state_file (st e).
Proof.
  apply (X22_resume_finished_run toy_framework toy_inc_avg (toy_hparams 1)
           toy_recon_loss toy_mu_and_logvar None
           (toy_state_with (Some (VAE_abstract.save_dict (toy_hparams 1) 2 (st toy_state))))
           2 (st toy_state)).
  - reflexivity.
  - reflexivity.
  - cbn. lia.
Defined.

(** X23. With [encoder_pretrain] off, [VAE_abstract.train] left to run
    returns normally for every setting of [validate_batch] and
    [save_best], having run each epoch of [range(num_epoch)] once,
    provided that, when [validate_batch] is set, the test loader yields
    a batch at every epoch; with [validate_batch] off the file at
    [save_path] holds the final parameters.  With [validate_batch] set
    and a test loader that yields no batch at epoch [k], the first such
    epoch, [next(iter(self.test_generator))] raises [StopIteration] in
    that epoch: the epochs before [k] have run to their end and the
    checkpoint is that of the last of them. *)
Theorem X23_vae_train_completes {M O S Batch A : Type} (fw : framework M O S Batch)
    (ia : inc_avg_ops A) (hp : hparams) recon_loss mu_and_logvar
    (e : env A (loop_state M O S)) :
  encoder_pretrain hp = false ->
  let run := VAE_abstract.train fw ia hp recon_loss mu_and_logvar None false e in
  ((validate_batch hp = true ->
    forall epoch, (0 <= epoch < num_epoch hp)%Z -> test_generator fw epoch <> []) ->
   run.1 = inr tt
   /\ epochs_run (st run.2) = epochs_run (st e) ++ py_range 0 (num_epoch hp)
   /\ (validate_batch hp = false -> save_path_file (st run.2) = Some (params (st run.2))))
  /\ (validate_batch hp = true ->
      forall k,
        (0 <= k < num_epoch hp)%Z ->
        (forall epoch, (0 <= epoch < k)%Z -> test_generator fw epoch <> []) ->
        test_generator fw k = [] ->
        run.1 = inl StopIteration
        /\ epochs_run (st run.2) = epochs_run (st e) ++ py_range 0 k
        /\ vae_file_after hp (py_range 0 k) (save_state_file (st e))
                          (save_state_file (st run.2))).
Proof.
  intros Hpre run. split.
  - intros Htest.
    assert (Htest' : validate_batch hp = true ->
              forall x, In x (py_range 0 (num_epoch hp)) -> test_generator fw x <> []).
    { intros Hv x Hx. apply (Htest Hv), In_py_range, Hx. }
    pose proof (vae_train_fresh fw ia hp recon_loss mu_and_logvar None e Hpre Htest') as H.
    unfold wpx, vae_run_post in H. fold run in H. cbn [killed ran] in H.
    destruct H as (Hr & HL & _).
    split; [exact Hr|]. split; [exact HL|].
    intros Hval.
    exact (vae_final_model_saved fw ia hp recon_loss mu_and_logvar None false e Hval Hr).
  - intros Hval k Hk Htest Hemp.
    exact (vae_train_stops fw ia hp recon_loss mu_and_logvar k e Hpre Hval Hk Htest Hemp).
Qed.

Lemma X23_vae_train_completes_witness :
  (let run :=
     VAE_abstract.train toy_framework toy_inc_avg (toy_hparams 1)
       toy_recon_loss toy_mu_and_logvar None false toy_state in
   run.1 = inr tt /\ epochs_run (st run.2) = [0; 1; 2]%Z)
  /\ (let run :=
        VAE_abstract.train toy_framework_no_test toy_inc_avg (toy_hparams 1)
          toy_recon_loss toy_mu_and_logvar None false toy_state in
      run.1 = inl StopIteration
      /\ epochs_run (st run.2) = []
      /\ save_state_file (st run.2) = None).
Proof.
  split.
  - destruct (proj1 (X23_vae_train_completes toy_framework toy_inc_avg (toy_hparams 1)
                       toy_recon_loss toy_mu_and_logvar toy_state eq_refl))
      as (Hr & HL & _).
    + intros _ epoch _. discriminate.
    + split; [exact Hr | exact HL].
  - destruct (proj2 (X23_vae_train_completes toy_framework_no_test toy_inc_avg (toy_hparams 1)
                       toy_recon_loss toy_mu_and_logvar toy_state eq_refl)
                eq_refl 0%Z)
      as (Hr & HL & HF).
    + cbn. lia.
    + intros epoch He. lia.
    + reflexivity.
    + split; [exact Hr|]. split; [exact HL | exact HF].
Defined.


(** ** The MNIST networks: shapes from the dataset to the reconstruction *)

Section Net_props.
Import Net Dataset.

Lemma concat_replicate_singleton {A} n (x : A) : concat (replicate n [x]) = replicate n x.
Proof. induction n as [|n IH]; cbn; [reflexivity|]. rewrite IH. reflexivity. Qed.

(** X25. Every image that [MNIST.__getitem__] serves has 28 rows of 28
    pixels in each of its channels, one channel unless
    [output_channels > 1]; with another number of channels than one the
    [embed_data] of the three MNIST networks reject it. *)
Theorem X25_mnist_image_shape self idx img c :
  MNIST.__getitem__ self idx = inr (img, c) ->
  shape_of img
  = Img (if (1 <? output_channels self)%Z then Z.to_nat (output_channels self) else 1) 28 28
  /\ forall y_dim z_dim ch, ch <> 1%nat ->
       Sequential SSWAE_HSIC_MNIST.embed_data (Img ch 28 28) = None
       /\ Sequential CVAE_MNIST.embed_data (Img ch 28 28) = None
       /\ Sequential CWAE_GAN_MNIST.embed_data (Img ch 28 28) = None
       /\ SSWAE_HSIC_MNIST.encode y_dim z_dim (Img ch 28 28) = None.
Proof.
  intros H. split.
  - unfold MNIST.__getitem__ in H.
    destruct (py_index (data self) idx) as [r|]; [|discriminate].
    unfold reshape_1_28_28 in H.
    destruct (Nat.eqb_spec (length (MNIST.pixels r)) 784) as [Hlen|]; [|discriminate].
    set (plane := map (fun i => take 28 (drop (i * 28) (MNIST.pixels r))) (seq 0 28)) in H.
    assert (Hplane : length plane = 28%nat /\ length (default [] (head plane)) = 28%nat).
    { split; [reflexivity|].
      change (head plane) with (Some (take 28 (drop (0 * 28) (MNIST.pixels r)))).
      cbn [default]. unfold Datatypes.id. rewrite length_take, length_drop, Hlen.
      reflexivity. }
    assert (Himg : img = if (1 <? output_channels self)%Z
                         then repeat_channels (output_channels self) [plane] else [plane]).
    { destruct (label self).
      - destruct (py_index (code self) (col0 r)); [|discriminate]. congruence.
      - congruence. }
    rewrite Himg. clear H Himg. clearbody plane. destruct Hplane as [Hp1 Hp2].
    destruct (Z.ltb_spec 1 (output_channels self)) as [Hc|Hc].
    + unfold repeat_channels. rewrite concat_replicate_singleton.
      unfold shape_of. rewrite length_replicate.
      destruct (Z.to_nat (output_channels self)) as [|n] eqn:E; [lia|].
      change (head (replicate (S n) plane)) with (Some plane).
      change (default [] (Some plane)) with plane.
      rewrite Hp1, Hp2. reflexivity.
    + unfold shape_of.
      change (head [plane]) with (Some plane).
      change (default [] (Some plane)) with plane.
      rewrite Hp1, Hp2. reflexivity.
  - intros y_dim z_dim ch Hch.
    assert (E : (ch =? 1)%nat = false) by (apply Nat.eqb_neq; exact Hch).
    unfold SSWAE_HSIC_MNIST.encode.
    unfold SSWAE_HSIC_MNIST.embed_data, CVAE_MNIST.embed_data, CWAE_GAN_MNIST.embed_data,
      Sequential.
    cbn [fold_left forward]. rewrite E.
    repeat split.
Qed.

Lemma X25_mnist_image_shape_witness :
  exists img c,
    MNIST.__getitem__ (MNIST.__init__ (fun x => x) toy_image_file true 1 1) 0 = inr (img, c)
    /\ shape_of img = Img 1 28 28.
Proof.
  assert (H : exists img c,
            MNIST.__getitem__ (MNIST.__init__ (fun x => x) toy_image_file true 1 1) 0 = inr (img, c)).
  { unfold MNIST.__getitem__, MNIST.__init__. cbv zeta. unfold Rltb.
    destruct (Rlt_dec 1 1.0) as [Hlt|_]; [lra|].
    cbn [data code label output_channels]. eexists _, _. reflexivity. }
  destruct H as (img & c & H). exists img, c. split; [exact H|].
  exact (proj1 (X25_mnist_image_shape _ 0%Z img c H)).
Defined.

Lemma Sequential_cons l ls x :
  Sequential (l :: ls) x
  = match forward l x with Some s => Sequential ls s | None => None end.
Proof.
  unfold Sequential. cbn [fold_left]. destruct (forward l x) as [s|]; [reflexivity|].
  induction ls as [|l' ls IH]; [reflexivity | exact IH].
Qed.

Lemma forward_Linear i o : forward (Linear i o) (Vec i) = Some (Vec o).
Proof. cbn [forward]. rewrite Nat.eqb_refl. reflexivity. Qed.

(** X26. The networks of [SSWAE_HSIC_MNIST] fit together on MNIST
    images, for every [y_dim] and [z_dim]: [embed_data] maps a
    [(1, 28, 28)] image to the [49 * 2 * d] features that
    [embed_condition] and [enc] take; [encode] returns
    [y_dim + z_dim] columns, which [dec] maps back to an image of the
    shape of the input; [disc] takes the [z_dim] columns that
    [penalty_loss] hands it and returns one logit; [f1] takes the ten
    columns of a label code. *)
Theorem X26_sswae_mnist_shapes y_dim z_dim :
  Sequential SSWAE_HSIC_MNIST.embed_data (Img 1 28 28)
  = Some (Vec (49 * 2 * SSWAE_HSIC_MNIST.d))
  /\ SSWAE_HSIC_MNIST.encode y_dim z_dim (Img 1 28 28) = Some (Vec (y_dim + z_dim))
  /\ Sequential (SSWAE_HSIC_MNIST.dec y_dim z_dim) (Vec (y_dim + z_dim)) = Some (Img 1 28 28)
  /\ Sequential (SSWAE_HSIC_MNIST.disc z_dim) (Vec z_dim) = Some (Vec 1)
  /\ Sequential (SSWAE_HSIC_MNIST.f1 y_dim) (Vec 10) = Some (Vec y_dim).
Proof.
  split; [|split; [|split; [|split]]].
  - vm_compute. reflexivity.
  - vm_compute. reflexivity.
  - unfold SSWAE_HSIC_MNIST.dec. rewrite Sequential_cons, forward_Linear.
    vm_compute. reflexivity.
  - unfold SSWAE_HSIC_MNIST.disc. rewrite Sequential_cons, forward_Linear.
    vm_compute. reflexivity.
  - vm_compute. reflexivity.
Qed.

(** X27. The networks of [CVAE_MNIST] fit together on MNIST images, for
    every [y_dim] and [z_dim]: [mu_and_logvar] of an image and a label
    of [y_dim] columns returns two tensors of [z_dim] columns each, and
    [decode] of [z_dim] and [y_dim] columns returns an image of the
    shape of the input. *)
Theorem X27_cvae_mnist_shapes y_dim z_dim :
  CVAE_MNIST.mu_and_logvar y_dim z_dim (Img 1 28 28) (Vec y_dim)
  = (Some (Vec z_dim), Some (Vec z_dim))
  /\ CVAE_MNIST.decode y_dim z_dim (Vec z_dim) (Vec y_dim) = Some (Img 1 28 28).
Proof.
  split.
  - unfold CVAE_MNIST.mu_and_logvar.
    assert (E : Sequential CVAE_MNIST.embed_data (Img 1 28 28)
                = Some (Vec (49 * 2 * CVAE_MNIST.d))) by (vm_compute; reflexivity).
    rewrite E.
    change (Sequential CVAE_MNIST.embed_condition (Vec y_dim)) with (Some (Vec y_dim)).
    cbn [cat]. unfold CVAE_MNIST.enc. rewrite Sequential_cons, forward_Linear.
    change (Sequential [BatchNorm1d CVAE_MNIST.d; ReLU] (Vec CVAE_MNIST.d))
      with (Some (Vec CVAE_MNIST.d)).
    unfold CVAE_MNIST.mu, CVAE_MNIST.logvar.
    rewrite Sequential_cons, forward_Linear. reflexivity.
  - unfold CVAE_MNIST.decode. cbn [cat]. unfold CVAE_MNIST.dec.
    rewrite Sequential_cons, forward_Linear. vm_compute. reflexivity.
Qed.

(** X28. The networks of [CWAE_GAN_MNIST] fit MNIST images, for every
    [y_dim] and [z_dim]: the four strided convolutions of [embed_data]
    reduce a [(1, 28, 28)] image to [8 * d] features, which with the
    [y_dim] columns of a label are what [enc] takes; [dec] maps
    [z_dim + y_dim] columns to an image of the shape of the input;
    [disc] maps them to one logit. *)
Theorem X28_cwae_gan_mnist_shapes y_dim z_dim :
  Sequential CWAE_GAN_MNIST.embed_data (Img 1 28 28) = Some (Vec (8 * CWAE_GAN_MNIST.d))
  /\ Sequential (CWAE_GAN_MNIST.enc y_dim z_dim) (Vec (8 * CWAE_GAN_MNIST.d + y_dim))
     = Some (Vec z_dim)
  /\ Sequential (CWAE_GAN_MNIST.dec y_dim z_dim) (Vec (z_dim + y_dim)) = Some (Img 1 28 28)
  /\ Sequential (CWAE_GAN_MNIST.disc y_dim z_dim) (Vec (z_dim + y_dim)) = Some (Vec 1).
Proof.
  split; [|split; [|split]].
  - vm_compute. reflexivity.
  - unfold CWAE_GAN_MNIST.enc. rewrite Sequential_cons, forward_Linear.
    vm_compute. reflexivity.
  - unfold CWAE_GAN_MNIST.dec. rewrite Sequential_cons, forward_Linear.
    vm_compute. reflexivity.
  - unfold CWAE_GAN_MNIST.disc. rewrite Sequential_cons, forward_Linear.
    vm_compute. reflexivity.
Qed.
End Net_props.
